(** * Carryover ("Streaks: Overload"): the daily rollover and streak engine

    A shallow embedding of [server.js].  JavaScript Numbers are IEEE 754
    binary64 values, modelled by Rocq's primitive [float]; day numbers and
    loop counters, which the program only ever holds as small integers, are
    [Z]; strings are [string], read as sequences of code units below 256.
    Reads of the wall clock ([Date.now()], [localDateKey()]) and of the
    random source ([crypto.randomUUID()]) are fields of a [Host] record
    that every function reading them takes as an argument; one synchronous
    call sees one instant. *)

From Stdlib Require Import ZArith List String Ascii Bool Lia Floats.
From Stdlib Require Import DecimalString.
Import ListNotations.

#[local] Set Warnings "-inexact-float,-register-all".
#[local] Open Scope Z_scope.

(** ** JavaScript Numbers *)

Module JS.

(** [Number.isFinite(n)] for a value that is a Number. *)
Definition Number_isFinite (n : float) : bool := is_finite n.

(** [Number.isInteger(n)]: finite, and with no fractional part. *)
Definition Number_isInteger (n : float) : bool :=
  match Prim2SF n with
  | S754_zero _ => true
  | S754_finite _ m e => (0 <=? e) || (Z.pos m mod 2 ^ (- e) =? 0)
  | _ => false
  end.

(** [Math.max(a, b)]: NaN if either is NaN, else the larger, with +0 above -0. *)
Definition Math_max (a b : float) : float :=
  if is_nan a || is_nan b then nan
  else if (a <? b)%float then b
  else if (b <? a)%float then a
  else if get_sign a then b else a.

(** The Number of the integer [z], for [|z| < 2^63]; exact when
    [|z| <= 2^53].  [szero] is the sign given to a zero. *)
Definition of_Z (z : Z) (szero : bool) : float :=
  if z =? 0 then (if szero then (-0)%float else 0%float)
  else if z <? 0 then (- of_uint63 (Uint63Axioms.of_Z (- z)))%float
  else of_uint63 (Uint63Axioms.of_Z z).

(** [Math.round(x)]: the integer nearest to [x], ties towards +infinity;
    NaN, the infinities, the zeros and integers are returned as they are;
    a result of zero keeps the sign of [x]. *)
Definition Math_round (x : float) : float :=
  match Prim2SF x with
  | S754_finite s m e =>
      if 0 <=? e then x
      else
        let k := 2 ^ (- e) in
        let v := cond_Zopp s (Z.pos m) in
        of_Z ((2 * v + k) / (2 * k)) s
  | _ => x
  end.

(** [Number.EPSILON] is 2^-52. *)
Definition Number_EPSILON : float := 0x1p-52%float.

End JS.

(** Classes of Numbers in their specification form [spec_float], used to
    state what an operation returns: NaN; and a zero, an infinity or a
    finite value that carries the sign [s]. *)
Definition is_nanSF (x : spec_float) : bool :=
  match x with S754_nan => true | _ => false end.

Definition has_sign (s : bool) (x : spec_float) : bool :=
  match x with
  | S754_zero b | S754_infinity b | S754_finite b _ _ => Bool.eqb b s
  | S754_nan => false
  end.

(** [Number.EPSILON] and [10 ** 6] in specification form. *)
Definition SF_EPSILON : spec_float := S754_finite false 4503599627370496 (-104).
Definition SF_1e6 : spec_float := S754_finite false 8589934592000000 (-33).

(** The specification form of an integer from 1 to 2^53 - 1. *)
Definition canon (p : positive) : spec_float :=
  let d := Z.pos (digits2_pos p) in
  S754_finite false (Z.to_pos (Z.pos p * 2 ^ (53 - d))) (d - 53).

(** ** Strings and calendar days *)

Module Str.

(** White space and line terminators among the code units below 256, as
    [String.prototype.trim] strips them. *)
Definition is_space (c : ascii) : bool :=
  let n := N_of_ascii c in
  ((9 <=? n) && (n <=? 13) || (n =? 32) || (n =? 160))%N.

Fixpoint trimStart (s : string) : string :=
  match s with
  | String c r => if is_space c then trimStart r else s
  | EmptyString => EmptyString
  end.

Fixpoint rev_string (s acc : string) : string :=
  match s with
  | EmptyString => acc
  | String c r => rev_string r (String c acc)
  end.

Definition trim (s : string) : string :=
  rev_string (trimStart (rev_string (trimStart s) "")) "".

Definition startsWith (s p : string) : bool := prefix p s.

(** A non-empty string is truthy. *)
Definition truthy (s : string) : bool := negb (s =? "")%string.

(** [a > b] on strings: code unit order. *)
Definition gt (a b : string) : bool := String.ltb b a.

(** [String(n)] for an integer [n]. *)
Definition of_int (n : Z) : string :=
  if n <? 0 then "-" ++ NilZero.string_of_uint (N.to_uint (Z.to_N (- n)))
  else NilZero.string_of_uint (N.to_uint (Z.to_N n)).

Definition padStart2 (s : string) : string :=
  match s with
  | EmptyString => "00"
  | String c EmptyString => String "0" s
  | _ => s
  end.

Definition is_digit (c : ascii) : bool :=
  let n := N_of_ascii c in ((48 <=? n) && (n <=? 57))%N.

Definition digit (c : ascii) : Z := Z.of_N (N_of_ascii c) - 48.

End Str.

(** ECMAScript's day arithmetic (ECMA-262, "Time Values and Time Range"),
    on day numbers counted from 1970-01-01 UTC. *)
Module Day.

Definition msPerDay : Z := 86400000.

Definition DayFromYear (y : Z) : Z :=
  365 * (y - 1970) + (y - 1969) / 4 - (y - 1901) / 100 + (y - 1601) / 400.

Definition InLeapYear (y : Z) : bool :=
  if negb (y mod 4 =? 0) then false
  else if negb (y mod 100 =? 0) then true
  else (y mod 400 =? 0).

(** Days of the year before month [mn] (0 = January). *)
Definition DaysBeforeMonth (leap : bool) (mn : Z) : Z :=
  let l := if leap then 1 else 0 in
  match mn with
  | 0 => 0 | 1 => 31 | 2 => 59 + l | 3 => 90 + l | 4 => 120 + l
  | 5 => 151 + l | 6 => 181 + l | 7 => 212 + l | 8 => 243 + l
  | 9 => 273 + l | 10 => 304 + l | _ => 334 + l
  end.

(** [MakeDay(year, month, date)]: months and dates out of range carry. *)
Definition MakeDay (year month date : Z) : Z :=
  let ym := year + month / 12 in
  let mn := month mod 12 in
  DayFromYear ym + DaysBeforeMonth (InLeapYear ym) mn + date - 1.

(** [YearFromTime]: the largest year that starts on or before day [d]. *)
Definition YearFromDay (d : Z) : Z :=
  let y0 := 1970 + (d * 400) / 146097 in
  if d <? DayFromYear y0 then y0 - 1
  else if DayFromYear (y0 + 1) <=? d then y0 + 1
  else y0.

Definition DayWithinYear (d : Z) : Z := d - DayFromYear (YearFromDay d).

(** [MonthFromTime], 0 = January. *)
Definition MonthFromDay (d : Z) : Z :=
  let w := DayWithinYear d in
  let l := if InLeapYear (YearFromDay d) then 1 else 0 in
  if w <? 31 then 0 else if w <? 59 + l then 1 else if w <? 90 + l then 2
  else if w <? 120 + l then 3 else if w <? 151 + l then 4
  else if w <? 181 + l then 5 else if w <? 212 + l then 6
  else if w <? 243 + l then 7 else if w <? 273 + l then 8
  else if w <? 304 + l then 9 else if w <? 334 + l then 10 else 11.

(** [DateFromTime], 1 = the first of the month. *)
Definition DateFromDay (d : Z) : Z :=
  DayWithinYear d
  - DaysBeforeMonth (InLeapYear (YearFromDay d)) (MonthFromDay d) + 1.

(** [Date.UTC(y, m, d)] in milliseconds, for integers in the range the
    program passes (four-digit year, two-digit month and day): a year from
    0 to 99 means 1900 + year. *)
Definition Date_UTC (y m d : Z) : Z :=
  let yr := if (0 <=? y) && (y <=? 99) then 1900 + y else y in
  MakeDay yr m d * msPerDay.

(** [d.setUTCDate(dt)] on a time value [t]. *)
Definition setUTCDate (t dt : Z) : Z :=
  let d := t / msPerDay in
  MakeDay (YearFromDay d) (MonthFromDay d) dt * msPerDay + t mod msPerDay.

Definition getUTCFullYear (t : Z) : Z := YearFromDay (t / msPerDay).
Definition getUTCMonth (t : Z) : Z := MonthFromDay (t / msPerDay).
Definition getUTCDate (t : Z) : Z := DateFromDay (t / msPerDay).

End Day.

(** ** Values read from JSON, and their coercion to Number *)

(** What the program reads from the world during one synchronous call: the
    clock, the random source, and the two conversions between strings and
    Numbers of ECMAScript, which are not spelled out here and stay
    arbitrary in every statement. *)
Record Host := {
  now_ms : Z;                        (* Date.now(), in milliseconds *)
  local_year : Z;                    (* new Date().getFullYear() *)
  local_month : Z;                   (* new Date().getMonth(), 0 = January *)
  local_date : Z;                    (* new Date().getDate() *)
  randomUUID : string;               (* crypto.randomUUID() *)
  StringToNumber : string -> float;  (* Number(s) on a string *)
  NumberToString : float -> string   (* String(n) on a Number *)
}.

(** [Date.now()] as a Number. *)
Definition Date_now (h : Host) : float := JS.of_Z (now_ms h) false.

(** The values [JSON.parse] produces, and [undefined] for a missing member.
    An object lists its own members, the one that counts first. *)
Inductive value :=
| VUndefined
| VNull
| VBool (b : bool)
| VNum (n : float)
| VStr (s : string)
| VObj (members : list (string * value))
| VArr (items : list value).

(** A completion: a value, or a thrown exception. *)
Inductive result (A : Type) :=
| Ok (a : A)
| Throw (e : string).
Arguments Ok {A} a.
Arguments Throw {A} e.

Definition bind {A B} (r : result A) (f : A -> result B) : result B :=
  match r with Ok a => f a | Throw e => Throw e end.

Fixpoint own (members : list (string * value)) (k : string) : option value :=
  match members with
  | [] => None
  | (k', v) :: r => if (k' =? k)%string then Some v else own r k
  end.

(** [t.k] for the object [t] that [normalizeTask] reads and a member name
    [k] that no prototype defines: an own member, else [undefined]. *)
Definition get (t : value) (k : string) : value :=
  match t with
  | VObj ms => match own ms k with Some v => v | None => VUndefined end
  | _ => VUndefined
  end.

(** [body.k] for any value [body]: reading a member of [null] or
    [undefined] throws. *)
Definition get_member (body : value) (k : string) : result value :=
  match body with
  | VUndefined | VNull => Throw "TypeError"
  | _ => Ok (get body k)
  end.

Section Coercions.
Variable h : Host.

(** [ToString(v)].  A JSON member is never callable, so an object with a
    member of its own named toString has no usable conversion method
    ([Object.prototype.valueOf] returns the object itself) and
    OrdinaryToPrimitive throws; any other object prints as
    "[object Object]", an array as its elements joined by commas. *)
Fixpoint ToString (v : value) : result string :=
  match v with
  | VUndefined => Ok "undefined"%string
  | VNull => Ok "null"%string
  | VBool b => Ok (if b then "true" else "false")%string
  | VNum n => Ok (NumberToString h n)
  | VStr s => Ok s
  | VObj ms =>
      match own ms "toString" with
      | Some _ => Throw "TypeError"
      | None => Ok "[object Object]"%string
      end
  | VArr items =>
      let item x :=
        match x with
        | VUndefined | VNull => Ok ""%string
        | _ => ToString x
        end in
      (fix join (l : list value) : result string :=
         match l with
         | [] => Ok ""%string
         | [x] => item x
         | x :: r =>
             bind (item x) (fun a => bind (join r) (fun b => Ok (a ++ "," ++ b)%string))
         end) items
  end.

(** [Number(v)], that is [ToNumber(v)]. *)
Definition Number (v : value) : result float :=
  match v with
  | VUndefined => Ok nan
  | VNull => Ok 0%float
  | VBool b => Ok (if b then 1 else 0)%float
  | VNum n => Ok n
  | VStr s => Ok (StringToNumber h s)
  | VObj _ | VArr _ => bind (ToString v) (fun s => Ok (StringToNumber h s))
  end.

End Coercions.

(** ** The program: constants and helpers *)

Definition DAILY_THRESHOLD : float := 1.0%float.
Definition DAILY_DECAY_MULTIPLIER : float := 0.9%float.
Definition EPS : float := 1e-9%float.

Definition pad2 (n : Z) : string := Str.padStart2 (Str.of_int n).

Definition localDateKey (h : Host) : string :=
  (Str.of_int (local_year h) ++ "-" ++ pad2 (local_month h + 1) ++ "-"
   ++ pad2 (local_date h))%string.

Definition dateKeyFromUTCDate (d : Z) : string :=
  (Str.of_int (Day.getUTCFullYear d) ++ "-" ++ pad2 (Day.getUTCMonth d + 1)
   ++ "-" ++ pad2 (Day.getUTCDate d))%string.

(** [/^(\d{4})-(\d{2})-(\d{2})$/.exec(s)], with the three groups already
    converted by [Number]. *)
Definition exec_dateKey (s : string) : option (Z * Z * Z) :=
  match list_ascii_of_string s with
  | [y1; y2; y3; y4; s1; m1; m2; s2; d1; d2] =>
      if forallb Str.is_digit [y1; y2; y3; y4; m1; m2; d1; d2]
         && (s1 =? "-")%char && (s2 =? "-")%char
      then Some (1000 * Str.digit y1 + 100 * Str.digit y2
                 + 10 * Str.digit y3 + Str.digit y4,
                 10 * Str.digit m1 + Str.digit m2,
                 10 * Str.digit d1 + Str.digit d2)
      else None
  | _ => None
  end.

(** [/^\d{4}-\d{2}-\d{2}$/.test(s)]. *)
Definition test_dateKey (s : string) : bool :=
  match exec_dateKey s with Some _ => true | None => false end.

Definition addDaysKey (h : Host) (dateKey : string) (days : Z) : string :=
  match exec_dateKey dateKey with
  | None => localDateKey h
  | Some (y, mo, da) =>
      let d := Day.Date_UTC y (mo - 1) da in
      let d := Day.setUTCDate d (Day.getUTCDate d + days) in
      dateKeyFromUTCDate d
  end.

(** [Math.floor(ms / 86400000)] is taken on integers: both time values are
    whole milliseconds far below 2^53, where the quotient's rounding cannot
    reach the next integer. *)
Definition dayNumberUTC (h : Host) (dateKey : string) : Z :=
  match exec_dateKey dateKey with
  | None => now_ms h / Day.msPerDay
  | Some (y, mo, da) => Day.Date_UTC y (mo - 1) da / Day.msPerDay
  end.

Definition dayDiff (h : Host) (fromKey toKey : string) : Z :=
  dayNumberUTC h toKey - dayNumberUTC h fromKey.

(** [roundTo(n)] with its default of 6 digits; [10 ** 6] is exact. *)
Definition roundTo (n : float) : float :=
  if negb (JS.Number_isFinite n) then 0%float
  else
    let f := 1000000%float in
    (JS.Math_round ((n + JS.Number_EPSILON) * f) / f)%float.

Definition asSafeNumber (h : Host) (v : value) (fallback : float) : result float :=
  bind (Number h v) (fun n =>
  Ok (if JS.Number_isFinite n then n else fallback)).

(** ** Tasks and the securing rule *)

(** A task of the registry.  Every task there was built by [normalizeTask]
    or by the creation route, so each member has the type recorded here;
    [hopper], [streak] and the timestamps are JavaScript Numbers. *)
Record Task := {
  id : string;
  name : string;
  thumbnailUrl : option string;
  hopper : float;
  streak : float;
  dayKey : string;
  securedToday : bool;
  createdAt : float;
  updatedAt : float;
  lastSecuredAt : option float;
  lastSecuredReason : option string
}.

Definition set_hopper (v : float) (t : Task) : Task :=
  {| id := id t; name := name t; thumbnailUrl := thumbnailUrl t; hopper := v;
     streak := streak t; dayKey := dayKey t; securedToday := securedToday t;
     createdAt := createdAt t; updatedAt := updatedAt t;
     lastSecuredAt := lastSecuredAt t; lastSecuredReason := lastSecuredReason t |}.

Definition set_streak (v : float) (t : Task) : Task :=
  {| id := id t; name := name t; thumbnailUrl := thumbnailUrl t; hopper := hopper t;
     streak := v; dayKey := dayKey t; securedToday := securedToday t;
     createdAt := createdAt t; updatedAt := updatedAt t;
     lastSecuredAt := lastSecuredAt t; lastSecuredReason := lastSecuredReason t |}.

Definition set_dayKey (v : string) (t : Task) : Task :=
  {| id := id t; name := name t; thumbnailUrl := thumbnailUrl t; hopper := hopper t;
     streak := streak t; dayKey := v; securedToday := securedToday t;
     createdAt := createdAt t; updatedAt := updatedAt t;
     lastSecuredAt := lastSecuredAt t; lastSecuredReason := lastSecuredReason t |}.

Definition set_securedToday (v : bool) (t : Task) : Task :=
  {| id := id t; name := name t; thumbnailUrl := thumbnailUrl t; hopper := hopper t;
     streak := streak t; dayKey := dayKey t; securedToday := v;
     createdAt := createdAt t; updatedAt := updatedAt t;
     lastSecuredAt := lastSecuredAt t; lastSecuredReason := lastSecuredReason t |}.

Definition set_updatedAt (v : float) (t : Task) : Task :=
  {| id := id t; name := name t; thumbnailUrl := thumbnailUrl t; hopper := hopper t;
     streak := streak t; dayKey := dayKey t; securedToday := securedToday t;
     createdAt := createdAt t; updatedAt := v;
     lastSecuredAt := lastSecuredAt t; lastSecuredReason := lastSecuredReason t |}.

Definition set_lastSecured (at_ : float) (reason : string) (t : Task) : Task :=
  {| id := id t; name := name t; thumbnailUrl := thumbnailUrl t; hopper := hopper t;
     streak := streak t; dayKey := dayKey t; securedToday := securedToday t;
     createdAt := createdAt t; updatedAt := updatedAt t;
     lastSecuredAt := Some at_; lastSecuredReason := Some reason |}.

(** [trySecureToday(task, reason)]: the task after the call, and the
    returned boolean. *)
Definition trySecureToday (h : Host) (task : Task) (reason : string) : Task * bool :=
  if securedToday task then (task, false)
  else if (DAILY_THRESHOLD - EPS <=? hopper task)%float then
    let task := set_securedToday true task in
    let task :=
      set_streak ((if JS.Number_isInteger (streak task) then streak task else 0) + 1)%float
                 task in
    let task := set_lastSecured (Date_now h) reason task in
    (task, true)
  else (task, false).

(** ** The rollover engine *)

(** One pass of the body of the [for] loop of [processTaskToToday], on the
    task and the [changed] flag. *)
Definition rollover_day (h : Host) (st : Task * bool) : Task * bool :=
  let '(task, changed) := st in
  (* 1) end-of-day check *)
  let '(task, changed) :=
    if negb (securedToday task) && negb (streak task =? 0)%float
    then (set_streak 0%float task, true)
    else (task, changed) in
  (* 2) daily decay *)
  let newHopper := (hopper task - 1)%float in
  let changed := if negb (newHopper =? hopper task)%float then true else changed in
  let task := set_hopper (JS.Math_max 0 newHopper) task in
  (* 3) move to next day *)
  let task := set_dayKey (addDaysKey h (dayKey task) 1) task in
  let task := set_securedToday false task in
  let changed := true in
  (* 4) auto-secure *)
  let '(task, secured) := trySecureToday h task "rollover" in
  (task, if secured then true else changed).

Fixpoint rollover_loop (h : Host) (n : nat) (st : Task * bool) : Task * bool :=
  match n with
  | O => st
  | S n' => rollover_loop h n' (rollover_day h st)
  end.

(** [processTaskToToday(task, todayKey)]: the task after the call, and the
    returned [changed].  [task.dayKey] is a string by the type of [Task]. *)
Definition processTaskToToday (h : Host) (task : Task) (todayKey : string) : Task * bool :=
  let changed := false in
  let '(task, changed) :=
    if negb (test_dateKey (dayKey task))
    then (set_securedToday false (set_dayKey todayKey task), true)
    else (task, changed) in
  let '(task, changed) :=
    if Str.gt (dayKey task) todayKey
    then (set_securedToday false (set_dayKey todayKey task), true)
    else (task, changed) in
  let diff := dayDiff h (dayKey task) todayKey in
  if diff <=? 0 then (task, changed)
  else rollover_loop h (Z.to_nat diff) (task, changed).

(** The number of passes of the loop in [processTaskToToday], and the task
    and flag the loop starts from (after the repair of a malformed key and
    the clamp of a key ahead of today). *)
Definition iterations (h : Host) (task : Task) (todayKey : string) : nat :=
  if negb (test_dateKey (dayKey task)) || Str.gt (dayKey task) todayKey then O
  else Z.to_nat (dayDiff h (dayKey task) todayKey).

Definition clamped (task : Task) (todayKey : string) : Task :=
  set_securedToday false (set_dayKey todayKey task).

(** One decay step on the hopper. *)
Definition decay (x : float) : float := JS.Math_max 0 (x - 1).

(** The key [dateKeyFromUTCDate] prints for day number [n], and the days
    whose year prints with four digits. *)
Definition key_of_day (n : Z) : string := dateKeyFromUTCDate (n * Day.msPerDay).

Definition four_digit_year (n : Z) : Prop :=
  Day.DayFromYear 1000 <= n < Day.DayFromYear 10000.

(** A date as the number yyyymmdd, and the one of day number [n]. *)
Definition ymd (y m d : Z) : Z := y * 10000 + m * 100 + d.

Definition ymd_of_day (n : Z) : Z :=
  ymd (Day.YearFromDay n) (Day.MonthFromDay n + 1) (Day.DateFromDay n).

(** Checks run over a range of integers: [String(y)] has four digits that
    read back as [y]; [pad2(n)] has two that read back as [n]. *)
Definition four_digits (y : Z) : bool :=
  match Str.of_int y with
  | String a (String b (String c (String d EmptyString))) =>
      forallb Str.is_digit [a; b; c; d]
      && (1000 * Str.digit a + 100 * Str.digit b + 10 * Str.digit c + Str.digit d =? y)
  | _ => false
  end.

Definition two_digits (n : Z) : bool :=
  match pad2 n with
  | String a (String b EmptyString) =>
      Str.is_digit a && Str.is_digit b && (10 * Str.digit a + Str.digit b =? n)
  | _ => false
  end.

(** ** The normalizer *)

(** [normalizeTask(raw)].  The only step that can throw is the coercion
    [Number(t.hopper)] inside [asSafeNumber]. *)
Definition normalizeTask (h : Host) (raw : value) : result Task :=
  let now := Date_now h in
  let t := match raw with VObj _ | VArr _ => raw | _ => VObj [] end in
  bind (asSafeNumber h (get t "hopper") 0%float) (fun hop =>
  Ok {|
    id := match get t "id" with
          | VStr s => if Str.truthy s then s else randomUUID h
          | _ => randomUUID h
          end;
    name := match get t "name" with
            | VStr s => if Str.truthy (Str.trim s) then Str.trim s else "Untitled task"
            | _ => "Untitled task"
            end;
    thumbnailUrl := match get t "thumbnailUrl" with
                    | VStr s => if Str.startsWith s "/uploads/" then Some s else None
                    | _ => None
                    end;
    hopper := roundTo hop;
    streak := match get t "streak" with
              | VNum n => if JS.Number_isInteger n then n else 0%float
              | _ => 0%float
              end;
    dayKey := match get t "dayKey" with
              | VStr s => if test_dateKey s then s else localDateKey h
              | _ => localDateKey h
              end;
    securedToday := match get t "securedToday" with VBool b => b | _ => false end;
    createdAt := match get t "createdAt" with
                 | VNum n => if JS.Number_isFinite n then n else now
                 | _ => now
                 end;
    updatedAt := match get t "updatedAt" with
                 | VNum n => if JS.Number_isFinite n then n else now
                 | _ => now
                 end;
    lastSecuredAt := match get t "lastSecuredAt" with
                     | VNum n => if JS.Number_isFinite n then Some n else None
                     | _ => None
                     end;
    lastSecuredReason := match get t "lastSecuredReason" with
                         | VStr s => Some s
                         | _ => None
                         end
  |}).

(** ** The registry and the routes that change hoppers *)

Record State := {
  version : Z;
  st_createdAt : float;
  st_updatedAt : float;
  backgroundUrl : option string;
  tasks : list Task
}.

Definition set_tasks (ts : list Task) (s : State) : State :=
  {| version := version s; st_createdAt := st_createdAt s;
     st_updatedAt := st_updatedAt s; backgroundUrl := backgroundUrl s;
     tasks := ts |}.

Definition set_st_updatedAt (v : float) (s : State) : State :=
  {| version := version s; st_createdAt := st_createdAt s;
     st_updatedAt := v; backgroundUrl := backgroundUrl s; tasks := tasks s |}.

(** The body of the loop of [processAllToToday] on one task. *)
Definition processOne (h : Host) (todayKey : string) (task : Task) : Task * bool :=
  let '(task, changed) :=
    let '(task', c) := processTaskToToday h task todayKey in
    if c then (set_updatedAt (Date_now h) task', true) else (task', false) in
  if negb (JS.Number_isFinite (hopper task)) || (hopper task <? 0)%float
  then (set_updatedAt (Date_now h) (set_hopper 0%float task), true)
  else (task, changed).

Fixpoint processEach (h : Host) (todayKey : string) (ts : list Task) : list Task * bool :=
  match ts with
  | [] => ([], false)
  | t :: r =>
      let '(t', c) := processOne h todayKey t in
      let '(r', c') := processEach h todayKey r in
      (t' :: r', c || c')
  end.

Definition processAllToToday (h : Host) (s : State) : State * bool :=
  let todayKey := localDateKey h in
  let '(ts, changed) := processEach h todayKey (tasks s) in
  let s := set_tasks ts s in
  if changed then (set_st_updatedAt (Date_now h) s, true) else (s, false).

(** What a route sends back, or the exception that escapes it. *)
Inductive reply :=
| ReplyError (status : Z) (error : string)
| ReplyAdded (task : Task) (secured : bool)
| Thrown (e : string).

(** [STATE.tasks.find(t => t.id === id)] and the update in place of the
    task found: the first task with that id. *)
Fixpoint find_task (ts : list Task) (i : string) : option Task :=
  match ts with
  | [] => None
  | t :: r => if (id t =? i)%string then Some t else find_task r i
  end.

Fixpoint replace_task (ts : list Task) (i : string) (t' : Task) : list Task :=
  match ts with
  | [] => []
  | t :: r => if (id t =? i)%string then t' :: r else t :: replace_task r i t'
  end.

(** [asSafeNumber(body.amount, NaN)]. *)
Definition amount_of (h : Host) (body : value) : result float :=
  bind (get_member body "amount") (fun a => asSafeNumber h a nan).

(** POST /api/tasks/:id/add, from the parsed JSON [body] on: the registry
    after the route, and its reply. *)
Definition addRoute (h : Host) (s : State) (i : string) (body : value) : State * reply :=
  match amount_of h body with
  | Throw e => (s, Thrown e)
  | Ok amount =>
      if (1000000 <? amount)%float then (s, ReplyError 400 "amount too large")
      else
        match find_task (tasks s) i with
        | None => (s, ReplyError 404 "Task not found")
        | Some task =>
            let task := set_hopper (roundTo (hopper task + amount)) task in
            let task := set_updatedAt (Date_now h) task in
            let '(task, secured) := trySecureToday h task "add" in
            let task := if secured then set_updatedAt (Date_now h) task else task in
            let s := set_tasks (replace_task (tasks s) i task) s in
            let s := set_st_updatedAt (Date_now h) s in
            (s, ReplyAdded task secured)
        end
  end.

(** [handleApi] on that route: the rollover pass runs first. *)
Definition handleApi_add (h : Host) (s : State) (i : string) (body : value) : State * reply :=
  addRoute h (fst (processAllToToday h s)) i body.

(** The values that are not objects: a missing member among them. *)
Definition primitive (v : value) : bool :=
  match v with VObj _ | VArr _ => false | _ => true end.

(** A record with a member of the wrong type for every field. *)
Definition wrong_typed_record : value :=
  VObj [("id", VNum 7); ("name", VBool true); ("thumbnailUrl", VNum 1);
        ("hopper", VBool true); ("streak", VStr "3"); ("dayKey", VNum 20261103);
        ("securedToday", VStr "yes"); ("createdAt", VStr "now");
        ("updatedAt", VNull); ("lastSecuredAt", VBool false);
        ("lastSecuredReason", VNum 0)]%string.

(** The task [normalizeTask] builds when no member is usable. *)
Definition default_task (h : Host) : Task :=
  {| id := randomUUID h; name := "Untitled task"; thumbnailUrl := None;
     hopper := 0; streak := 0; dayKey := localDateKey h; securedToday := false;
     createdAt := Date_now h; updatedAt := Date_now h;
     lastSecuredAt := None; lastSecuredReason := None |}.

(** ** Concrete hosts, tasks and registries used by the examples *)

(** Noon UTC of 2026-11-03, local date the same day.  No example reads a
    string as a Number or prints one, so the two conversions are stand-ins. *)
Definition host_nov3 : Host :=
  {| now_ms := 1793707200000; local_year := 2026; local_month := 10;
     local_date := 3; randomUUID := "6f1c0d1e-0000-4000-8000-000000000001";
     StringToNumber := fun _ => nan; NumberToString := fun _ => "NaN"%string |}.

Definition task_ex (hop str : float) (key : string) (sec : bool) : Task :=
  {| id := "t1"; name := "Read"; thumbnailUrl := None; hopper := hop;
     streak := str; dayKey := key; securedToday := sec;
     createdAt := 1793000000000; updatedAt := 1793000000000;
     lastSecuredAt := None; lastSecuredReason := None |}.

Definition state_ex (ts : list Task) : State :=
  {| version := 1; st_createdAt := 1793000000000;
     st_updatedAt := 1793000000000; backgroundUrl := None; tasks := ts |}.

(** Tasks on that host: 3 days, 1 day and 14 days behind 2026-11-03, two
    days ahead of it, and in the year 999. *)
Definition task_behind3 (str : float) : Task := task_ex 3.5 str "2026-10-31" false.
Definition task_behind1 (hop : float) : Task := task_ex hop 5 "2026-11-02" false.
Definition task_behind14 : Task := task_ex 3.5 4 "2026-10-20" false.
Definition task_ahead : Task := task_ex 0.4 3 "2026-11-05" true.
Definition task_year_999 : Task := task_ex 0.4 3 "0999-06-15" false.

(** ** Uploads: file names and extensions *)

Module Text.

(** [String.prototype.toLowerCase] on one code unit below 256: the letters
    A to Z and the capital letters of Latin-1 (U+00C0 to U+00DE, but for the
    multiplication sign U+00D7) move up by 32; nothing else changes. *)
Definition lower (c : ascii) : ascii :=
  let n := N_of_ascii c in
  if ((65 <=? n) && (n <=? 90)
      || (192 <=? n) && (n <=? 222) && negb (n =? 215))%N
  then ascii_of_N (n + 32) else c.

Fixpoint toLowerCase (s : string) : string :=
  match s with
  | EmptyString => EmptyString
  | String c r => String (lower c) (toLowerCase r)
  end.

(** [s.includes(p)]: [p] starts at some position of [s]. *)
Fixpoint includes (s p : string) : bool :=
  prefix p s
  || match s with
     | EmptyString => false
     | String _ r => includes r p
     end.

(** [new Set(l).has(x)] on strings. *)
Definition has (l : list string) (x : string) : bool :=
  existsb (String.eqb x) l.

End Text.

(** Node's [path] functions, which depend on the platform, and the
    directory of the uploads; they stay arbitrary in every statement. *)
Record Paths := {
  path_extname : string -> string;            (* path.extname(p) *)
  path_basename : string -> string;           (* path.basename(p) *)
  path_join : string -> string -> string;     (* path.join(a, b) *)
  path_resolve : string -> string;            (* path.resolve(a) *)
  path_resolve2 : string -> string -> string; (* path.resolve(a, b) *)
  path_sep : string;                          (* path.sep *)
  UPLOAD_DIR : string
}.

(** A file of a multipart body, as [readMultipart] hands it over: the three
    members are always strings there ([data] is the Buffer of the bytes). *)
Record Upload := {
  originalName : string;
  mime : string;
  data : string
}.

(** [isLikelyImageMime(mime)]; both calls pass [file.mime], a string, so the
    test of [typeof] holds. *)
Definition isLikelyImageMime (mime : string) : bool :=
  Str.startsWith (Text.toLowerCase mime) "image/".

(** [guessExtFromMime(mime)], on a string: [mime || ''] is [mime]. *)
Definition guessExtFromMime (mime : string) : string :=
  let m := Text.toLowerCase mime in
  (if Text.includes m "png" then ".png"
  else if Text.includes m "jpeg" || Text.includes m "jpg" then ".jpg"
  else if Text.includes m "gif" then ".gif"
  else if Text.includes m "webp" then ".webp"
  else if Text.includes m "svg" then ".svg"
  else "")%string.

(** The set [allowed] of [safeExt]. *)
Definition allowed : list string :=
  [".png"; ".jpg"; ".jpeg"; ".gif"; ".webp"; ".svg"]%string.

(** [safeExt(originalName, mime)], on strings. *)
Definition safeExt (p : Paths) (originalName mime : string) : string :=
  let extFromName := Text.toLowerCase (path_extname p originalName) in
  if Text.has allowed extFromName then extFromName
  else
    let extFromMime := guessExtFromMime mime in
    if Text.has allowed extFromMime then extFromMime
    else ".bin"%string.

(** [uploadsFilePathFromUrl(url)], on a member that is a string or null. *)
Definition uploadsFilePathFromUrl (p : Paths) (url : option string) : option string :=
  match url with
  | None => None
  | Some url =>
      if negb (Str.startsWith url "/uploads/") then None
      else
        let base := path_basename p url in
        let full := path_resolve2 p (UPLOAD_DIR p) base in
        let uploadsRoot := (path_resolve p (UPLOAD_DIR p) ++ path_sep p)%string in
        if negb (Str.startsWith full uploadsRoot) then None
        else Some full
  end.

(** ** Loading the registry *)

(** [items.map(normalizeTask)]: the call on the item of index [k] draws from
    the random source on its own, so it reads the host [hs k]; the first
    call that throws ends the map. *)
Fixpoint map_normalizeTask (hs : nat -> Host) (k : nat) (items : list value)
  : result (list Task) :=
  match items with
  | [] => Ok []
  | x :: r =>
      bind (normalizeTask (hs k) x) (fun t =>
      bind (map_normalizeTask hs (S k) r) (fun ts => Ok (t :: ts)))
  end.

(** [normalizeState(raw)]; [h] is the host of its own reads of the clock. *)
Definition normalizeState (h : Host) (hs : nat -> Host) (raw : value) : result State :=
  let now := Date_now h in
  let s := match raw with VObj _ | VArr _ => raw | _ => VObj [] end in
  bind (match get s "tasks" with
        | VArr items => map_normalizeTask hs O items
        | _ => Ok []
        end) (fun tasks =>
  let backgroundUrl :=
    match get s "backgroundUrl" with
    | VStr u => if Str.startsWith u "/uploads/" then Some u else None
    | _ => None
    end in
  Ok {|
    version := 1;
    st_createdAt := match get s "createdAt" with
                    | VNum n => if JS.Number_isFinite n then n else now
                    | _ => now
                    end;
    st_updatedAt := match get s "updatedAt" with
                    | VNum n => if JS.Number_isFinite n then n else now
                    | _ => now
                    end;
    backgroundUrl := backgroundUrl;
    tasks := tasks
  |}).

(** [loadStateFromDisk()], given the outcome [parsed] of reading the data
    file and parsing it ([JSON.parse(await fsp.readFile(...))]): whatever is
    thrown inside the [try], by the read, the parse or the normalizer, is
    caught, and both branches of the [catch] return [normalizeState(null)]. *)
Definition loadStateFromDisk (h : Host) (hs : nat -> Host) (parsed : result value)
  : result State :=
  match bind parsed (normalizeState h hs) with
  | Ok s => Ok s
  | Throw _ => normalizeState h hs VNull
  end.

(** The registry [normalizeState(null)] builds. *)
Definition empty_state (h : Host) : State :=
  {| version := 1; st_createdAt := Date_now h; st_updatedAt := Date_now h;
     backgroundUrl := None; tasks := [] |}.

(** ** What is saved and read back *)

(** [saveStateToDisk] writes [JSON.stringify(state)] and [loadStateFromDisk]
    reads it with [JSON.parse].  A finite Number is written as the shortest
    decimal that reads back as the same Number, both zeros as 0; NaN and the
    infinities are written as null; strings and booleans read back as they
    were, and a member that is null stays null. *)
Definition stored_number (n : float) : value :=
  if JS.Number_isFinite n then VNum (if (n =? 0)%float then 0%float else n)
  else VNull.

Definition stored_option {A} (f : A -> value) (o : option A) : value :=
  match o with Some a => f a | None => VNull end.

Definition stored_task (t : Task) : value :=
  VObj [("id", VStr (id t)); ("name", VStr (name t));
        ("thumbnailUrl", stored_option VStr (thumbnailUrl t));
        ("hopper", stored_number (hopper t));
        ("streak", stored_number (streak t));
        ("dayKey", VStr (dayKey t));
        ("securedToday", VBool (securedToday t));
        ("createdAt", stored_number (createdAt t));
        ("updatedAt", stored_number (updatedAt t));
        ("lastSecuredAt", stored_option stored_number (lastSecuredAt t));
        ("lastSecuredReason", stored_option VStr (lastSecuredReason t))]%string.

Definition stored_state (s : State) : value :=
  VObj [("version", stored_number (JS.of_Z (version s) false));
        ("createdAt", stored_number (st_createdAt s));
        ("updatedAt", stored_number (st_updatedAt s));
        ("backgroundUrl", stored_option VStr (backgroundUrl s));
        ("tasks", VArr (map stored_task (tasks s)))]%string.

(** The Numbers that are read back as they were written: the finite ones
    other than -0. *)
Definition kept_number (n : float) : bool :=
  JS.Number_isFinite n && negb (PrimFloat.Leibniz.eqb n (-0)%float).

Definition under_uploads (u : option string) : bool :=
  match u with Some u => Str.startsWith u "/uploads/" | None => true end.

(** The tasks that every check of [normalizeTask] accepts as they are. *)
Definition accepted_task (t : Task) : bool :=
  Str.truthy (id t)
  && (Str.trim (name t) =? name t)%string && Str.truthy (name t)
  && under_uploads (thumbnailUrl t)
  && kept_number (hopper t) && PrimFloat.Leibniz.eqb (roundTo (hopper t)) (hopper t)
  && kept_number (streak t) && JS.Number_isInteger (streak t)
  && test_dateKey (dayKey t)
  && kept_number (createdAt t) && kept_number (updatedAt t)
  && match lastSecuredAt t with Some a => kept_number a | None => true end.

(** ** The routes that create and delete tasks *)

(** What a route sends back, or the exception that escapes it. *)
Inductive response :=
| RespError (status : Z) (error : string)   (* sendJson(res, status, { error }) *)
| RespCreated (task : Task)                 (* sendJson(res, 201, { task }) *)
| RespDeleted                               (* sendJson(res, 200, { ok: true }) *)
| RespThrown (e : string).

(** What a route did to the directory of uploads: the file it wrote, as
    path and content, and the path it tried to unlink. *)
Record Files := {
  written : option (string * string);
  unlinked : option string
}.

Definition no_files : Files := {| written := None; unlinked := None |}.

(** [jsonTaskView(task)]: a copy of the eleven members. *)
Definition jsonTaskView (task : Task) : Task :=
  {| id := id task; name := name task; thumbnailUrl := thumbnailUrl task;
     hopper := hopper task; streak := streak task; dayKey := dayKey task;
     securedToday := securedToday task;
     createdAt := createdAt task; updatedAt := updatedAt task;
     lastSecuredAt := lastSecuredAt task;
     lastSecuredReason := lastSecuredReason task |}.

(** POST /api/tasks, from the parsed multipart body on: [fields_name] is
    [mp.fields.name] and [files_thumbnail] is [mp.files.thumbnail], each
    missing or present.  The route reads the host [h] up to the write of the
    thumbnail; [wrote] is the outcome of that write, and [h'] the host of
    the reads after it.  With no thumbnail nothing is awaited and every read
    is of [h].  The result is the registry after the route, what it did to
    the uploads, and its reply; the save the route queues last writes the
    registry to the data file and does not change it.  The route is taken
    alone: no other request is served while it waits for the write. *)
Definition createRoute (h h' : Host) (p : Paths) (s : State)
    (fields_name : option string) (files_thumbnail : option Upload)
    (wrote : result unit) : State * Files * response :=
  let name := Str.trim (match fields_name with Some n => n | None => ""%string end) in
  if negb (Str.truthy name) then (s, no_files, RespError 400 "Missing field: name")
  else
    let id := randomUUID h in
    let todayKey := localDateKey h in
    let push (h2 : Host) (thumbnailUrl : option string) (fs : Files) :=
      let task :=
        {| id := id; name := name; thumbnailUrl := thumbnailUrl;
           hopper := 0; streak := 0; dayKey := todayKey; securedToday := false;
           createdAt := Date_now h2; updatedAt := Date_now h2;
           lastSecuredAt := None; lastSecuredReason := None |} in
      let s := set_tasks (tasks s ++ [task]) s in
      let s := set_st_updatedAt (Date_now h2) s in
      (s, fs, RespCreated (jsonTaskView task)) in
    match files_thumbnail with
    | Some file =>
        if negb (isLikelyImageMime (mime file))
        then (s, no_files, RespError 400 "Thumbnail must be an image")
        else
          let ext := safeExt p (originalName file) (mime file) in
          let filename :=
            ("thumb-" ++ id ++ "-" ++ Str.of_int (now_ms h) ++ ext)%string in
          let outPath := path_join p (UPLOAD_DIR p) filename in
          match wrote with
          | Throw e => (s, no_files, RespThrown e)
          | Ok _ =>
              push h' (Some ("/uploads/" ++ filename)%string)
                   {| written := Some (outPath, data file); unlinked := None |}
          end
    | None => push h None no_files
    end.

(** [ts.findIndex(t => t.id === id)]; [None] stands for -1. *)
Fixpoint findIndex (ts : list Task) (i : string) : option nat :=
  match ts with
  | [] => None
  | t :: r => if (id t =? i)%string then Some O else option_map S (findIndex r i)
  end.

(** [ts.splice(idx, 1)]: the array after the call, and the array of the
    elements removed, which the call returns. *)
Definition splice1 (ts : list Task) (idx : nat) : list Task * list Task :=
  (firstn idx ts ++ skipn (S idx) ts, firstn 1 (skipn idx ts)).

(** DELETE /api/tasks/:id; [h] is the host of the read of the clock, after
    the unlink, whose failure [safeUnlink] ignores.  An empty array of
    removed elements would leave [task] undefined and make
    [task.thumbnailUrl] throw. *)
Definition deleteRoute (h : Host) (p : Paths) (s : State) (i : string)
  : State * Files * response :=
  match findIndex (tasks s) i with
  | None => (s, no_files, RespError 404 "Task not found")
  | Some idx =>
      let '(rest, removed) := splice1 (tasks s) idx in
      let s := set_tasks rest s in
      match removed with
      | [] => (s, no_files, RespThrown "TypeError")
      | task :: _ =>
          let fs := {| written := None;
                       unlinked := uploadsFilePathFromUrl p (thumbnailUrl task) |} in
          let s := set_st_updatedAt (Date_now h) s in
          (s, fs, RespDeleted)
      end
  end.

(** The stored day is well formed, not ahead of [todayKey] and not behind
    it: the three tests of [processTaskToToday] that then change nothing. *)
Definition caught_up (h : Host) (task : Task) (todayKey : string) : bool :=
  test_dateKey (dayKey task) && negb (Str.gt (dayKey task) todayKey)
  && (dayDiff h (dayKey task) todayKey <=? 0).

(** ** More concrete values used by the examples *)

(** Stand-ins for the platform's path functions: the extension is what
    follows the last dot, and paths are joined with a slash. *)
Fixpoint after_last_dot (s : string) (found : option string) : option string :=
  match s with
  | EmptyString => found
  | String c r => after_last_dot r (if (c =? ".")%char then Some s else found)
  end.

Definition paths_ex : Paths :=
  {| path_extname := fun s => match after_last_dot s None with Some e => e | None => "" end;
     path_basename := fun s => s;
     path_join := fun a b => (a ++ "/" ++ b)%string;
     path_resolve := fun a => a;
     path_resolve2 := fun a b => (a ++ "/" ++ b)%string;
     path_sep := "/";
     UPLOAD_DIR := "/srv/uploads" |}%string.

Definition upload_ex : Upload :=
  {| originalName := "Cover.PNG"; mime := "image/png"; data := "bytes" |}%string.

(** Tasks on the host of the examples: caught up with 2026-11-03 and
    secured, and one day behind it and secured. *)
Definition task_today : Task := task_ex 1.25 4 "2026-11-03" true.
Definition task_secured_behind1 : Task := task_ex 2.5 4 "2026-11-02" true.

Definition task_other : Task :=
  {| id := "t2"; name := "Walk"; thumbnailUrl := Some "/uploads/thumb-t2-1793000000000.png";
     hopper := 0.5; streak := 0; dayKey := "2026-11-01"; securedToday := false;
     createdAt := 1793000000000; updatedAt := 1793000000000;
     lastSecuredAt := Some 1793000000000%float; lastSecuredReason := Some "add" |}%string.

(** A string that does not start with white space: [trimStart] leaves it
    as it is. *)
Definition clean_start (s : string) : bool :=
  match s with
  | String c _ => negb (Str.is_space c)
  | EmptyString => true
  end.

(** [String(y)] has at most three characters: so do the years 0 to 999. *)
Definition short_year (y : Z) : bool := (String.length (Str.of_int y) <=? 3)%nat.

(** The tasks one pass of the loop of [processAllToToday] leaves alone:
    caught up, with a hopper that passes the guard. *)
Definition settled (h : Host) (todayKey : string) (task : Task) : bool :=
  caught_up h task todayKey
  && JS.Number_isFinite (hopper task) && negb (hopper task <? 0)%float.

(** The registries that [normalizeState] accepts as they are. *)
Definition accepted_state (s : State) : bool :=
  (version s =? 1) && kept_number (st_createdAt s) && kept_number (st_updatedAt s)
  && under_uploads (backgroundUrl s) && forallb accepted_task (tasks s).

(** * Facts about Numbers *)

Module NumFacts.

Lemma SFcompare_refl x : is_nanSF x = false -> SFcompare x x = Some Eq.
Proof.
  destruct x as [s|s| |s m e]; simpl; try discriminate; destruct s; intros _;
    rewrite ?Z.compare_refl, ?Pos.compare_cont_refl; reflexivity.
Qed.

Lemma is_nan_spec x : is_nan x = is_nanSF (Prim2SF x).
Proof.
  unfold is_nan. rewrite eqb_spec. unfold SFeqb.
  destruct (is_nanSF (Prim2SF x)) eqn:E.
  - destruct (Prim2SF x); try discriminate. reflexivity.
  - rewrite SFcompare_refl by assumption. reflexivity.
Qed.

Lemma ltb_leb x y : (x <? y)%float = true -> (x <=? y)%float = true.
Proof.
  rewrite ltb_spec, leb_spec. unfold SFltb, SFleb.
  destruct (SFcompare _ _) as [[]|]; congruence.
Qed.

Lemma leb_not_nan_r x y : (x <=? y)%float = true -> is_nan y = false.
Proof.
  rewrite leb_spec, is_nan_spec. unfold SFleb.
  destruct (Prim2SF x), (Prim2SF y); simpl; congruence.
Qed.

Lemma leb_not_nan_l x y : (x <=? y)%float = true -> is_nan x = false.
Proof.
  rewrite leb_spec, is_nan_spec. unfold SFleb.
  destruct (Prim2SF x), (Prim2SF y); simpl; congruence.
Qed.

(** The two zeros are the only Numbers that [=== 0]. *)
Lemma eqb_zero_inv x : (x =? 0)%float = true -> x = 0%float \/ x = (-0)%float.
Proof.
  rewrite eqb_spec. unfold SFeqb. intros H.
  assert (E : exists b, Prim2SF x = S754_zero b).
  { change (Prim2SF 0) with (S754_zero false) in H.
    destruct (Prim2SF x) as [s|s| |s m e]; simpl in H; try discriminate.
    - eauto.
    - destruct s; discriminate.
    - destruct s; discriminate. }
  destruct E as [b E]. apply (f_equal SF2Prim) in E.
  rewrite SF2Prim_Prim2SF in E. destruct b; [right | left]; exact E.
Qed.

(** Rounding a non-negative mantissa never produces NaN. *)
Lemma shr_1_nonneg mrs : 0 <= shr_m mrs -> 0 <= shr_m (shr_1 mrs).
Proof.
  destruct mrs as [m r s]; simpl. destruct m as [|p|p]; simpl; [lia| |lia].
  destruct p; simpl; lia.
Qed.

Lemma iter_shr_1_nonneg p mrs :
  0 <= shr_m mrs -> 0 <= shr_m (iter_pos shr_1 p mrs).
Proof.
  revert mrs. induction p; simpl; intros mrs H; auto using shr_1_nonneg.
Qed.

Lemma shr_fexp_nonneg m e l :
  0 <= m -> 0 <= shr_m (fst (shr_fexp prec emax m e l)).
Proof.
  intros H. unfold shr_fexp, shr.
  assert (H0 : 0 <= shr_m (shr_record_of_loc m l)).
  { destruct l as [|[]]; simpl; exact H. }
  destruct (fexp prec emax (Zdigits2 m + e) - e); simpl; auto.
  apply iter_shr_1_nonneg; exact H0.
Qed.

Lemma round_nearest_even_nonneg m l : 0 <= m -> 0 <= round_nearest_even m l.
Proof.
  intros H. destruct l as [|[]]; simpl; try lia. destruct (Z.even m); lia.
Qed.

Lemma binary_round_aux_not_nan sx mx ex lx :
  0 <= mx -> is_nanSF (binary_round_aux prec emax sx mx ex lx) = false.
Proof.
  intros H. unfold binary_round_aux.
  pose proof (shr_fexp_nonneg mx ex lx H) as H1.
  destruct (shr_fexp prec emax mx ex lx) as [mrs' e']; simpl in H1.
  pose proof (shr_fexp_nonneg _ e' loc_Exact
                (round_nearest_even_nonneg _ (loc_of_shr_record mrs') H1)) as H2.
  destruct (shr_fexp prec emax _ e' loc_Exact) as [mrs'' e'']; simpl in H2.
  destruct (shr_m mrs''); try reflexivity; [|lia].
  destruct (e'' <=? emax - prec); reflexivity.
Qed.

Lemma binary_normalize_not_nan m e s :
  is_nanSF (binary_normalize prec emax m e s) = false.
Proof.
  destruct m; simpl; [reflexivity| |]; unfold binary_round;
    destruct (shl_align _ _ _); apply binary_round_aux_not_nan; lia.
Qed.

(** Subtracting 1 from a Number that is not NaN does not give NaN. *)
Lemma sub_one_not_nan x : is_nan x = false -> is_nan (x - 1)%float = false.
Proof.
  rewrite !is_nan_spec, sub_spec.
  change (Prim2SF 1) with (S754_finite false 4503599627370496 (-52)).
  destruct (Prim2SF x) as [s|s| |s m e]; simpl; try congruence.
  intros _. apply binary_normalize_not_nan.
Qed.

End NumFacts.

Module RoundFacts.
Import NumFacts.

Lemma has_sign_not_nan s x : has_sign s x = true -> is_nanSF x = false.
Proof. destruct x; simpl; congruence. Qed.

Lemma binary_round_aux_sign sx mx ex lx :
  0 <= mx -> has_sign sx (binary_round_aux prec emax sx mx ex lx) = true.
Proof.
  intros H. unfold binary_round_aux.
  pose proof (shr_fexp_nonneg mx ex lx H) as H1.
  destruct (shr_fexp prec emax mx ex lx) as [mrs' e']; simpl in H1.
  pose proof (shr_fexp_nonneg _ e' loc_Exact
                (round_nearest_even_nonneg _ (loc_of_shr_record mrs') H1)) as H2.
  destruct (shr_fexp prec emax _ e' loc_Exact) as [mrs'' e'']; simpl in H2.
  destruct (shr_m mrs''); [| |lia].
  - apply eqb_reflx.
  - destruct (e'' <=? emax - prec); apply eqb_reflx.
Qed.

Lemma binary_round_sign sx mx ex :
  has_sign sx (binary_round prec emax sx mx ex) = true.
Proof.
  unfold binary_round. destruct (shl_align _ _ _).
  apply binary_round_aux_sign. lia.
Qed.

Lemma div_core_nonneg m1 e1 m2 e2 :
  0 <= fst (fst (SFdiv_core_binary prec emax (Z.pos m1) e1 (Z.pos m2) e2)).
Proof.
  unfold SFdiv_core_binary.
  set (s := _ - _ - _).
  set (m' := match s with Z.pos _ => _ | Z0 => _ | Z.neg _ => _ end).
  assert (M : 0 <= m').
  { subst m'. destruct s; try lia. apply Z.shiftl_nonneg. lia. }
  pose proof (Z.div_pos m' (Z.pos m2) M ltac:(lia)) as Q.
  unfold Z.div in Q. destruct (Z.div_eucl m' (Z.pos m2)) as [q r]. exact Q.
Qed.


Lemma leb0_spec x :
  (0 <=? x)%float
  = match Prim2SF x with
    | S754_zero _ => true
    | S754_infinity s | S754_finite s _ _ => negb s
    | S754_nan => false
    end.
Proof.
  rewrite leb_spec. change (Prim2SF 0) with (S754_zero false).
  destruct (Prim2SF x) as [s|s| |s m e]; try destruct s; reflexivity.
Qed.

Lemma has_sign_false_nonneg x :
  has_sign false (Prim2SF x) = true -> (0 <=? x)%float = true.
Proof.
  rewrite leb0_spec. destruct (Prim2SF x) as [s|s| |s m e]; try destruct s;
    simpl; intros H; try reflexivity; discriminate H.
Qed.

Lemma Prim2SF_EPSILON : Prim2SF JS.Number_EPSILON = SF_EPSILON.
Proof. reflexivity. Qed.

Lemma Prim2SF_1e6 : Prim2SF 1000000 = SF_1e6.
Proof. reflexivity. Qed.

Lemma add_EPSILON_not_nan n :
  is_nan n = false -> is_nan (n + JS.Number_EPSILON)%float = false.
Proof.
  rewrite !is_nan_spec, add_spec, Prim2SF_EPSILON. unfold SF_EPSILON.
  destruct (Prim2SF n) as [s|s| |s m e]; simpl; try congruence.
  intros _. apply binary_normalize_not_nan.
Qed.

Lemma add_EPSILON_sign n :
  (0 <=? n)%float = true ->
  has_sign false (Prim2SF (n + JS.Number_EPSILON)%float) = true.
Proof.
  rewrite leb0_spec, add_spec, Prim2SF_EPSILON. unfold SF_EPSILON.
  destruct (Prim2SF n) as [s|s| |s m e]; try destruct s; simpl; try congruence.
  intros _. unfold SF64add, SFadd. cbv zeta. unfold cond_Zopp.
  cbn [Z.add]. apply binary_round_sign.
Qed.

Lemma mul_1e6_not_nan a :
  is_nan a = false -> is_nan (a * 1000000)%float = false.
Proof.
  rewrite !is_nan_spec, mul_spec, Prim2SF_1e6. unfold SF_1e6.
  destruct (Prim2SF a) as [s|s| |s m e]; simpl; try congruence.
  intros _. eapply has_sign_not_nan, binary_round_aux_sign. lia.
Qed.

Lemma mul_1e6_sign a :
  has_sign false (Prim2SF a) = true ->
  has_sign false (Prim2SF (a * 1000000)%float) = true.
Proof.
  rewrite mul_spec, Prim2SF_1e6. unfold SF_1e6.
  destruct (Prim2SF a) as [s|s| |s m e]; try destruct s; simpl; try congruence.
  intros _. apply (binary_round_aux_sign false). lia.
Qed.

Lemma div_1e6_not_nan c :
  is_nan c = false -> is_nan (c / 1000000)%float = false.
Proof.
  rewrite !is_nan_spec, div_spec, Prim2SF_1e6. unfold SF_1e6.
  destruct (Prim2SF c) as [s|s| |s m e]; simpl; try congruence.
  intros _. unfold SF64div, SFdiv.
  pose proof (div_core_nonneg m e 8589934592000000 (-33)) as Q.
  destruct (SFdiv_core_binary _ _ _ _ _ _) as [[mz ez] lz]. simpl in Q.
  eapply has_sign_not_nan, binary_round_aux_sign. exact Q.
Qed.

Lemma div_1e6_sign c :
  has_sign false (Prim2SF c) = true ->
  has_sign false (Prim2SF (c / 1000000)%float) = true.
Proof.
  rewrite div_spec, Prim2SF_1e6. unfold SF_1e6.
  destruct (Prim2SF c) as [s|s| |s m e]; try destruct s; simpl; try congruence.
  intros _. unfold SF64div, SFdiv.
  pose proof (div_core_nonneg m e 8589934592000000 (-33)) as Q.
  destruct (SFdiv_core_binary _ _ _ _ _ _) as [[mz ez] lz]. simpl in Q.
  apply (binary_round_aux_sign false). exact Q.
Qed.

Lemma of_Z_not_nan z s : is_nan (JS.of_Z z s) = false.
Proof.
  unfold JS.of_Z. destruct (z =? 0); [destruct s; reflexivity|].
  destruct (z <? 0); rewrite is_nan_spec, ?opp_spec, of_uint63_spec.
  - pose proof (binary_normalize_not_nan (Uint63Axioms.to_Z (Uint63Axioms.of_Z (- z))) 0 false).
    destruct (binary_normalize _ _ _ _ _); simpl in *; congruence.
  - apply binary_normalize_not_nan.
Qed.

Lemma of_Z_sign z : 0 <= z -> has_sign false (Prim2SF (JS.of_Z z false)) = true.
Proof.
  intros H. unfold JS.of_Z. destruct (z =? 0); [reflexivity|].
  destruct (Z.ltb_spec z 0); [lia|]. rewrite of_uint63_spec.
  pose proof (Uint63.to_Z_bounded (Uint63Axioms.of_Z z)) as B.
  destruct (Uint63Axioms.to_Z _); [reflexivity|apply binary_round_sign|lia].
Qed.

Lemma Math_round_not_nan x : is_nan x = false -> is_nan (JS.Math_round x) = false.
Proof.
  intros H. unfold JS.Math_round.
  destruct (Prim2SF x) as [s|s| |s m e]; try exact H.
  destruct (0 <=? e); [exact H|]. apply of_Z_not_nan.
Qed.

Lemma Math_round_sign x :
  has_sign false (Prim2SF x) = true ->
  has_sign false (Prim2SF (JS.Math_round x)) = true.
Proof.
  intros H. unfold JS.Math_round.
  destruct (Prim2SF x) as [s|s| |s m e] eqn:E; try (rewrite E; exact H).
  destruct (Z.leb_spec 0 e) as [L|L]; [rewrite E; exact H|].
  simpl in H. apply eqb_prop in H. subst s. apply of_Z_sign.
  assert (K : 0 < 2 ^ (- e)) by (apply Z.pow_pos_nonneg; lia).
  unfold cond_Zopp. apply Z.div_pos; lia.
Qed.

(** [roundTo] never returns NaN, and keeps a Number that is at least 0 at
    least 0. *)
Lemma roundTo_not_nan n : is_nan (roundTo n) = false.
Proof.
  unfold roundTo, JS.Number_isFinite, is_finite.
  destruct (is_nan n) eqn:N; simpl; [reflexivity|].
  destruct (is_infinity n); simpl; [reflexivity|].
  apply div_1e6_not_nan, Math_round_not_nan, mul_1e6_not_nan, add_EPSILON_not_nan, N.
Qed.

Lemma roundTo_nonneg n : (0 <=? n)%float = true -> (0 <=? roundTo n)%float = true.
Proof.
  intros H. unfold roundTo. destruct (negb (JS.Number_isFinite n)); [reflexivity|].
  apply has_sign_false_nonneg, div_1e6_sign, Math_round_sign, mul_1e6_sign,
    add_EPSILON_sign, H.
Qed.

End RoundFacts.

(** ** Exact arithmetic on counting numbers *)

Module ExactFacts.

Lemma iter_pos_nat {A} (f : A -> A) p x :
  iter_pos f p x = Nat.iter (Pos.to_nat p) f x.
Proof.
  revert x. induction p; intros x; cbn [iter_pos].
  - rewrite !IHp, Pos2Nat.inj_xI.
    replace (S (2 * Pos.to_nat p)) with (Pos.to_nat p + S (Pos.to_nat p))%nat by lia.
    rewrite Nat.iter_add, Nat.iter_succ_r. reflexivity.
  - rewrite !IHp, Pos2Nat.inj_xO.
    replace (2 * Pos.to_nat p)%nat with (Pos.to_nat p + Pos.to_nat p)%nat by lia.
    rewrite Nat.iter_add. reflexivity.
  - reflexivity.
Qed.

Lemma shr_exact_nat n q m :
  Z.pos m = Z.pos q * 2 ^ Z.of_nat n ->
  Nat.iter n shr_1 {| shr_m := Z.pos m; shr_r := false; shr_s := false |}
  = {| shr_m := Z.pos q; shr_r := false; shr_s := false |}.
Proof.
  revert m. induction n; intros m H.
  - simpl in *. f_equal. lia.
  - rewrite Nat.iter_succ_r.
    destruct m as [m'|m'|].
    + exfalso. rewrite Nat2Z.inj_succ, Z.pow_succ_r in H by lia. lia.
    + simpl. apply IHn. rewrite Nat2Z.inj_succ, Z.pow_succ_r in H by lia. lia.
    + exfalso. rewrite Nat2Z.inj_succ, Z.pow_succ_r in H by lia. lia.
Qed.

Lemma digits2_pos_bounds p :
  2 ^ (Z.pos (digits2_pos p) - 1) <= Z.pos p < 2 ^ Z.pos (digits2_pos p).
Proof.
  induction p; simpl digits2_pos.
  - rewrite Pos2Z.inj_succ.
    replace (Z.succ (Z.pos (digits2_pos p)) - 1) with (Z.succ (Z.pos (digits2_pos p) - 1)) by lia.
    rewrite !Z.pow_succ_r by lia. lia.
  - rewrite Pos2Z.inj_succ.
    replace (Z.succ (Z.pos (digits2_pos p)) - 1) with (Z.succ (Z.pos (digits2_pos p) - 1)) by lia.
    rewrite !Z.pow_succ_r by lia. lia.
  - simpl. lia.
Qed.

Lemma digits2_pos_unique p d :
  2 ^ (d - 1) <= Z.pos p < 2 ^ d -> Z.pos (digits2_pos p) = d.
Proof.
  intros [L U]. pose proof (digits2_pos_bounds p) as [L' U'].
  assert (0 < d).
  { destruct (Z.lt_ge_cases 0 d); [assumption|].
    destruct (Z.eq_dec d 0) as [->|]; [simpl in U; lia|].
    rewrite Z.pow_neg_r in U by lia. lia. }
  destruct (Z.lt_trichotomy (Z.pos (digits2_pos p)) d) as [C|[C|C]]; [|exact C|].
  - assert (2 ^ Z.pos (digits2_pos p) <= 2 ^ (d - 1)) by (apply Z.pow_le_mono_r; lia). lia.
  - assert (2 ^ d <= 2 ^ (Z.pos (digits2_pos p) - 1)) by (apply Z.pow_le_mono_r; lia). lia.
Qed.


Lemma fexp_normal d : -1021 <= d -> fexp prec emax d = d - 53.
Proof. intros H. unfold fexp, SpecFloat.emin, prec, emax. lia. Qed.

Lemma shr_exact m q k e :
  Z.pos m = Z.pos q * 2 ^ k -> 0 <= k ->
  shr {| shr_m := Z.pos m; shr_r := false; shr_s := false |} e k
  = ({| shr_m := Z.pos q; shr_r := false; shr_s := false |}, e + k).
Proof.
  intros H K. unfold shr. destruct k as [|p|p]; [| |lia].
  - simpl in H. rewrite Z.add_0_r. f_equal. f_equal. lia.
  - rewrite iter_pos_nat. f_equal. apply shr_exact_nat.
    rewrite positive_nat_Z. exact H.
Qed.

(** Rounding a mantissa that is a 53-bit number times a power of two is
    exact. *)
Lemma binary_round_aux_exact s m q k e :
  Z.pos m = Z.pos q * 2 ^ k -> 0 <= k -> Z.pos (digits2_pos q) = 53 ->
  -1074 <= e + k <= 971 ->
  binary_round_aux prec emax s (Z.pos m) e loc_Exact = S754_finite s q (e + k).
Proof.
  intros H K D R.
  assert (Dm : Z.pos (digits2_pos m) = 53 + k).
  { apply digits2_pos_unique. pose proof (digits2_pos_bounds q) as B.
    rewrite D in B. rewrite H.
    replace (53 + k - 1) with (52 + k) by lia.
    rewrite !Z.pow_add_r by lia. change (53 - 1) with 52 in B.
    pose proof (Z.pow_pos_nonneg 2 k ltac:(lia) K). nia. }
  unfold binary_round_aux, shr_fexp. cbn [Zdigits2 shr_record_of_loc].
  rewrite Dm, fexp_normal by lia.
  replace (53 + k + e - 53 - e) with k by lia.
  rewrite (shr_exact m q k e H K).
  cbn [shr_m loc_of_shr_record round_nearest_even Zdigits2 shr_record_of_loc].
  rewrite D, fexp_normal by lia.
  replace (53 + (e + k) - 53 - (e + k)) with 0 by lia.
  cbn [shr shr_m].
  destruct (Z.leb_spec (e + k) (emax - prec)) as [_|C]; [reflexivity|].
  unfold emax, prec in C. lia.
Qed.

Lemma pos_iter_xO p k : Z.pos (Pos.iter xO p k) = Z.pos p * 2 ^ Z.pos k.
Proof.
  revert p. induction k using Pos.peano_ind; intros p.
  - simpl. lia.
  - rewrite Pos.iter_succ, Pos2Z.inj_succ, Z.pow_succ_r by lia.
    rewrite Pos2Z.inj_xO, IHk. lia.
Qed.

Lemma shl_align_spec m e e' :
  e' <= e ->
  Z.pos (fst (shl_align m e e')) = Z.pos m * 2 ^ (e - e')
  /\ snd (shl_align m e e') = e'.
Proof.
  intros H. unfold shl_align. destruct (e' - e) as [|p|p] eqn:E; try lia.
  - replace (e - e') with 0 by lia. cbn [fst snd]. split; lia.
  - cbn [fst snd]. rewrite pos_iter_xO. replace (e - e') with (Z.pos p) by lia.
    split; reflexivity.
Qed.

Lemma binary_round_int p :
  Z.pos p < 2 ^ 53 -> binary_round prec emax false p 0 = canon p.
Proof.
  intros U. pose proof (digits2_pos_bounds p) as B.
  set (d := Z.pos (digits2_pos p)) in *.
  assert (Dd : 1 <= d <= 53).
  { split; [subst d; lia|].
    destruct (Z.le_gt_cases d 53); [assumption|].
    assert (2 ^ 53 <= 2 ^ (d - 1)) by (apply Z.pow_le_mono_r; lia). lia. }
  unfold binary_round. rewrite Z.add_0_r. fold d. rewrite fexp_normal by lia.
  destruct (shl_align_spec p 0 (d - 53) ltac:(lia)) as [A1 A2].
  destruct (shl_align p 0 (d - 53)) as [mz ez]. cbn [fst snd] in A1, A2. subst ez.
  replace (0 - (d - 53)) with (53 - d) in A1 by lia.
  assert (Q : Z.pos mz = Z.pos mz * 2 ^ 0) by lia.
  rewrite (binary_round_aux_exact false mz mz 0 (d - 53) Q); try lia.
  - unfold canon. fold d. rewrite <- A1, Pos2Z.id, Z.add_0_r. reflexivity.
  - apply digits2_pos_unique. rewrite A1. change (53 - 1) with 52.
    assert (E1 : 2 ^ 53 = 2 ^ d * 2 ^ (53 - d))
      by (rewrite <- Z.pow_add_r by lia; f_equal; lia).
    assert (E2 : 2 ^ 52 = 2 ^ (d - 1) * 2 ^ (53 - d))
      by (rewrite <- Z.pow_add_r by lia; f_equal; lia).
    assert (P : 0 < 2 ^ (53 - d)) by (apply Z.pow_pos_nonneg; lia).
    rewrite E1, E2. nia.
Qed.


Lemma canon_mantissa p :
  Z.pos p < 2 ^ 53 ->
  let d := Z.pos (digits2_pos p) in
  let q := Z.to_pos (Z.pos p * 2 ^ (53 - d)) in
  1 <= d <= 53 /\ Z.pos q = Z.pos p * 2 ^ (53 - d) /\ Z.pos (digits2_pos q) = 53.
Proof.
  intros U d q. pose proof (digits2_pos_bounds p) as B. fold d in B.
  assert (Dd : 1 <= d <= 53).
  { split; [subst d; lia|].
    destruct (Z.le_gt_cases d 53); [assumption|].
    assert (2 ^ 53 <= 2 ^ (d - 1)) by (apply Z.pow_le_mono_r; lia). lia. }
  assert (P : 0 < 2 ^ (53 - d)) by (apply Z.pow_pos_nonneg; lia).
  assert (Q : Z.pos q = Z.pos p * 2 ^ (53 - d)) by (subst q; rewrite Z2Pos.id; nia).
  split; [exact Dd|]. split; [exact Q|].
  apply digits2_pos_unique. rewrite Q. change (53 - 1) with 52.
  assert (E1 : 2 ^ 53 = 2 ^ d * 2 ^ (53 - d))
    by (rewrite <- Z.pow_add_r by lia; f_equal; lia).
  assert (E2 : 2 ^ 52 = 2 ^ (d - 1) * 2 ^ (53 - d))
    by (rewrite <- Z.pow_add_r by lia; f_equal; lia).
  rewrite E1, E2. nia.
Qed.

Lemma shl_align_none m e e' : e <= e' -> shl_align m e e' = (m, e).
Proof.
  intros H. unfold shl_align. destruct (e' - e) eqn:E; try reflexivity. lia.
Qed.

(** Adding 1 to an integer below 2^53 - 1 is exact. *)
Lemma add_one_canon p :
  Z.pos p + 1 < 2 ^ 53 ->
  SFadd prec emax (canon p) (S754_finite false 4503599627370496 (-52))
  = canon (p + 1).
Proof.
  intros U.
  destruct (canon_mantissa p ltac:(lia)) as (Dd & Q & _).
  destruct (canon_mantissa (p + 1) ltac:(lia)) as (Dd' & Q' & D').
  unfold canon. cbv zeta.
  set (d := Z.pos (digits2_pos p)) in *.
  set (d' := Z.pos (digits2_pos (p + 1))) in *.
  set (q := Z.to_pos (Z.pos p * 2 ^ (53 - d))) in *.
  set (q' := Z.to_pos (Z.pos (p + 1) * 2 ^ (53 - d'))) in *.
  unfold SFadd. rewrite Z.min_r by lia.
  destruct (shl_align_spec q (d - 53) (-52) ltac:(lia)) as [A _].
  rewrite (shl_align_none 4503599627370496 (-52) (-52)) by lia.
  cbn [fst cond_Zopp Z.add].
  set (a := fst (shl_align q (d - 53) (-52))) in *.
  assert (S : Z.pos (a + 4503599627370496) = (Z.pos p + 1) * 2 ^ 52).
  { rewrite Pos2Z.inj_add, A, Q. replace (d - 53 - -52) with (d - 1) by lia.
    rewrite <- Z.mul_assoc, <- Z.pow_add_r by lia.
    replace (53 - d + (d - 1)) with 52 by lia. change (2 ^ 52) with 4503599627370496. lia. }
  assert (Ds : Z.pos (digits2_pos (a + 4503599627370496)) = d' + 52).
  { apply digits2_pos_unique. rewrite S.
    pose proof (digits2_pos_bounds (p + 1)) as B. fold d' in B.
    rewrite Pos2Z.inj_add in B.
    replace (d' + 52 - 1) with ((d' - 1) + 52) by lia.
    rewrite !Z.pow_add_r by lia. change (2 ^ 52) with 4503599627370496. lia. }
  unfold binary_normalize, binary_round. rewrite Ds.
  replace (d' + 52 + -52) with d' by lia. rewrite fexp_normal by lia.
  rewrite shl_align_none by lia.
  rewrite (binary_round_aux_exact false _ q' (d' - 1) (-52)); try lia.
  - f_equal. lia.
  - rewrite S, Q', Pos2Z.inj_add.
    rewrite <- Z.mul_assoc, <- Z.pow_add_r by lia.
    replace (53 - d' + (d' - 1)) with 52 by lia. reflexivity.
Qed.


Lemma to_Z_of_Z z : 0 <= z < 2 ^ 53 -> Uint63Axioms.to_Z (Uint63Axioms.of_Z z) = z.
Proof.
  intros H. rewrite Uint63.of_Z_spec. apply Z.mod_small.
  change Uint63Axioms.wB with (2 ^ 63).
  assert (2 ^ 53 < 2 ^ 63) by reflexivity. lia.
Qed.

Lemma Prim2SF_of_Z p :
  Z.pos p < 2 ^ 53 -> Prim2SF (JS.of_Z (Z.pos p) false) = canon p.
Proof.
  intros U. unfold JS.of_Z. cbn [Z.eqb Z.ltb Z.compare].
  rewrite of_uint63_spec, to_Z_of_Z by lia. apply binary_round_int, U.
Qed.

(** On the integers from 0 to 2^53 - 2, the Number addition of 1 is the
    addition of integers. *)
Lemma of_Z_succ z :
  0 <= z -> z + 1 < 2 ^ 53 -> (JS.of_Z z false + 1)%float = JS.of_Z (z + 1) false.
Proof.
  intros L U. destruct z as [|p|p]; [reflexivity| |lia].
  apply Prim2SF_inj. rewrite add_spec, Prim2SF_of_Z by lia.
  change (Prim2SF 1) with (S754_finite false 4503599627370496 (-52)).
  replace (Z.pos p + 1) with (Z.pos (p + 1)) by lia.
  rewrite Prim2SF_of_Z by lia. apply add_one_canon. lia.
Qed.

Lemma of_Z_isInteger z :
  0 <= z < 2 ^ 53 -> JS.Number_isInteger (JS.of_Z z false) = true.
Proof.
  intros [L U]. destruct z as [|p|p]; [reflexivity| |lia].
  unfold JS.Number_isInteger. rewrite Prim2SF_of_Z by exact U.
  destruct (canon_mantissa p U) as (Dd & Q & _). unfold canon. cbv zeta.
  rewrite Q. replace (- (Z.pos (digits2_pos p) - 53)) with (53 - Z.pos (digits2_pos p)) by lia.
  rewrite Z.mod_mul by (apply Z.pow_nonzero; lia). apply orb_true_r.
Qed.

End ExactFacts.

(** * Facts about calendar days *)

Module DayFacts.
Import Day.

Lemma YearFromDay_spec d :
  DayFromYear (YearFromDay d) <= d < DayFromYear (YearFromDay d + 1).
Proof.
  unfold YearFromDay.
  destruct (Z.ltb_spec d (DayFromYear (1970 + d * 400 / 146097))).
  - unfold DayFromYear in *. Z.div_mod_to_equations. lia.
  - destruct (Z.leb_spec (DayFromYear (1970 + d * 400 / 146097 + 1)) d).
    + unfold DayFromYear in *. Z.div_mod_to_equations. lia.
    + lia.
Qed.

Lemma DayFromYear_mono y y' : y <= y' -> DayFromYear y <= DayFromYear y'.
Proof. intros H. unfold DayFromYear. Z.div_mod_to_equations. lia. Qed.

Lemma DaysInYear y :
  DayFromYear (y + 1) - DayFromYear y = 365 + (if InLeapYear y then 1 else 0).
Proof.
  unfold InLeapYear, DayFromYear.
  destruct (Z.eqb_spec (y mod 4) 0), (Z.eqb_spec (y mod 100) 0),
    (Z.eqb_spec (y mod 400) 0); cbn [negb]; Z.div_mod_to_equations; try lia.

Qed.

Lemma DayWithinYear_range d :
  0 <= DayWithinYear d < 365 + (if InLeapYear (YearFromDay d) then 1 else 0).
Proof.
  unfold DayWithinYear. pose proof (YearFromDay_spec d).
  pose proof (DaysInYear (YearFromDay d)). lia.
Qed.

Lemma MonthFromDay_range d : 0 <= MonthFromDay d <= 11.
Proof.
  unfold MonthFromDay.
  repeat match goal with |- context [if ?a <? ?b then _ else _] =>
    destruct (a <? b) end; lia.
Qed.

Lemma DateFromDay_range d : 1 <= DateFromDay d <= 31.
Proof.
  unfold DateFromDay, MonthFromDay. pose proof (DayWithinYear_range d) as R.
  destruct (InLeapYear (YearFromDay d));
  repeat match goal with |- context [if ?a <? ?b then _ else _] =>
    destruct (Z.ltb_spec a b) end;
  unfold DaysBeforeMonth; cbv beta iota zeta in *; lia.
Qed.

(** Taking a day apart and putting it together again, [k] days later. *)
Lemma MakeDay_parts d k :
  MakeDay (YearFromDay d) (MonthFromDay d) (DateFromDay d + k) = d + k.
Proof.
  pose proof (MonthFromDay_range d) as R.
  unfold MakeDay. cbv zeta. rewrite (Z.div_small (MonthFromDay d) 12), (Z.mod_small (MonthFromDay d) 12) by lia.
  rewrite Z.add_0_r. unfold DateFromDay, DayWithinYear. lia.
Qed.

Lemma year_in_range d :
  DayFromYear 1000 <= d < DayFromYear 10000 -> 1000 <= YearFromDay d <= 9999.
Proof.
  intros [L U]. pose proof (YearFromDay_spec d) as [A B]. split.
  - destruct (Z.le_gt_cases 1000 (YearFromDay d)) as [|C]; [assumption|].
    pose proof (DayFromYear_mono (YearFromDay d + 1) 1000 ltac:(lia)). lia.
  - destruct (Z.le_gt_cases (YearFromDay d) 9999) as [|C]; [assumption|].
    pose proof (DayFromYear_mono 10000 (YearFromDay d) ltac:(lia)). lia.
Qed.

End DayFacts.

Module KeyFacts.
Import Day DayFacts.

Lemma forallb_range (P : Z -> bool) (lo len : Z) :
  forallb P (map (fun i => lo + Z.of_nat i) (seq 0 (Z.to_nat len))) = true ->
  forall z, lo <= z < lo + len -> P z = true.
Proof.
  intros H z R. rewrite forallb_forall in H. apply H.
  apply in_map_iff. exists (Z.to_nat (z - lo)). split; [lia|].
  apply in_seq. lia.
Qed.

Lemma four_digits_ok y : 1000 <= y <= 9999 -> four_digits y = true.
Proof.
  intros R. apply (forallb_range four_digits 1000 9000); [vm_compute; reflexivity|lia].
Qed.

Lemma two_digits_ok n : 0 <= n <= 99 -> two_digits n = true.
Proof.
  intros R. apply (forallb_range two_digits 0 100); [vm_compute; reflexivity|lia].
Qed.

(** A key printed from a four-digit year, a month and a date is read back. *)
Lemma exec_dateKey_print y m d :
  1000 <= y <= 9999 -> 0 <= m <= 99 -> 0 <= d <= 99 ->
  exec_dateKey (Str.of_int y ++ "-" ++ pad2 m ++ "-" ++ pad2 d) = Some (y, m, d).
Proof.
  intros Ry Rm Rd.
  pose proof (four_digits_ok y Ry) as Hy.
  pose proof (two_digits_ok m Rm) as Hm.
  pose proof (two_digits_ok d Rd) as Hd.
  unfold four_digits in Hy. unfold two_digits in Hm, Hd.
  destruct (Str.of_int y) as [|a [|b [|c [|e [|? ?]]]]]; try discriminate.
  destruct (pad2 m) as [|m1 [|m2 [|? ?]]]; try discriminate.
  destruct (pad2 d) as [|d1 [|d2 [|? ?]]]; try discriminate.
  apply andb_prop in Hy. destruct Hy as [Hy Ey].
  apply andb_prop in Hm. destruct Hm as [Hm Em].
  apply andb_prop in Hm. destruct Hm as [Hm1 Hm2].
  apply andb_prop in Hd. destruct Hd as [Hd Ed].
  apply andb_prop in Hd. destruct Hd as [Hd1 Hd2].
  cbn [forallb] in Hy.
  apply andb_prop in Hy. destruct Hy as [Ha Hy].
  apply andb_prop in Hy. destruct Hy as [Hb Hy].
  apply andb_prop in Hy. destruct Hy as [Hc Hy].
  apply andb_prop in Hy. destruct Hy as [He _].
  apply Z.eqb_eq in Ey, Em, Ed.
  unfold exec_dateKey. cbn [append list_ascii_of_string forallb].
  rewrite Ha, Hb, Hc, He, Hm1, Hm2, Hd1, Hd2. cbn [andb].
  change ("-" =? "-")%char with true. cbn [andb].
  rewrite Ey, Em, Ed. reflexivity.
Qed.

End KeyFacts.

(** ** Keys of days *)

Lemma div_msPerDay n : n * Day.msPerDay / Day.msPerDay = n.
Proof. apply Z.div_mul. discriminate. Qed.

Lemma key_of_day_read n :
  four_digit_year n ->
  exec_dateKey (key_of_day n)
  = Some (Day.YearFromDay n, Day.MonthFromDay n + 1, Day.DateFromDay n).
Proof.
  intros R. unfold key_of_day, dateKeyFromUTCDate,
    Day.getUTCFullYear, Day.getUTCMonth, Day.getUTCDate.
  rewrite div_msPerDay.
  pose proof (DayFacts.year_in_range n R).
  pose proof (DayFacts.MonthFromDay_range n).
  pose proof (DayFacts.DateFromDay_range n).
  apply KeyFacts.exec_dateKey_print; lia.
Qed.

Lemma test_dateKey_key n : four_digit_year n -> test_dateKey (key_of_day n) = true.
Proof. intros R. unfold test_dateKey. rewrite key_of_day_read by exact R. reflexivity. Qed.

Lemma dayNumberUTC_key h n : four_digit_year n -> dayNumberUTC h (key_of_day n) = n.
Proof.
  intros R. unfold dayNumberUTC. rewrite key_of_day_read by exact R.
  pose proof (DayFacts.year_in_range n R) as Y.
  unfold Day.Date_UTC.
  replace ((0 <=? Day.YearFromDay n) && (Day.YearFromDay n <=? 99)) with false
    by (symmetry; apply andb_false_iff; right; apply Z.leb_gt; lia).
  rewrite div_msPerDay.
  replace (Day.MonthFromDay n + 1 - 1) with (Day.MonthFromDay n) by lia.
  rewrite <- (Z.add_0_r (Day.DateFromDay n)), DayFacts.MakeDay_parts. lia.
Qed.

(** One day after a well-formed key, whatever its year. *)
Lemma addDaysKey_next h k :
  test_dateKey k = true -> addDaysKey h k 1 = key_of_day (dayNumberUTC h k + 1).
Proof.
  unfold test_dateKey, addDaysKey, dayNumberUTC, key_of_day.
  destruct (exec_dateKey k) as [[[y mo] da]|]; [intros _|discriminate].
  unfold Day.Date_UTC, Day.setUTCDate, Day.getUTCDate.
  rewrite !div_msPerDay, DayFacts.MakeDay_parts, Z.mod_mul by discriminate.
  rewrite Z.add_0_r. reflexivity.
Qed.

Lemma four_digit_year_check n :
  (Day.DayFromYear 1000 <=? n) && (n <? Day.DayFromYear 10000) = true ->
  four_digit_year n.
Proof.
  intros H. apply andb_prop in H. destruct H as [A B].
  apply Z.leb_le in A. apply Z.ltb_lt in B. split; assumption.
Qed.

Lemma YearFromDay_mono a b : a <= b -> Day.YearFromDay a <= Day.YearFromDay b.
Proof.
  intros H. pose proof (DayFacts.YearFromDay_spec a) as [A1 A2].
  pose proof (DayFacts.YearFromDay_spec b) as [B1 B2].
  destruct (Z.le_gt_cases (Day.YearFromDay a) (Day.YearFromDay b)) as [|C];
    [assumption|].
  pose proof (DayFacts.DayFromYear_mono (Day.YearFromDay b + 1) (Day.YearFromDay a)
                ltac:(lia)). lia.
Qed.

Lemma ymd_of_day_mono a b : a < b -> ymd_of_day a < ymd_of_day b.
Proof.
  intros H. unfold ymd_of_day, ymd.
  pose proof (YearFromDay_mono a b ltac:(lia)) as Y.
  pose proof (DayFacts.MonthFromDay_range a). pose proof (DayFacts.MonthFromDay_range b).
  pose proof (DayFacts.DateFromDay_range a). pose proof (DayFacts.DateFromDay_range b).
  destruct (Z.eq_dec (Day.YearFromDay a) (Day.YearFromDay b)) as [E|E]; [|lia].
  assert (W : Day.DayWithinYear a < Day.DayWithinYear b)
    by (unfold Day.DayWithinYear; rewrite E; lia).
  pose proof (DayFacts.DayWithinYear_range a) as Ra.
  pose proof (DayFacts.DayWithinYear_range b) as Rb.
  unfold Day.DateFromDay, Day.MonthFromDay in *. rewrite E in *.
  destruct (Day.InLeapYear (Day.YearFromDay b));
    repeat match goal with |- context [if ?x <? ?y then _ else _] =>
      destruct (Z.ltb_spec x y) end;
    unfold Day.DaysBeforeMonth; cbv beta iota zeta in *; lia.
Qed.

Lemma ascii_compare_digit c c' : Ascii.compare c c' = (Str.digit c ?= Str.digit c').
Proof.
  unfold Ascii.compare, Str.digit. rewrite <- N2Z.inj_compare.
  destruct (Z.compare_spec (Z.of_N (N_of_ascii c)) (Z.of_N (N_of_ascii c')));
    symmetry; [apply Z.compare_eq_iff|apply Z.compare_lt_iff|apply Z.compare_gt_iff]; lia.
Qed.

Lemma is_digit_range c : Str.is_digit c = true -> 0 <= Str.digit c <= 9.
Proof.
  unfold Str.is_digit, Str.digit. intros H. apply andb_prop in H.
  destruct H as [A B]. apply N.leb_le in A, B. lia.
Qed.

(** Two printed keys compare as strings the way their dates compare. *)
Lemma compare_printed y m d y' m' d' :
  1000 <= y <= 9999 -> 0 <= m <= 99 -> 0 <= d <= 99 ->
  1000 <= y' <= 9999 -> 0 <= m' <= 99 -> 0 <= d' <= 99 ->
  String.compare (Str.of_int y ++ "-" ++ pad2 m ++ "-" ++ pad2 d)
                 (Str.of_int y' ++ "-" ++ pad2 m' ++ "-" ++ pad2 d')
  = (ymd y m d ?= ymd y' m' d').
Proof.
  intros Ry Rm Rd Ry' Rm' Rd'.
  pose proof (KeyFacts.four_digits_ok y Ry) as Hy.
  pose proof (KeyFacts.two_digits_ok m Rm) as Hm.
  pose proof (KeyFacts.two_digits_ok d Rd) as Hd.
  pose proof (KeyFacts.four_digits_ok y' Ry') as Hy'.
  pose proof (KeyFacts.two_digits_ok m' Rm') as Hm'.
  pose proof (KeyFacts.two_digits_ok d' Rd') as Hd'.
  unfold four_digits in Hy, Hy'. unfold two_digits in Hm, Hd, Hm', Hd'.
  destruct (Str.of_int y) as [|a1 [|a2 [|a3 [|a4 [|? ?]]]]]; try discriminate.
  destruct (pad2 m) as [|a5 [|a6 [|? ?]]]; try discriminate.
  destruct (pad2 d) as [|a7 [|a8 [|? ?]]]; try discriminate.
  destruct (Str.of_int y') as [|b1 [|b2 [|b3 [|b4 [|? ?]]]]]; try discriminate.
  destruct (pad2 m') as [|b5 [|b6 [|? ?]]]; try discriminate.
  destruct (pad2 d') as [|b7 [|b8 [|? ?]]]; try discriminate.
  cbn [forallb] in Hy, Hy'.
  repeat match goal with
         | H : _ && _ = true |- _ => apply andb_prop in H; destruct H
         | H : (_ =? _) = true |- _ => apply Z.eqb_eq in H
         | H : Str.is_digit _ = true |- _ => apply is_digit_range in H
         end.
  subst y m d y' m' d'. unfold ymd.
  cbn [append String.compare]. rewrite !ascii_compare_digit.
  change (Str.digit "-" ?= Str.digit "-") with Eq. cbv iota.
  repeat match goal with
         | |- match (?u ?= ?v) with _ => _ end = _ =>
             destruct (Z.compare_spec u v)
         end;
    symmetry;
    solve [ apply Z.compare_eq_iff; lia | apply Z.compare_lt_iff; lia
          | apply Z.compare_gt_iff; lia ].
Qed.

(** Among the keys of days with a four-digit year, the order of strings is
    the order of days. *)
Lemma gt_key_of_day a b :
  four_digit_year a -> four_digit_year b ->
  Str.gt (key_of_day a) (key_of_day b) = (b <? a).
Proof.
  intros Ra Rb. unfold Str.gt, String.ltb, key_of_day, dateKeyFromUTCDate,
    Day.getUTCFullYear, Day.getUTCMonth, Day.getUTCDate.
  rewrite !div_msPerDay.
  pose proof (DayFacts.year_in_range a Ra). pose proof (DayFacts.year_in_range b Rb).
  pose proof (DayFacts.MonthFromDay_range a). pose proof (DayFacts.MonthFromDay_range b).
  pose proof (DayFacts.DateFromDay_range a). pose proof (DayFacts.DateFromDay_range b).
  rewrite compare_printed by lia. fold (ymd_of_day a). fold (ymd_of_day b).
  destruct (Z.ltb_spec b a) as [L|L].
  - apply ymd_of_day_mono in L. apply Z.compare_lt_iff in L. rewrite L. reflexivity.
  - destruct (Z.eq_dec a b) as [->|N].
    + rewrite Z.compare_refl. reflexivity.
    + assert (L' : a < b) by lia. apply ymd_of_day_mono in L'.
      apply Z.compare_gt_iff in L'. rewrite L'. reflexivity.
Qed.

(** * Facts about the engine *)

Lemma float_neq (a b : float) : PrimFloat.Leibniz.eqb a b = false -> a <> b.
Proof.
  intros H E. apply FloatAxioms.Leibniz.eqb_spec in E. congruence.
Qed.

Lemma gt_irrefl s : Str.gt s s = false.
Proof.
  unfold Str.gt, String.ltb.
  replace (String.compare s s) with Eq; [reflexivity|].
  symmetry. induction s as [|c r IH]; simpl; [reflexivity|].
  unfold Ascii.compare. rewrite N.compare_refl. exact IH.
Qed.

Lemma dayDiff_same h k : dayDiff h k k = 0.
Proof. unfold dayDiff. lia. Qed.

Lemma trySecureToday_hopper h t r : hopper (fst (trySecureToday h t r)) = hopper t.
Proof.
  unfold trySecureToday. destruct (securedToday t); [reflexivity|].
  destruct (_ <=? _)%float; reflexivity.
Qed.

Lemma trySecureToday_dayKey h t r : dayKey (fst (trySecureToday h t r)) = dayKey t.
Proof.
  unfold trySecureToday. destruct (securedToday t); [reflexivity|].
  destruct (_ <=? _)%float; reflexivity.
Qed.

Lemma rollover_day_hopper h t c :
  hopper (fst (rollover_day h (t, c))) = JS.Math_max 0 (hopper t - 1).
Proof.
  unfold rollover_day.
  destruct (negb (securedToday t) && negb (streak t =? 0)%float);
    match goal with
    | |- context [trySecureToday h ?x ?r] =>
        pose proof (trySecureToday_hopper h x r) as E;
        destruct (trySecureToday h x r) as [t' b]
    end; simpl in *; exact E.
Qed.

(** After one day the flag is the outcome of the auto-secure. *)
Lemma rollover_day_secured h t c :
  securedToday (fst (rollover_day h (t, c)))
  = (DAILY_THRESHOLD - EPS <=? JS.Math_max 0 (hopper t - 1))%float.
Proof.
  unfold rollover_day, trySecureToday.
  destruct (negb (securedToday t) && negb (streak t =? 0)%float); simpl;
    destruct (_ <=? _)%float; reflexivity.
Qed.

Lemma rollover_day_streak h t c :
  streak (fst (rollover_day h (t, c)))
  = let s0 := if negb (securedToday t) && negb (streak t =? 0)%float
              then 0%float else streak t in
    if (DAILY_THRESHOLD - EPS <=? JS.Math_max 0 (hopper t - 1))%float
    then ((if JS.Number_isInteger s0 then s0 else 0) + 1)%float
    else s0.
Proof.
  unfold rollover_day, trySecureToday.
  destruct (negb (securedToday t) && negb (streak t =? 0)%float); simpl;
    destruct (_ <=? _)%float; reflexivity.
Qed.

Lemma rollover_day_changed h st : snd (rollover_day h st) = true.
Proof.
  destruct st as [t c]. unfold rollover_day.
  destruct (negb (securedToday t) && negb (streak t =? 0)%float);
    destruct (trySecureToday _ _ _) as [t' b]; destruct b; reflexivity.
Qed.

Lemma rollover_day_dayKey h t c :
  dayKey (fst (rollover_day h (t, c))) = addDaysKey h (dayKey t) 1.
Proof.
  unfold rollover_day.
  destruct (negb (securedToday t) && negb (streak t =? 0)%float);
    match goal with
    | |- context [trySecureToday h ?x ?r] =>
        pose proof (trySecureToday_dayKey h x r) as E;
        destruct (trySecureToday h x r) as [t' b]
    end; simpl in *; exact E.
Qed.

Lemma rollover_loop_S h n st :
  rollover_loop h (S n) st = rollover_day h (rollover_loop h n st).
Proof.
  revert st. induction n; intros st; [reflexivity|].
  change (rollover_loop h (S (S n)) st) with (rollover_loop h (S n) (rollover_day h st)).
  rewrite IHn. reflexivity.
Qed.

Lemma rollover_loop_add h a b st :
  rollover_loop h (a + b) st = rollover_loop h b (rollover_loop h a st).
Proof. revert st. induction a; intros st; simpl; auto. Qed.

Lemma rollover_loop_hopper h n t c :
  hopper (fst (rollover_loop h n (t, c))) = Nat.iter n decay (hopper t).
Proof.
  induction n; [reflexivity|].
  rewrite rollover_loop_S. destruct (rollover_loop h n (t, c)) as [t' c'].
  rewrite rollover_day_hopper. simpl in IHn |- *. rewrite IHn. reflexivity.
Qed.

Lemma rollover_loop_dayKey h n t c m :
  dayKey t = key_of_day m -> four_digit_year m ->
  four_digit_year (m + Z.of_nat n) ->
  dayKey (fst (rollover_loop h n (t, c))) = key_of_day (m + Z.of_nat n).
Proof.
  intros K Rm. induction n; intros Rn.
  - simpl. rewrite Z.add_0_r. exact K.
  - assert (Rn' : four_digit_year (m + Z.of_nat n))
      by (unfold four_digit_year in *; lia).
    rewrite rollover_loop_S. specialize (IHn Rn').
    destruct (rollover_loop h n (t, c)) as [t' c']. simpl in IHn.
    rewrite rollover_day_dayKey, IHn, addDaysKey_next, dayNumberUTC_key
      by auto using test_dateKey_key.
    f_equal. lia.
Qed.

(** [Math.max(0, x)] is at least 0 unless [x] is NaN. *)
Lemma Math_max_0_nonneg x : is_nan x = false -> (0 <=? JS.Math_max 0 x)%float = true.
Proof.
  intros H. unfold JS.Math_max. rewrite H.
  change (is_nan 0) with false. simpl.
  destruct (0 <? x)%float eqn:E; [apply NumFacts.ltb_leb; exact E|].
  destruct (x <? 0)%float; [reflexivity|].
  change (get_sign 0) with false. reflexivity.
Qed.

Lemma decay_nonneg x : (0 <=? x)%float = true -> (0 <=? JS.Math_max 0 (x - 1))%float = true.
Proof.
  intros H. apply Math_max_0_nonneg, NumFacts.sub_one_not_nan.
  exact (NumFacts.leb_not_nan_r _ _ H).
Qed.

Lemma rollover_loop_nonneg h n t c :
  (0 <=? hopper t)%float = true ->
  (0 <=? hopper (fst (rollover_loop h n (t, c))))%float = true.
Proof.
  induction n; intros H; [exact H|].
  rewrite rollover_loop_S.
  destruct (rollover_loop h n (t, c)) as [t' c'].
  rewrite rollover_day_hopper. apply decay_nonneg. apply IHn, H.
Qed.

Lemma lt_zero_neq_zero s : (0 <? s)%float = true -> (s =? 0)%float = false.
Proof.
  rewrite ltb_spec, eqb_spec. unfold SFltb, SFeqb.
  change (Prim2SF 0) with (S754_zero false).
  destruct (Prim2SF s) as [b|b| |b m e]; simpl; try congruence;
    destruct b; congruence.
Qed.

(** The streak after a day that closes unsecured and whose decayed hopper
    still reaches the threshold is 1, whatever it was. *)
Lemma streak_after_break s :
  ((if JS.Number_isInteger (if negb (s =? 0)%float then 0%float else s)
    then (if negb (s =? 0)%float then 0%float else s) else 0) + 1)%float
  = 1%float.
Proof.
  destruct (s =? 0)%float eqn:E; simpl; [|reflexivity].
  destruct (NumFacts.eqb_zero_inv s E) as [-> | ->]; reflexivity.
Qed.

(** What [processTaskToToday] does when the stored day is usable. *)
Lemma processTaskToToday_stale h t today :
  test_dateKey (dayKey t) = true -> Str.gt (dayKey t) today = false ->
  processTaskToToday h t today
  = if dayDiff h (dayKey t) today <=? 0 then (t, false)
    else rollover_loop h (Z.to_nat (dayDiff h (dayKey t) today)) (t, false).
Proof.
  intros W G. unfold processTaskToToday. rewrite W. cbn [negb]. rewrite G.
  reflexivity.
Qed.

Lemma processTaskToToday_ahead h t today :
  negb (test_dateKey (dayKey t)) || Str.gt (dayKey t) today = true ->
  processTaskToToday h t today = (clamped t today, true).
Proof.
  intros H. unfold processTaskToToday, clamped.
  destruct (test_dateKey (dayKey t)); simpl in H |- *.
  - rewrite H. simpl. rewrite dayDiff_same. reflexivity.
  - rewrite gt_irrefl, dayDiff_same. reflexivity.
Qed.

(** The whole call as a loop of [iterations] days. *)
Lemma processTaskToToday_loop h t today :
  processTaskToToday h t today
  = rollover_loop h (iterations h t today)
      (if negb (test_dateKey (dayKey t)) || Str.gt (dayKey t) today
       then (clamped t today, true) else (t, false)).
Proof.
  unfold iterations.
  destruct (negb (test_dateKey (dayKey t)) || Str.gt (dayKey t) today) eqn:E.
  - rewrite processTaskToToday_ahead by exact E. reflexivity.
  - apply orb_false_elim in E. destruct E as [W G].
    apply negb_false_iff in W. rewrite processTaskToToday_stale by assumption.
    destruct (Z.leb_spec (dayDiff h (dayKey t) today) 0) as [L|L]; [|reflexivity].
    replace (Z.to_nat (dayDiff h (dayKey t) today)) with O by lia. reflexivity.
Qed.

(** Once the stored day is well formed, not ahead of today and not behind
    it, [processTaskToToday] changes nothing and reports no change. *)
Lemma processTaskToToday_caught_up h t today :
  test_dateKey (dayKey t) = true -> Str.gt (dayKey t) today = false ->
  dayDiff h (dayKey t) today <= 0 ->
  processTaskToToday h t today = (t, false).
Proof.
  intros W G D. rewrite processTaskToToday_stale by assumption.
  destruct (Z.leb_spec (dayDiff h (dayKey t) today) 0); [reflexivity|lia].
Qed.

(** A stored day that is later in the calendar than today is clamped. *)
Lemma processTaskToToday_later_day h t a b :
  four_digit_year a -> four_digit_year b -> b < a ->
  dayKey t = key_of_day a ->
  processTaskToToday h t (key_of_day b) = (clamped t (key_of_day b), true).
Proof.
  intros Ra Rb L K. apply processTaskToToday_ahead.
  rewrite K, gt_key_of_day by assumption.
  destruct (Z.ltb_spec b a); [apply orb_true_r|lia].
Qed.

(** The first call leaves the stored day at today, when today is the key of
    a day with a four-digit year and the day after the stored one is not
    before year 1000. *)
Lemma processTaskToToday_reaches_today h t today n :
  today = key_of_day n -> four_digit_year n ->
  (test_dateKey (dayKey t) = true ->
   Day.DayFromYear 1000 <= dayNumberUTC h (dayKey t) + 1) ->
  0 < dayDiff h (dayKey t) today \/ negb (test_dateKey (dayKey t)) || Str.gt (dayKey t) today = true ->
  dayKey (fst (processTaskToToday h t today)) = today.
Proof.
  intros T R L C.
  destruct (negb (test_dateKey (dayKey t)) || Str.gt (dayKey t) today) eqn:E.
  - rewrite processTaskToToday_ahead by exact E. reflexivity.
  - destruct C as [C|C]; [|discriminate].
    apply orb_false_elim in E. destruct E as [W G]. apply negb_false_iff in W.
    specialize (L W).
    rewrite processTaskToToday_stale by assumption.
    destruct (Z.leb_spec (dayDiff h (dayKey t) today) 0) as [|_]; [lia|].
    unfold dayDiff in *. rewrite T, dayNumberUTC_key in * by exact R.
    set (k := dayNumberUTC h (dayKey t)) in *.
    replace (Z.to_nat (n - k)) with (S (Z.to_nat (n - k - 1))) by lia.
    cbn [rollover_loop].
    pose proof (rollover_day_dayKey h t false) as D1.
    destruct (rollover_day h (t, false)) as [t' c']. simpl in D1.
    rewrite addDaysKey_next in D1 by exact W. fold k in D1.
    rewrite (rollover_loop_dayKey h _ t' c' (k + 1) D1);
      unfold four_digit_year in *; [f_equal; lia|lia|lia].
Qed.

(** Idempotence of [processTaskToToday] under those conditions: a second
    call with the same today changes nothing and reports no change. *)
Lemma processTaskToToday_twice h t today n :
  today = key_of_day n -> four_digit_year n ->
  (test_dateKey (dayKey t) = true ->
   Day.DayFromYear 1000 <= dayNumberUTC h (dayKey t) + 1) ->
  processTaskToToday h (fst (processTaskToToday h t today)) today
  = (fst (processTaskToToday h t today), false).
Proof.
  intros T R L.
  assert (Wt : test_dateKey today = true) by (rewrite T; apply test_dateKey_key, R).
  destruct (Z.ltb_spec 0 (dayDiff h (dayKey t) today)) as [C|C];
    [|destruct (negb (test_dateKey (dayKey t)) || Str.gt (dayKey t) today) eqn:E].
  - pose proof (processTaskToToday_reaches_today h t today n T R L (or_introl C)) as K.
    rewrite processTaskToToday_stale; rewrite K; auto using gt_irrefl.
    rewrite dayDiff_same. reflexivity.
  - pose proof (processTaskToToday_reaches_today h t today n T R L (or_intror E)) as K.
    rewrite processTaskToToday_stale; rewrite K; auto using gt_irrefl.
    rewrite dayDiff_same. reflexivity.
  - apply orb_false_elim in E. destruct E as [W G]. apply negb_false_iff in W.
    rewrite (processTaskToToday_stale h t today W G).
    destruct (Z.leb_spec (dayDiff h (dayKey t) today) 0) as [_|]; [|lia].
    simpl. rewrite (processTaskToToday_stale h t today W G).
    destruct (Z.leb_spec (dayDiff h (dayKey t) today) 0) as [_|]; [|lia].
    reflexivity.
Qed.

Example processTaskToToday_twice_nov3 :
  processTaskToToday host_nov3
    (fst (processTaskToToday host_nov3 task_behind14 "2026-11-03"))
    "2026-11-03"
  = (fst (processTaskToToday host_nov3 task_behind14 "2026-11-03"),
     false).
Proof.
  apply (processTaskToToday_twice host_nov3 _ "2026-11-03" 20760).
  - reflexivity.
  - apply four_digit_year_check. reflexivity.
  - intros _. vm_compute. discriminate.
Qed.

(** ** The add route and the normalizer *)

Lemma asSafeNumber_cases h v fallback n :
  asSafeNumber h v fallback = Ok n ->
  JS.Number_isFinite n = true \/ n = fallback.
Proof.
  unfold asSafeNumber. destruct (Number h v) as [x|e]; simpl; [|discriminate].
  destruct (JS.Number_isFinite x) eqn:F; intros E; inversion E; subst; auto.
Qed.

(** The amount the route works with is a finite Number or NaN: a missing
    amount, and any amount that is not finite, arrive as NaN. *)
Lemma amount_of_cases h body amount :
  amount_of h body = Ok amount ->
  JS.Number_isFinite amount = true \/ amount = nan.
Proof.
  unfold amount_of. destruct (get_member body "amount") as [a|e]; simpl;
    [apply asSafeNumber_cases|discriminate].
Qed.

Lemma amount_of_missing h : amount_of h (VObj []) = Ok nan.
Proof. reflexivity. Qed.

Lemma add_nan_is_nan x : is_nan (x + nan)%float = true.
Proof.
  rewrite NumFacts.is_nan_spec, add_spec. change (Prim2SF nan) with S754_nan.
  destruct (Prim2SF x); reflexivity.
Qed.

Lemma roundTo_add_nan x : roundTo (x + nan) = 0%float.
Proof.
  unfold roundTo, JS.Number_isFinite, is_finite. rewrite add_nan_is_nan. reflexivity.
Qed.

(** An amount that is not a finite Number reaches the route as NaN, passes
    the check against the maximum, and the task found gets the hopper 0
    and is not secured by this call. *)
Lemma add_nan_resets_hopper h s i body task :
  amount_of h body = Ok nan ->
  find_task (tasks s) i = Some task ->
  exists task',
    snd (addRoute h s i body) = ReplyAdded task' false
    /\ hopper task' = 0%float
    /\ tasks (fst (addRoute h s i body)) = replace_task (tasks s) i task'.
Proof.
  intros A F. unfold addRoute. rewrite A.
  change (1000000 <? nan)%float with false. cbv iota. rewrite F.
  unfold trySecureToday.
  cbn [securedToday hopper set_updatedAt set_hopper]. rewrite roundTo_add_nan.
  change (DAILY_THRESHOLD - EPS <=? 0)%float with false.
  destruct (securedToday task); eexists; repeat split.
Qed.

Lemma integer_not_negative n :
  JS.Number_isInteger n = true -> (n <? 0)%float = false -> (0 <=? n)%float = true.
Proof.
  unfold JS.Number_isInteger. rewrite ltb_spec, RoundFacts.leb0_spec.
  change (Prim2SF 0) with (S754_zero false). unfold SFltb.
  destruct (Prim2SF n) as [s|s| |s m e]; simpl; try congruence.
  destruct s; simpl; congruence.
Qed.

Lemma truthy_not_empty s : Str.truthy s = true -> s <> ""%string.
Proof.
  unfold Str.truthy. intros H E. subst s. discriminate H.
Qed.

Lemma Number_primitive h v : primitive v = true -> exists n, Number h v = Ok n.
Proof. destruct v; simpl; try discriminate; eauto. Qed.

(** ** The guard of the rollover pass *)

Lemma finite_not_negative x :
  JS.Number_isFinite x = true -> (x <? 0)%float = false -> (0 <=? x)%float = true.
Proof.
  unfold JS.Number_isFinite, is_finite. intros F L.
  apply negb_true_iff, orb_false_elim in F. destruct F as [N _].
  rewrite NumFacts.is_nan_spec in N. rewrite ltb_spec in L.
  rewrite RoundFacts.leb0_spec. unfold SFltb in L.
  change (Prim2SF 0) with (S754_zero false) in L.
  destruct (Prim2SF x) as [s|s| |s m e]; simpl in *; try congruence;
    destruct s; simpl in *; congruence.
Qed.

(** The guard of [processAllToToday]: after the pass every hopper of the
    registry is a finite Number that is at least 0. *)
Lemma processOne_hopper_valid h today t :
  JS.Number_isFinite (hopper (fst (processOne h today t))) = true
  /\ (0 <=? hopper (fst (processOne h today t)))%float = true.
Proof.
  unfold processOne.
  destruct (processTaskToToday h t today) as [t' c].
  destruct c; cbn [hopper set_updatedAt];
    match goal with
    | |- context [negb (JS.Number_isFinite ?x) || (?x <? 0)%float] =>
        destruct (JS.Number_isFinite x) eqn:F; [destruct (x <? 0)%float eqn:L|]
    end; cbn [negb orb fst hopper set_updatedAt set_hopper];
    try (split; reflexivity); auto using finite_not_negative.
Qed.

Lemma processEach_hoppers_valid h today ts t :
  In t (fst (processEach h today ts)) ->
  JS.Number_isFinite (hopper t) = true /\ (0 <=? hopper t)%float = true.
Proof.
  induction ts as [|a r IH]; simpl; [tauto|].
  pose proof (processOne_hopper_valid h today a) as V.
  destruct (processOne h today a) as [a' c].
  destruct (processEach h today r) as [r' c']. simpl in *.
  intros [<-|I]; [exact V|apply IH, I].
Qed.

Lemma processAllToToday_hoppers_valid h s t :
  In t (tasks (fst (processAllToToday h s))) ->
  JS.Number_isFinite (hopper t) = true /\ (0 <=? hopper t)%float = true.
Proof.
  unfold processAllToToday.
  pose proof (processEach_hoppers_valid h (localDateKey h) (tasks s) t) as V.
  destruct (processEach h (localDateKey h) (tasks s)) as [ts c]. simpl in V.
  destruct c; exact V.
Qed.

(** * The claims *)

(** C1, as the code has it.  For a task whose stored day is well formed,
    not ahead of today and 3 days behind it, with hopper 3.5 and today
    unsecured, [processTaskToToday] runs exactly the 3 iterations, in
    sequence: after the first the hopper is 2.5 and the new day is secured
    with streak 1 (the unsecured closing day first resets the streak to 0);
    after the second 1.5, secured, streak 2; after the third 0.5, not
    secured, streak 2.  The final streak is 2 for every starting streak,
    which is the starting streak plus 2 only when that was 0. *)
Theorem catch_up_three_days h t today :
  test_dateKey (dayKey t) = true ->
  Str.gt (dayKey t) today = false ->
  dayDiff h (dayKey t) today = 3 ->
  hopper t = 3.5%float ->
  securedToday t = false ->
  let d1 := fst (rollover_loop h 1 (t, false)) in
  let d2 := fst (rollover_loop h 2 (t, false)) in
  let d3 := fst (rollover_loop h 3 (t, false)) in
  processTaskToToday h t today = rollover_loop h 3 (t, false)
  /\ (hopper d1 = 2.5%float /\ securedToday d1 = true /\ streak d1 = 1%float)
  /\ (hopper d2 = 1.5%float /\ securedToday d2 = true /\ streak d2 = 2%float)
  /\ (hopper d3 = 0.5%float /\ securedToday d3 = false /\ streak d3 = 2%float)
  /\ ((streak t =? 0)%float = true -> streak d3 = (streak t + 2)%float).
Proof.
  intros W G D H S d1 d2 d3.
  assert (A1 : hopper d1 = 2.5%float /\ securedToday d1 = true /\ streak d1 = 1%float).
  { subst d1. change (rollover_loop h 1 (t, false)) with (rollover_day h (t, false)).
    rewrite rollover_day_hopper, rollover_day_secured, rollover_day_streak, H, S.
    repeat split. cbv zeta. cbn [negb andb].
    change (DAILY_THRESHOLD - EPS <=? JS.Math_max 0 (3.5 - 1))%float with true.
    cbv iota. apply streak_after_break. }
  assert (A2 : hopper d2 = 1.5%float /\ securedToday d2 = true /\ streak d2 = 2%float).
  { destruct A1 as (H1 & S1 & K1). subst d2. rewrite rollover_loop_S.
    fold d1. destruct (rollover_loop h 1 (t, false)) as [x c]. simpl in d1.
    subst d1. rewrite rollover_day_hopper, rollover_day_secured,
      rollover_day_streak, H1, S1, K1. repeat split. }
  assert (A3 : hopper d3 = 0.5%float /\ securedToday d3 = false /\ streak d3 = 2%float).
  { destruct A2 as (H2 & S2 & K2). subst d3. rewrite rollover_loop_S.
    fold d2. destruct (rollover_loop h 2 (t, false)) as [x c]. simpl in d2.
    subst d2. rewrite rollover_day_hopper, rollover_day_secured,
      rollover_day_streak, H2, S2, K2. repeat split. }
  repeat split; try apply A1; try apply A2; try apply A3.
  - rewrite processTaskToToday_stale, D by assumption. reflexivity.
  - intros Z. destruct A3 as (_ & _ & ->).
    destruct (NumFacts.eqb_zero_inv _ Z) as [-> | ->]; reflexivity.
Qed.

Lemma catch_up_three_days_witness :
  test_dateKey (dayKey (task_behind3 0)) = true
  /\ Str.gt (dayKey (task_behind3 0)) "2026-11-03" = false
  /\ dayDiff host_nov3 (dayKey (task_behind3 0)) "2026-11-03" = 3
  /\ streak (fst (rollover_loop host_nov3 3 (task_behind3 0, false))) = 2%float.
Proof.
  split; [reflexivity|]. split; [reflexivity|]. split; [reflexivity|].
  exact (proj2 (proj2 (proj1 (proj2 (proj2 (proj2
    (catch_up_three_days host_nov3 (task_behind3 0)
       "2026-11-03" eq_refl eq_refl eq_refl eq_refl eq_refl))))))).
Defined.

(** C1 as stated fails: from a starting streak of 5 the final streak is 2,
    not 5 + 2. *)
Lemma catch_up_streak_not_plus_two :
  dayDiff host_nov3 (dayKey (task_behind3 5)) "2026-11-03" = 3
  /\ hopper (fst (processTaskToToday host_nov3 (task_behind3 5) "2026-11-03")) = 0.5%float
  /\ securedToday (fst (processTaskToToday host_nov3 (task_behind3 5) "2026-11-03")) = false
  /\ streak (fst (processTaskToToday host_nov3 (task_behind3 5) "2026-11-03")) = 2%float
  /\ streak (fst (processTaskToToday host_nov3 (task_behind3 5) "2026-11-03"))
     <> (streak (task_behind3 5) + 2)%float.
Proof.
  repeat split. apply float_neq. reflexivity.
Qed.

(** C2.  The decay step of every rollover iteration subtracts the flat
    penalty 1 from the hopper and clamps the result at 0: after one
    iteration the hopper is [Math.max(0, hopper - 1)], after [n] it is that
    step applied [n] times, and a whole call of [processTaskToToday] applies
    it once per elapsed day.  It is not the multiplicative decay of the
    unused [DAILY_DECAY_MULTIPLIER]: from 3.5 one iteration gives 2.5, not
    3.5 * 0.9. *)
Theorem decay_is_flat_unit h t c n today :
  hopper (fst (rollover_day h (t, c))) = JS.Math_max 0 (hopper t - 1)
  /\ hopper (fst (rollover_loop h n (t, c))) = Nat.iter n decay (hopper t)
  /\ hopper (fst (processTaskToToday h t today))
     = Nat.iter (iterations h t today) decay (hopper t)
  /\ hopper (fst (rollover_day h (set_hopper 3.5 t, c))) = 2.5%float
  /\ hopper (fst (rollover_day h (set_hopper 3.5 t, c)))
     <> (3.5 * DAILY_DECAY_MULTIPLIER)%float.
Proof.
  repeat split.
  - apply rollover_day_hopper.
  - apply rollover_loop_hopper.
  - rewrite processTaskToToday_loop.
    destruct (negb (test_dateKey (dayKey t)) || Str.gt (dayKey t) today);
      rewrite rollover_loop_hopper; reflexivity.
  - rewrite rollover_day_hopper. reflexivity.
  - rewrite rollover_day_hopper. apply float_neq. reflexivity.
Qed.

(** C3, as the code has it.  Advancing an unsecured task with a positive
    streak by exactly one day resets the streak to 0, and the auto-secure
    of the new day then raises it to 1 when the decayed hopper still
    reaches the threshold: the streak ends at 0 exactly when
    [Math.max(0, hopper - 1)] is below [1.0 - 1e-9]. *)
Theorem streak_break_one_day h t today :
  test_dateKey (dayKey t) = true ->
  Str.gt (dayKey t) today = false ->
  dayDiff h (dayKey t) today = 1 ->
  securedToday t = false ->
  (0 <? streak t)%float = true ->
  streak (fst (processTaskToToday h t today))
  = if (DAILY_THRESHOLD - EPS <=? JS.Math_max 0 (hopper t - 1))%float
    then 1%float else 0%float.
Proof.
  intros W G D S P.
  rewrite processTaskToToday_stale, D by assumption.
  change (rollover_loop h (Z.to_nat 1) (t, false)) with (rollover_day h (t, false)).
  cbn [Z.leb Z.compare]. rewrite rollover_day_streak, S.
  rewrite (lt_zero_neq_zero _ P). cbv zeta. cbn [negb andb].
  destruct (_ <=? _)%float; reflexivity.
Qed.

Lemma streak_break_one_day_witness :
  (0 <? streak (task_behind1 0.7))%float = true
  /\ streak (fst (processTaskToToday host_nov3 (task_behind1 0.7) "2026-11-03")) = 0%float.
Proof.
  split; [reflexivity|].
  exact (streak_break_one_day host_nov3 (task_behind1 0.7)
           "2026-11-03" eq_refl eq_refl eq_refl eq_refl eq_refl).
Defined.

(** C3 as stated fails: with hopper 3.5 the new day auto-secures and the
    streak is 1 after the one-day advance, not 0. *)
Lemma streak_break_then_auto_secure :
  (0 <? streak (task_behind1 3.5))%float = true
  /\ securedToday (task_behind1 3.5) = false
  /\ dayDiff host_nov3 (dayKey (task_behind1 3.5)) "2026-11-03" = 1
  /\ streak (fst (processTaskToToday host_nov3 (task_behind1 3.5) "2026-11-03")) = 1%float
  /\ streak (fst (processTaskToToday host_nov3 (task_behind1 3.5) "2026-11-03")) <> 0%float.
Proof.
  repeat split. apply float_neq. reflexivity.
Qed.

(** C4 fails on the code.  A stored day in a year from 0100 to 0999 passes
    the format check, but [dateKeyFromUTCDate] prints the year without
    padding: after one iteration the key is "999-06-16", the next iteration
    finds it malformed and takes [localDateKey()], and the remaining
    iterations run past today.  The first call leaves the key at
    3054-03-22; a second call with the same today clamps it back and
    reports a change. *)
Lemma second_call_changes_three_digit_year :
  test_dateKey (dayKey task_year_999) = true
  /\ dayKey (fst (processTaskToToday host_nov3 task_year_999 "2026-11-03"))
     = "3054-03-22"%string
  /\ processTaskToToday host_nov3
       (fst (processTaskToToday host_nov3 task_year_999 "2026-11-03"))
       "2026-11-03"
     = (clamped (fst (processTaskToToday host_nov3 task_year_999 "2026-11-03"))
                "2026-11-03", true)
  /\ clamped (fst (processTaskToToday host_nov3 task_year_999 "2026-11-03"))
             "2026-11-03"
     <> fst (processTaskToToday host_nov3 task_year_999 "2026-11-03").
Proof.
  set (t := task_year_999).
  assert (K : dayKey (fst (processTaskToToday host_nov3 t "2026-11-03"))
              = "3054-03-22"%string).
  { rewrite processTaskToToday_stale by reflexivity.
    assert (D : dayDiff host_nov3 (dayKey t) "2026-11-03" = 375245)
      by (vm_compute; reflexivity).
    rewrite D. change (375245 <=? 0) with false. cbv iota.
    change 375245 with (2 + 375243).
    rewrite Z2Nat.inj_add by lia. change (Z.to_nat 2) with 2%nat.
    rewrite rollover_loop_add.
    change (rollover_loop host_nov3 2 (t, false))
      with (rollover_day host_nov3 (rollover_day host_nov3 (t, false))).
    pose proof (rollover_day_dayKey host_nov3 t false) as D1.
    destruct (rollover_day host_nov3 (t, false)) as [t1 c1]. simpl fst in D1.
    pose proof (rollover_day_dayKey host_nov3 t1 c1) as D2.
    destruct (rollover_day host_nov3 (t1, c1)) as [t2 c2]. simpl fst in D2.
    rewrite D1 in D2.
    assert (D3 : dayKey t2 = key_of_day 20760) by (rewrite D2; vm_compute; reflexivity).
    rewrite (rollover_loop_dayKey host_nov3 _ t2 c2 20760 D3).
    - replace (20760 + Z.of_nat (Z.to_nat 375243)) with 396003 by lia.
      vm_compute. reflexivity.
    - apply four_digit_year_check. reflexivity.
    - replace (20760 + Z.of_nat (Z.to_nat 375243)) with 396003 by lia.
      apply four_digit_year_check. reflexivity. }
  split; [reflexivity|]. split; [exact K|]. split.
  - apply processTaskToToday_ahead. rewrite K. reflexivity.
  - intros E. apply (f_equal dayKey) in E. rewrite K in E.
    unfold clamped in E. cbn [dayKey set_securedToday set_dayKey] in E.
    discriminate E.
Qed.

(** C5.  [trySecureToday] secures exactly when [securedToday] is false and
    [hopper >= 1.0 - 1e-9].  When it secures it returns true, sets
    [securedToday], adds 1 to the streak (the Number addition, on an
    integer streak; on a count from 0 to 2^53 - 2 that is the next
    integer), stamps [lastSecuredAt] with the clock and
    [lastSecuredReason] with the reason, and leaves every other member
    alone; when it does not it returns false and the task as it was, in
    particular on a task already secured.  A hopper of 0.999999999 secures,
    one of 0.99 does not. *)
Theorem trySecureToday_spec h t reason :
  let t' := fst (trySecureToday h t reason) in
  let b := snd (trySecureToday h t reason) in
  (b = true <->
   securedToday t = false /\ (DAILY_THRESHOLD - EPS <=? hopper t)%float = true)
  /\ (b = true ->
      securedToday t' = true
      /\ (JS.Number_isInteger (streak t) = true -> streak t' = (streak t + 1)%float)
      /\ (forall z, 0 <= z -> z + 1 < 2 ^ 53 -> streak t = JS.of_Z z false ->
          streak t' = JS.of_Z (z + 1) false)
      /\ lastSecuredAt t' = Some (Date_now h)
      /\ lastSecuredReason t' = Some reason
      /\ t' = set_lastSecured (Date_now h) reason
                (set_streak (streak t') (set_securedToday true t)))
  /\ (b = false -> t' = t)
  /\ (securedToday t = true -> b = false /\ t' = t /\ streak t' = streak t)
  /\ (securedToday t = false -> hopper t = 0.999999999%float -> b = true)
  /\ (hopper t = 0.99%float -> b = false).
Proof.
  assert (N1 : (DAILY_THRESHOLD - EPS <=? 0.999999999)%float = true) by reflexivity.
  assert (N2 : (DAILY_THRESHOLD - EPS <=? 0.99)%float = false) by reflexivity.
  unfold trySecureToday.
  destruct (securedToday t) eqn:S;
    [|destruct (DAILY_THRESHOLD - EPS <=? hopper t)%float eqn:L];
    cbv zeta; cbn [fst snd securedToday streak lastSecuredAt lastSecuredReason
                   set_lastSecured set_streak set_securedToday].
  - split; [split; [discriminate|intros [H _]; discriminate]|].
    split; [discriminate|]. repeat split; discriminate.
  - split; [split; auto|]. split; [intros _|].
    + split; [reflexivity|]. split; [intros I; rewrite I; reflexivity|].
      split; [|repeat split].
      intros z Lz Uz E. rewrite E, ExactFacts.of_Z_isInteger by lia.
      apply ExactFacts.of_Z_succ; assumption.
    + split; [discriminate|]. split; [discriminate|].
      split; [reflexivity|]. intros E. rewrite E in L. congruence.
  - split; [split; [discriminate|intros [_ H]; discriminate]|].
    split; [discriminate|]. split; [reflexivity|]. split; [discriminate|].
    split; [|reflexivity]. intros _ E. rewrite E in L. congruence.
Qed.

(** C6.  A hopper that is at least 0 stays at least 0 (and so is never NaN
    nor negative) through any number of rollover iterations, and through a
    whole call of [processTaskToToday]. *)
Theorem hopper_never_negative h t c n today :
  (0 <=? hopper t)%float = true ->
  (0 <=? hopper (fst (rollover_loop h n (t, c))))%float = true
  /\ (0 <=? hopper (fst (processTaskToToday h t today)))%float = true.
Proof.
  intros H. split; [apply rollover_loop_nonneg; exact H|].
  rewrite processTaskToToday_loop.
  destruct (negb (test_dateKey (dayKey t)) || Str.gt (dayKey t) today);
    apply rollover_loop_nonneg; exact H.
Qed.

Lemma hopper_never_negative_witness :
  (0 <=? hopper task_behind14)%float = true
  /\ (0 <=? hopper (fst (rollover_loop host_nov3 7 (task_behind14, false))))%float
     = true
  /\ (0 <=? hopper (fst (processTaskToToday host_nov3 task_behind14 "2026-11-03")))%float
     = true.
Proof.
  split; [reflexivity|].
  apply (hopper_never_negative host_nov3 task_behind14 false 7 "2026-11-03").
  reflexivity.
Defined.

(** C7, as the code has it.  [normalizeTask] throws exactly when the
    coercion [Number(t.hopper)] throws, which no missing or primitive
    [hopper] does; [null] and the empty object give the default task, and
    so does a record of wrong-typed members, but for the hopper 1 that
    [Number(true)] gives.  The
    task it returns has a non-empty name, a hopper that is not NaN, an
    integer streak, a thumbnail under /uploads/ or none, a finite
    [lastSecuredAt] or none, and, on a host whose clock prints a
    well-formed day and a finite time, a well-formed [dayKey] and finite
    timestamps.  Signs are not checked: the hopper is at least 0 when the
    coerced input hopper is, and the streak when the input streak is not a
    negative Number. *)
Theorem normalizeTask_shape h raw :
  let t := match raw with VObj _ | VArr _ => raw | _ => VObj [] end in
  (forall e, normalizeTask h raw = Throw e <-> Number h (get t "hopper") = Throw e)
  /\ (primitive (get t "hopper") = true -> exists task, normalizeTask h raw = Ok task)
  /\ normalizeTask h VNull = Ok (default_task h)
  /\ normalizeTask h (VObj []) = Ok (default_task h)
  /\ normalizeTask h wrong_typed_record = Ok (set_hopper 1 (default_task h))
  /\ (forall task, normalizeTask h raw = Ok task ->
        name task <> ""%string
        /\ (randomUUID h <> ""%string -> id task <> ""%string)
        /\ is_nan (hopper task) = false
        /\ (forall hop, asSafeNumber h (get t "hopper") 0 = Ok hop ->
              (0 <=? hop)%float = true -> (0 <=? hopper task)%float = true)
        /\ JS.Number_isInteger (streak task) = true
        /\ ((forall n, get t "streak" = VNum n -> (n <? 0)%float = false) ->
            (0 <=? streak task)%float = true)
        /\ (test_dateKey (localDateKey h) = true -> test_dateKey (dayKey task) = true)
        /\ (forall u, thumbnailUrl task = Some u -> Str.startsWith u "/uploads/" = true)
        /\ (forall a, lastSecuredAt task = Some a -> JS.Number_isFinite a = true)
        /\ (JS.Number_isFinite (Date_now h) = true ->
            JS.Number_isFinite (createdAt task) = true
            /\ JS.Number_isFinite (updatedAt task) = true)).
Proof.
  intros t. split; [|split; [|split; [|split; [|split]]]].
  - intros e. unfold normalizeTask, asSafeNumber. fold t.
    destruct (Number h (get t "hopper")) as [n|e']; simpl; split; congruence.
  - intros P. destruct (Number_primitive h _ P) as [n N].
    unfold normalizeTask, asSafeNumber. fold t. rewrite N. simpl. eauto.
  - reflexivity.
  - reflexivity.
  - reflexivity.
  - intros task. unfold normalizeTask. fold t.
    destruct (asSafeNumber h (get t "hopper") 0) as [hop|e] eqn:A; simpl;
      [|discriminate].
    intros E. inversion E as [E']. clear E E'. simpl.
    repeat split.
    + destruct (get t "name") as [| | | |s| |]; try discriminate.
      destruct (Str.truthy (Str.trim s)) eqn:T; [|discriminate].
      apply truthy_not_empty, T.
    + intros U. destruct (get t "id") as [| | | |s| |]; try exact U.
      destruct (Str.truthy s) eqn:T; [apply truthy_not_empty, T|exact U].
    + apply RoundFacts.roundTo_not_nan.
    + intros hop' Eh L. inversion Eh; subst. apply RoundFacts.roundTo_nonneg, L.
    + destruct (get t "streak") as [| | |n| | |]; try reflexivity.
      destruct (JS.Number_isInteger n) eqn:I; [exact I|reflexivity].
    + intros S. destruct (get t "streak") as [| | |n| | |]; try reflexivity.
      destruct (JS.Number_isInteger n) eqn:I; [|reflexivity].
      apply integer_not_negative; [exact I|apply S; reflexivity].
    + intros W. destruct (get t "dayKey") as [| | | |s| |]; try exact W.
      destruct (test_dateKey s) eqn:T; [exact T|exact W].
    + intros u. destruct (get t "thumbnailUrl") as [| | | |s| |]; try discriminate.
      destruct (Str.startsWith s "/uploads/") eqn:T; [|discriminate].
      intros E; inversion E; subst; exact T.
    + intros a. destruct (get t "lastSecuredAt") as [| | |n| | |]; try discriminate.
      destruct (JS.Number_isFinite n) eqn:T; [|discriminate].
      intros E; inversion E; subst; exact T.
    + destruct (get t "createdAt") as [| | |n| | |]; try assumption.
      destruct (JS.Number_isFinite n) eqn:T; assumption.
    + destruct (get t "updatedAt") as [| | |n| | |]; try assumption.
      destruct (JS.Number_isFinite n) eqn:T; assumption.
Qed.

(** C7 as stated fails: a negative hopper and a negative streak pass the
    normalizer unchanged, and a [hopper] that is an object with a member
    named toString makes it throw. *)
Lemma normalizeTask_keeps_negative_numbers :
  normalizeTask host_nov3
    (VObj [("hopper"%string, VNum (-5)); ("streak"%string, VNum (-3))])
  = Ok {| id := randomUUID host_nov3; name := "Untitled task";
          thumbnailUrl := None; hopper := (-5)%float; streak := (-3)%float;
          dayKey := "2026-11-03"; securedToday := false;
          createdAt := Date_now host_nov3; updatedAt := Date_now host_nov3;
          lastSecuredAt := None; lastSecuredReason := None |}
  /\ (-5 <? 0)%float = true
  /\ (-3 <? 0)%float = true
  /\ normalizeTask host_nov3
       (VObj [("hopper"%string, VObj [("toString"%string, VNull)])])
     = Throw "TypeError".
Proof. repeat split. Qed.

(** C8.  When the stored day is ahead of today, in the order of strings
    that the code compares (among the keys of days with a four-digit year
    that is the order of days), [processTaskToToday] sets [dayKey] to
    today, clears [securedToday], reports a change and runs no iteration of
    the loop: every other member is as it was, and the key no longer
    exceeds today. *)
Theorem clock_moved_backward h t today :
  Str.gt (dayKey t) today = true ->
  processTaskToToday h t today = (clamped t today, true)
  /\ iterations h t today = O
  /\ dayKey (fst (processTaskToToday h t today)) = today
  /\ securedToday (fst (processTaskToToday h t today)) = false
  /\ Str.gt (dayKey (fst (processTaskToToday h t today))) today = false
  /\ hopper (fst (processTaskToToday h t today)) = hopper t
  /\ streak (fst (processTaskToToday h t today)) = streak t.
Proof.
  intros G.
  assert (E : negb (test_dateKey (dayKey t)) || Str.gt (dayKey t) today = true)
    by (rewrite G; apply orb_true_r).
  rewrite (processTaskToToday_ahead h t today E). unfold iterations. rewrite E.
  simpl. rewrite gt_irrefl. repeat split.
Qed.

Lemma clock_moved_backward_witness :
  Str.gt (dayKey task_ahead) "2026-11-03" = true
  /\ processTaskToToday host_nov3 task_ahead "2026-11-03"
     = (task_ex 0.4 3 "2026-11-03" false, true).
Proof.
  split; [reflexivity|].
  exact (proj1 (clock_moved_backward host_nov3 task_ahead "2026-11-03" eq_refl)).
Defined.

(** C9.  The add route rejects an amount above the maximum with status 400
    and an unknown task id with status 404, and in both cases the registry
    it was given is returned as it was: whenever the reply is an error the
    state is unchanged.  Inside [handleApi] the registry the route is
    given is the one the rollover pass produced, and an error adds no
    change to it. *)
Theorem add_errors_leave_registry h s i body :
  (forall amount, amount_of h body = Ok amount ->
     (1000000 <? amount)%float = true ->
     addRoute h s i body = (s, ReplyError 400 "amount too large"))
  /\ (forall amount, amount_of h body = Ok amount ->
        (1000000 <? amount)%float = false ->
        find_task (tasks s) i = None ->
        addRoute h s i body = (s, ReplyError 404 "Task not found"))
  /\ (forall status msg, snd (addRoute h s i body) = ReplyError status msg ->
        fst (addRoute h s i body) = s)
  /\ (forall status msg, snd (handleApi_add h s i body) = ReplyError status msg ->
        fst (handleApi_add h s i body) = fst (processAllToToday h s)).
Proof.
  assert (G : forall s0 status msg,
             snd (addRoute h s0 i body) = ReplyError status msg ->
             fst (addRoute h s0 i body) = s0).
  { intros s0 status msg. unfold addRoute.
    destruct (amount_of h body) as [amount|e]; [|reflexivity].
    destruct (1000000 <? amount)%float; [reflexivity|].
    destruct (find_task (tasks s0) i) as [task|]; [|reflexivity].
    destruct (trySecureToday _ _ _) as [task' b]. simpl. discriminate. }
  repeat split.
  - intros amount A L. unfold addRoute. rewrite A, L. reflexivity.
  - intros amount A L F. unfold addRoute. rewrite A, L, F. reflexivity.
  - apply G.
  - intros status msg. unfold handleApi_add. apply G.
Qed.

(** C10 fails on the code.  An amount of -1e303 is finite and below the
    maximum, so the route accepts it; [roundTo] multiplies by 10^6, which
    overflows, and the hopper of the task is -Infinity after the call. *)
Lemma add_overflows_to_infinity :
  amount_of host_nov3 (VObj [("amount"%string, VNum (-1e303))]) = Ok (-1e303)%float
  /\ JS.Number_isFinite (-1e303) = true
  /\ (1000000 <? -1e303)%float = false
  /\ addRoute host_nov3 (state_ex [task_ex 0.4 3 "2026-11-03" false]) "t1"
       (VObj [("amount"%string, VNum (-1e303))])
     = (set_st_updatedAt (Date_now host_nov3)
          (state_ex [set_updatedAt (Date_now host_nov3)
                       (task_ex neg_infinity 3 "2026-11-03" false)]),
        ReplyAdded (set_updatedAt (Date_now host_nov3)
                      (task_ex neg_infinity 3 "2026-11-03" false)) false)
  /\ JS.Number_isFinite neg_infinity = false.
Proof. repeat split. Qed.

(** * Further properties of the code *)

(** ** Day keys *)

Lemma dateKeyFromUTCDate_key t : dateKeyFromUTCDate t = key_of_day (t / Day.msPerDay).
Proof.
  unfold key_of_day, dateKeyFromUTCDate, Day.getUTCFullYear, Day.getUTCMonth,
    Day.getUTCDate.
  rewrite div_msPerDay. reflexivity.
Qed.

(** [days] days after a well-formed key, whatever its year. *)
Lemma addDaysKey_key h k days :
  test_dateKey k = true -> addDaysKey h k days = key_of_day (dayNumberUTC h k + days).
Proof.
  unfold test_dateKey, addDaysKey, dayNumberUTC, key_of_day.
  destruct (exec_dateKey k) as [[[y mo] da]|]; [intros _|discriminate].
  unfold Day.Date_UTC, Day.setUTCDate, Day.getUTCDate.
  rewrite !div_msPerDay, DayFacts.MakeDay_parts, Z.mod_mul by discriminate.
  rewrite Z.add_0_r. reflexivity.
Qed.

Lemma short_year_ok y : 0 <= y <= 999 -> short_year y = true.
Proof.
  intros R. apply (KeyFacts.forallb_range short_year 0 1000); [vm_compute; reflexivity|lia].
Qed.

Lemma is_digit_dash : Str.is_digit "-" = false.
Proof. reflexivity. Qed.

(** A key whose year is printed with fewer than four characters fails the
    format check: a dash stands where a digit of the year is expected. *)
Lemma exec_dateKey_short_year y rest :
  (String.length y <=? 3)%nat = true -> exec_dateKey (y ++ "-" ++ rest) = None.
Proof.
  intros L. unfold exec_dateKey.
  destruct y as [|a [|b [|c [|d y]]]]; [| | | |discriminate L];
    cbn [append list_ascii_of_string];
    repeat (destruct rest as [|? rest]; cbn [list_ascii_of_string]; try reflexivity);
    cbn [forallb]; rewrite is_digit_dash, ?andb_false_r; reflexivity.
Qed.

(** X1.  [localDateKey] on a date whose year has four digits, with the
    month from 0 to 11 and the date from 1 to 31 that [Date] gives: the key
    passes the format check of every reader and reads back as that year,
    month + 1 and date. *)
Theorem localDateKey_reads_back h :
  1000 <= local_year h <= 9999 ->
  0 <= local_month h <= 11 ->
  1 <= local_date h <= 31 ->
  exec_dateKey (localDateKey h)
  = Some (local_year h, local_month h + 1, local_date h)
  /\ test_dateKey (localDateKey h) = true.
Proof.
  intros Y M D.
  assert (E : exec_dateKey (localDateKey h)
              = Some (local_year h, local_month h + 1, local_date h))
    by (unfold localDateKey; apply KeyFacts.exec_dateKey_print; lia).
  split; [exact E|]. unfold test_dateKey. rewrite E. reflexivity.
Qed.

Lemma localDateKey_reads_back_witness :
  exec_dateKey (localDateKey host_nov3) = Some (2026, 11, 3)
  /\ test_dateKey (localDateKey host_nov3) = true.
Proof.
  apply (localDateKey_reads_back host_nov3); simpl; lia.
Defined.

(** X2.  Printing a time value with [dateKeyFromUTCDate] and reading the
    key back with [dayNumberUTC] gives the day of the time value, when its
    year has four digits; moving that key by 0 days prints it again. *)
Theorem dateKey_round_trip h t :
  four_digit_year (t / Day.msPerDay) ->
  dayNumberUTC h (dateKeyFromUTCDate t) = t / Day.msPerDay
  /\ addDaysKey h (dateKeyFromUTCDate t) 0 = dateKeyFromUTCDate t.
Proof.
  intros R. rewrite dateKeyFromUTCDate_key.
  split; [apply dayNumberUTC_key, R|].
  rewrite addDaysKey_key by (apply test_dateKey_key, R).
  rewrite dayNumberUTC_key by exact R. f_equal. lia.
Qed.

Lemma dateKey_round_trip_witness :
  dayNumberUTC host_nov3 (dateKeyFromUTCDate 1793707200000) = 20760
  /\ addDaysKey host_nov3 (dateKeyFromUTCDate 1793707200000) 0
     = dateKeyFromUTCDate 1793707200000.
Proof.
  apply (dateKey_round_trip host_nov3 1793707200000).
  apply four_digit_year_check. reflexivity.
Defined.

(** X3.  [addDaysKey] moves a well-formed key by exactly [days] days, in
    either direction: the new key is well formed, its day number is the old
    one plus [days], and [dayDiff] from the old key to the new one is
    [days], provided the day reached lies in a year of four digits. *)
Theorem addDaysKey_moves_days h k days :
  test_dateKey k = true ->
  four_digit_year (dayNumberUTC h k + days) ->
  test_dateKey (addDaysKey h k days) = true
  /\ dayNumberUTC h (addDaysKey h k days) = dayNumberUTC h k + days
  /\ dayDiff h k (addDaysKey h k days) = days.
Proof.
  intros W R. rewrite addDaysKey_key by exact W.
  split; [apply test_dateKey_key, R|].
  unfold dayDiff. rewrite dayNumberUTC_key by exact R. split; lia.
Qed.

Lemma addDaysKey_moves_days_witness :
  test_dateKey (addDaysKey host_nov3 "2024-02-28" 2) = true
  /\ dayNumberUTC host_nov3 (addDaysKey host_nov3 "2024-02-28" 2)
     = dayNumberUTC host_nov3 "2024-02-28" + 2
  /\ dayDiff host_nov3 "2024-02-28" (addDaysKey host_nov3 "2024-02-28" 2) = 2.
Proof.
  apply (addDaysKey_moves_days host_nov3 "2024-02-28" 2).
  - reflexivity.
  - apply four_digit_year_check. reflexivity.
Defined.

(** X4.  The comparison [task.dayKey > todayKey] of [processTaskToToday] is
    a comparison of strings; on keys printed by [dateKeyFromUTCDate] for
    days in years of four digits it is the order of the days. *)
Theorem dateKey_order t1 t2 :
  four_digit_year (t1 / Day.msPerDay) ->
  four_digit_year (t2 / Day.msPerDay) ->
  Str.gt (dateKeyFromUTCDate t1) (dateKeyFromUTCDate t2)
  = (t2 / Day.msPerDay <? t1 / Day.msPerDay).
Proof.
  intros R1 R2. rewrite !dateKeyFromUTCDate_key. apply gt_key_of_day; assumption.
Qed.

Lemma dateKey_order_witness :
  Str.gt (dateKeyFromUTCDate 1793707200000) (dateKeyFromUTCDate 1577836800000)
  = (1577836800000 / Day.msPerDay <? 1793707200000 / Day.msPerDay).
Proof.
  apply (dateKey_order 1793707200000 1577836800000);
    apply four_digit_year_check; reflexivity.
Defined.

(** X5.  [dateKeyFromUTCDate] does not pad the year.  When [addDaysKey]
    reaches a day in a year from 0 to 999, the key it returns fails the
    format check, so the next reader treats it as a malformed key. *)
Theorem addDaysKey_short_year h k days :
  test_dateKey k = true ->
  0 <= Day.YearFromDay (dayNumberUTC h k + days) <= 999 ->
  test_dateKey (addDaysKey h k days) = false.
Proof.
  intros W Y. rewrite addDaysKey_key by exact W.
  unfold test_dateKey, key_of_day, dateKeyFromUTCDate, Day.getUTCFullYear.
  rewrite div_msPerDay, exec_dateKey_short_year; [reflexivity|].
  apply short_year_ok, Y.
Qed.

Lemma addDaysKey_short_year_witness :
  test_dateKey (addDaysKey host_nov3 "0999-06-15" 1) = false.
Proof.
  apply (addDaysKey_short_year host_nov3 "0999-06-15" 1).
  - reflexivity.
  - vm_compute. split; discriminate.
Defined.

(** ** Rounding *)

(** X6.  [roundTo] never returns NaN, whatever Number it is given; it
    returns 0 for NaN and for the infinities; and of a Number that is at
    least 0 it returns a Number that is at least 0. *)
Theorem roundTo_range n :
  is_nan (roundTo n) = false
  /\ ((0 <=? n)%float = true -> (0 <=? roundTo n)%float = true)
  /\ roundTo nan = 0%float
  /\ roundTo infinity = 0%float
  /\ roundTo neg_infinity = 0%float.
Proof.
  split; [apply RoundFacts.roundTo_not_nan|].
  split; [apply RoundFacts.roundTo_nonneg|]. repeat split.
Qed.
(** ** Securing and the rollover of one task *)

Lemma trySecureToday_frame h t r :
  let t' := fst (trySecureToday h t r) in
  id t' = id t /\ name t' = name t /\ thumbnailUrl t' = thumbnailUrl t
  /\ createdAt t' = createdAt t /\ updatedAt t' = updatedAt t.
Proof.
  unfold trySecureToday. destruct (securedToday t); [repeat split|].
  destruct (_ <=? _)%float; repeat split.
Qed.

Lemma rollover_day_frame h t c :
  let t' := fst (rollover_day h (t, c)) in
  id t' = id t /\ name t' = name t /\ thumbnailUrl t' = thumbnailUrl t
  /\ createdAt t' = createdAt t /\ updatedAt t' = updatedAt t.
Proof.
  unfold rollover_day.
  destruct (negb (securedToday t) && negb (streak t =? 0)%float);
    match goal with
    | |- context [trySecureToday h ?x ?r] =>
        pose proof (trySecureToday_frame h x r) as E;
        destruct (trySecureToday h x r) as [t' b]
    end; simpl in *; exact E.
Qed.

Lemma rollover_loop_frame h n t c :
  let t' := fst (rollover_loop h n (t, c)) in
  id t' = id t /\ name t' = name t /\ thumbnailUrl t' = thumbnailUrl t
  /\ createdAt t' = createdAt t /\ updatedAt t' = updatedAt t.
Proof.
  induction n; [repeat split|].
  rewrite rollover_loop_S. cbv zeta in IHn |- *.
  destruct (rollover_loop h n (t, c)) as [t1 c1]. simpl fst in IHn.
  pose proof (rollover_day_frame h t1 c1) as F. cbv zeta in F.
  destruct IHn as (A1 & A2 & A3 & A4 & A5). destruct F as (B1 & B2 & B3 & B4 & B5).
  repeat split; congruence.
Qed.

Lemma processTaskToToday_identity h t today :
  let t' := fst (processTaskToToday h t today) in
  id t' = id t /\ name t' = name t /\ thumbnailUrl t' = thumbnailUrl t
  /\ createdAt t' = createdAt t /\ updatedAt t' = updatedAt t.
Proof.
  rewrite processTaskToToday_loop.
  destruct (negb (test_dateKey (dayKey t)) || Str.gt (dayKey t) today).
  - apply (rollover_loop_frame h _ (clamped t today) true).
  - apply rollover_loop_frame.
Qed.

(** X7.  The rollover of a task never touches its identity: after
    [processTaskToToday], whatever the stored day and the number of days
    rolled, [id], [name], [thumbnailUrl], [createdAt] and [updatedAt] are as
    before ([updatedAt] is the caller's to set), and so they are after each
    iteration of its loop. *)
Theorem processTaskToToday_frame h t today n c :
  let t' := fst (processTaskToToday h t today) in
  let d := fst (rollover_loop h n (t, c)) in
  (id t' = id t /\ name t' = name t /\ thumbnailUrl t' = thumbnailUrl t
   /\ createdAt t' = createdAt t /\ updatedAt t' = updatedAt t)
  /\ (id d = id t /\ name d = name t /\ thumbnailUrl d = thumbnailUrl t
      /\ createdAt d = createdAt t /\ updatedAt d = updatedAt t).
Proof.
  split; [apply processTaskToToday_identity|apply rollover_loop_frame].
Qed.

Lemma rollover_loop_changed h n st : snd (rollover_loop h (S n) st) = true.
Proof. rewrite rollover_loop_S. apply rollover_day_changed. Qed.

(** The flag [processTaskToToday] returns: a change, unless the task was
    caught up. *)
Lemma processTaskToToday_snd h t today :
  snd (processTaskToToday h t today) = negb (caught_up h t today).
Proof.
  unfold caught_up.
  destruct (test_dateKey (dayKey t)) eqn:W;
    [destruct (Str.gt (dayKey t) today) eqn:G|].
  - rewrite processTaskToToday_ahead by (rewrite G; apply orb_true_r). reflexivity.
  - rewrite processTaskToToday_stale by assumption. cbn [negb andb].
    destruct (Z.leb_spec (dayDiff h (dayKey t) today) 0) as [L|L]; [reflexivity|].
    replace (Z.to_nat (dayDiff h (dayKey t) today))
      with (S (Z.to_nat (dayDiff h (dayKey t) today - 1))) by lia.
    apply rollover_loop_changed.
  - rewrite processTaskToToday_ahead by (rewrite W; reflexivity). reflexivity.
Qed.

Lemma caught_up_spec h t today :
  caught_up h t today = true ->
  test_dateKey (dayKey t) = true /\ Str.gt (dayKey t) today = false
  /\ dayDiff h (dayKey t) today <= 0.
Proof.
  unfold caught_up. intros H. apply andb_prop in H. destruct H as [H D].
  apply andb_prop in H. destruct H as [W G].
  apply negb_true_iff in G. apply Z.leb_le in D. auto.
Qed.

Lemma processTaskToToday_settled h t today :
  caught_up h t today = true -> processTaskToToday h t today = (t, false).
Proof.
  intros C. apply caught_up_spec in C. destruct C as (W & G & D).
  apply processTaskToToday_caught_up; assumption.
Qed.

(** X8.  [processTaskToToday] reports a change exactly when the task was
    not caught up (stored day malformed, ahead of today, or behind it), and
    when it reports none it has changed nothing. *)
Theorem processTaskToToday_reports_change h t today :
  processTaskToToday h t today
  = if caught_up h t today then (t, false)
    else (fst (processTaskToToday h t today), true).
Proof.
  destruct (caught_up h t today) eqn:C.
  - apply processTaskToToday_settled, C.
  - pose proof (processTaskToToday_snd h t today) as S. rewrite C in S.
    destruct (processTaskToToday h t today) as [t' c]. simpl in S |- *.
    rewrite S. reflexivity.
Qed.

Lemma rollover_day_stamp h t c :
  securedToday (fst (rollover_day h (t, c))) = true ->
  lastSecuredAt (fst (rollover_day h (t, c))) = Some (Date_now h)
  /\ lastSecuredReason (fst (rollover_day h (t, c))) = Some "rollover"%string.
Proof.
  unfold rollover_day, trySecureToday.
  destruct (negb (securedToday t) && negb (streak t =? 0)%float); simpl;
    destruct (_ <=? _)%float; simpl; intros E; try discriminate E; split; reflexivity.
Qed.

(** X9.  After a call of [processTaskToToday] that rolled at least one
    day, the task is marked secured exactly when its hopper reaches the
    threshold [1.0 - 1e-9], and a task so marked carries the stamp of the
    rollover: the mark left by the day before never survives. *)
Theorem rollover_secured_iff_threshold h t today :
  (0 < iterations h t today)%nat ->
  let t' := fst (processTaskToToday h t today) in
  securedToday t' = (DAILY_THRESHOLD - EPS <=? hopper t')%float
  /\ (securedToday t' = true ->
      lastSecuredAt t' = Some (Date_now h)
      /\ lastSecuredReason t' = Some "rollover"%string).
Proof.
  intros N. cbv zeta. rewrite processTaskToToday_loop.
  destruct (iterations h t today) as [|n]; [lia|].
  rewrite rollover_loop_S.
  destruct (rollover_loop h n _) as [t1 c1].
  rewrite rollover_day_secured, rollover_day_hopper.
  split; [reflexivity|].
  rewrite <- (rollover_day_secured h t1 c1). apply rollover_day_stamp.
Qed.

Lemma rollover_secured_iff_threshold_witness :
  securedToday (fst (processTaskToToday host_nov3 task_secured_behind1 "2026-11-03"))
  = (DAILY_THRESHOLD - EPS
     <=? hopper (fst (processTaskToToday host_nov3 task_secured_behind1 "2026-11-03")))%float
  /\ (securedToday (fst (processTaskToToday host_nov3 task_secured_behind1 "2026-11-03"))
      = true ->
      lastSecuredAt (fst (processTaskToToday host_nov3 task_secured_behind1 "2026-11-03"))
      = Some (Date_now host_nov3)
      /\ lastSecuredReason
           (fst (processTaskToToday host_nov3 task_secured_behind1 "2026-11-03"))
         = Some "rollover"%string).
Proof.
  apply (rollover_secured_iff_threshold host_nov3 task_secured_behind1 "2026-11-03").
  vm_compute. reflexivity.
Defined.

(** The task [processTaskToToday] leaves is caught up, under the conditions
    of [processTaskToToday_twice]. *)
Lemma processTaskToToday_then_caught_up h t today n :
  today = key_of_day n -> four_digit_year n ->
  (test_dateKey (dayKey t) = true ->
   Day.DayFromYear 1000 <= dayNumberUTC h (dayKey t) + 1) ->
  caught_up h (fst (processTaskToToday h t today)) today = true.
Proof.
  intros T R L.
  pose proof (processTaskToToday_twice h t today n T R L) as E.
  pose proof (processTaskToToday_snd h (fst (processTaskToToday h t today)) today) as S.
  rewrite E in S. simpl in S. symmetry in S. apply negb_false_iff in S. exact S.
Qed.

(** X10.  Catching up reaches today.  When today is the key of a real day
    in a year of four digits, and the day after the stored one is not
    before the year 1000, the task [processTaskToToday] leaves is caught
    up, and a second call with the same today changes nothing and reports
    no change. *)
Theorem processTaskToToday_catches_up h t today n :
  today = key_of_day n ->
  four_digit_year n ->
  (test_dateKey (dayKey t) = true ->
   Day.DayFromYear 1000 <= dayNumberUTC h (dayKey t) + 1) ->
  caught_up h (fst (processTaskToToday h t today)) today = true
  /\ processTaskToToday h (fst (processTaskToToday h t today)) today
     = (fst (processTaskToToday h t today), false).
Proof.
  intros T R L. split.
  - apply (processTaskToToday_then_caught_up h t today n); assumption.
  - apply (processTaskToToday_twice h t today n); assumption.
Qed.

Lemma processTaskToToday_catches_up_witness :
  caught_up host_nov3
    (fst (processTaskToToday host_nov3 task_behind14 "2026-11-03")) "2026-11-03"
  = true
  /\ processTaskToToday host_nov3
       (fst (processTaskToToday host_nov3 task_behind14 "2026-11-03")) "2026-11-03"
     = (fst (processTaskToToday host_nov3 task_behind14 "2026-11-03"), false).
Proof.
  apply (processTaskToToday_catches_up host_nov3 task_behind14 "2026-11-03" 20760).
  - reflexivity.
  - apply four_digit_year_check. reflexivity.
  - intros _. vm_compute. discriminate.
Defined.

(** X11.  A day that closes secured keeps its streak.  Advancing a secured
    task with an integer streak by exactly one day leaves the streak as it
    was, and adds 1 to it when the decayed hopper still reaches the
    threshold, because the new day is then secured at once. *)
Theorem secured_day_keeps_streak h t today :
  test_dateKey (dayKey t) = true ->
  Str.gt (dayKey t) today = false ->
  dayDiff h (dayKey t) today = 1 ->
  securedToday t = true ->
  JS.Number_isInteger (streak t) = true ->
  streak (fst (processTaskToToday h t today))
  = if (DAILY_THRESHOLD - EPS <=? JS.Math_max 0 (hopper t - 1))%float
    then (streak t + 1)%float else streak t.
Proof.
  intros W G D S I.
  rewrite processTaskToToday_stale, D by assumption.
  change (rollover_loop h (Z.to_nat 1) (t, false)) with (rollover_day h (t, false)).
  cbn [Z.leb Z.compare]. rewrite rollover_day_streak, S. cbv zeta. cbn [negb andb].
  rewrite I. reflexivity.
Qed.

Lemma secured_day_keeps_streak_witness :
  streak (fst (processTaskToToday host_nov3 task_secured_behind1 "2026-11-03"))
  = if (DAILY_THRESHOLD - EPS <=? JS.Math_max 0 (hopper task_secured_behind1 - 1))%float
    then (streak task_secured_behind1 + 1)%float else streak task_secured_behind1.
Proof.
  apply (secured_day_keeps_streak host_nov3 task_secured_behind1 "2026-11-03");
    reflexivity.
Defined.

Lemma of_Z_zero : JS.of_Z 0 false = 0%float.
Proof. reflexivity. Qed.

Lemma rollover_day_count h t c z :
  streak t = JS.of_Z z false -> 0 <= z -> z + 1 < 2 ^ 53 ->
  exists z', streak (fst (rollover_day h (t, c))) = JS.of_Z z' false
             /\ 0 <= z' <= z + 1.
Proof.
  intros E L U. rewrite rollover_day_streak. cbv zeta.
  assert (S0 : exists z0,
             (if negb (securedToday t) && negb (streak t =? 0)%float
              then 0%float else streak t) = JS.of_Z z0 false /\ 0 <= z0 <= z).
  { destruct (negb (securedToday t) && negb (streak t =? 0)%float).
    - exists 0. split; [reflexivity|lia].
    - exists z. split; [exact E|lia]. }
  destruct S0 as (z0 & -> & R0).
  destruct (_ <=? _)%float.
  - rewrite ExactFacts.of_Z_isInteger by lia.
    rewrite ExactFacts.of_Z_succ by lia. exists (z0 + 1). split; [reflexivity|lia].
  - exists z0. split; [reflexivity|lia].
Qed.

Lemma rollover_loop_count h n t c z :
  streak t = JS.of_Z z false -> 0 <= z -> z + Z.of_nat n < 2 ^ 53 ->
  exists z', streak (fst (rollover_loop h n (t, c))) = JS.of_Z z' false
             /\ 0 <= z' <= z + Z.of_nat n.
Proof.
  intros E L. induction n; intros U.
  - exists z. split; [exact E|lia].
  - destruct IHn as (z1 & E1 & R1); [lia|].
    rewrite rollover_loop_S. destruct (rollover_loop h n (t, c)) as [t1 c1].
    simpl fst in E1.
    destruct (rollover_day_count h t1 c1 z1 E1) as (z2 & E2 & R2); [lia|lia|].
    exists z2. split; [exact E2|lia].
Qed.

(** X12.  The streak stays a count.  From a streak that is the integer
    [z >= 0], [processTaskToToday] leaves a streak that is again an integer
    from 0 to [z] plus the number of days rolled: it never becomes
    negative or fractional, and it grows by at most one per day. *)
Theorem streak_stays_a_count h t today z :
  streak t = JS.of_Z z false ->
  0 <= z ->
  z + Z.of_nat (iterations h t today) < 2 ^ 53 ->
  exists z', streak (fst (processTaskToToday h t today)) = JS.of_Z z' false
             /\ 0 <= z' <= z + Z.of_nat (iterations h t today).
Proof.
  intros E L U. rewrite processTaskToToday_loop.
  destruct (negb (test_dateKey (dayKey t)) || Str.gt (dayKey t) today).
  - apply (rollover_loop_count h _ (clamped t today) true z); assumption.
  - apply rollover_loop_count; assumption.
Qed.

Lemma streak_stays_a_count_witness :
  exists z',
    streak (fst (processTaskToToday host_nov3 (task_behind3 5) "2026-11-03"))
    = JS.of_Z z' false
    /\ 0 <= z' <= 5 + Z.of_nat (iterations host_nov3 (task_behind3 5) "2026-11-03").
Proof.
  apply (streak_stays_a_count host_nov3 (task_behind3 5) "2026-11-03" 5).
  - reflexivity.
  - lia.
  - vm_compute. reflexivity.
Defined.
(** ** The rollover pass over the registry *)

Lemma nonneg_not_negative x : (0 <=? x)%float = true -> (x <? 0)%float = false.
Proof.
  rewrite RoundFacts.leb0_spec, ltb_spec. unfold SFltb.
  change (Prim2SF 0) with (S754_zero false).
  destruct (Prim2SF x) as [s|s| |s m e]; simpl; try congruence;
    destruct s; simpl; congruence.
Qed.

Lemma set_tasks_same s : set_tasks (tasks s) s = s.
Proof. destruct s. reflexivity. Qed.

(** One pass of the loop leaves a settled task alone and reports no change;
    on any other task it reports a change. *)
Lemma processOne_snd h today t :
  snd (processOne h today t) = negb (settled h today t).
Proof.
  unfold processOne, settled.
  pose proof (processTaskToToday_snd h t today) as S.
  destruct (caught_up h t today) eqn:C.
  - rewrite processTaskToToday_settled by exact C.
    destruct (JS.Number_isFinite (hopper t)); [|reflexivity].
    destruct (hopper t <? 0)%float; reflexivity.
  - destruct (processTaskToToday h t today) as [t' c]. simpl in S. subst c.
    cbn [negb hopper set_updatedAt].
    destruct (negb (JS.Number_isFinite (hopper t')) || (hopper t' <? 0)%float);
      reflexivity.
Qed.

Lemma processOne_settled h today t :
  settled h today t = true -> processOne h today t = (t, false).
Proof.
  intros S. unfold settled in S.
  apply andb_prop in S. destruct S as [S L]. apply andb_prop in S. destruct S as [C F].
  apply negb_true_iff in L.
  unfold processOne. rewrite processTaskToToday_settled by exact C.
  rewrite F, L. reflexivity.
Qed.

Lemma processEach_snd h today ts :
  snd (processEach h today ts) = negb (forallb (settled h today) ts).
Proof.
  induction ts as [|a r IH]; [reflexivity|].
  cbn [processEach forallb].
  pose proof (processOne_snd h today a) as S.
  destruct (processOne h today a) as [a' c].
  destruct (processEach h today r) as [r' c']. simpl in *.
  rewrite S, IH, negb_andb. reflexivity.
Qed.

Lemma processEach_settled h today ts :
  forallb (settled h today) ts = true -> processEach h today ts = (ts, false).
Proof.
  induction ts as [|a r IH]; [reflexivity|].
  cbn [forallb processEach]. intros H. apply andb_prop in H. destruct H as [A R].
  rewrite (processOne_settled h today a A), (IH R). reflexivity.
Qed.

Lemma processAllToToday_settled h s :
  forallb (settled h (localDateKey h)) (tasks s) = true ->
  processAllToToday h s = (s, false).
Proof.
  intros H. unfold processAllToToday. rewrite processEach_settled by exact H.
  rewrite set_tasks_same. reflexivity.
Qed.

(** X13.  The guard of [processAllToToday]: after the pass every hopper of
    the registry is a finite Number that is at least 0, whatever the
    registry held before (NaN, an infinity, a negative Number). *)
Theorem pass_makes_hoppers_valid h s :
  forallb (fun t => JS.Number_isFinite (hopper t) && (0 <=? hopper t)%float)
          (tasks (fst (processAllToToday h s))) = true.
Proof.
  apply forallb_forall. intros t I.
  destruct (processAllToToday_hoppers_valid h s t I) as [F N].
  rewrite F, N. reflexivity.
Qed.

Lemma processOne_frame h today t :
  let t' := fst (processOne h today t) in
  id t' = id t /\ name t' = name t /\ thumbnailUrl t' = thumbnailUrl t
  /\ createdAt t' = createdAt t.
Proof.
  unfold processOne.
  pose proof (processTaskToToday_identity h t today) as F. cbv zeta in F.
  destruct (processTaskToToday h t today) as [t' c]. simpl fst in F.
  destruct F as (F1 & F2 & F3 & F4 & _).
  destruct c; cbn [hopper set_updatedAt];
    destruct (negb (JS.Number_isFinite (hopper t')) || (hopper t' <? 0)%float);
    cbv zeta; cbn [fst id name thumbnailUrl createdAt set_updatedAt set_hopper];
    auto.
Qed.

Lemma processEach_frame h today ts :
  let ts' := fst (processEach h today ts) in
  map id ts' = map id ts /\ map name ts' = map name ts
  /\ map thumbnailUrl ts' = map thumbnailUrl ts
  /\ map createdAt ts' = map createdAt ts.
Proof.
  induction ts as [|a r IH]; [repeat split|].
  cbn [processEach].
  pose proof (processOne_frame h today a) as F. cbv zeta in F, IH |- *.
  destruct (processOne h today a) as [a' c].
  destruct (processEach h today r) as [r' c']. simpl fst in *.
  destruct F as (F1 & F2 & F3 & F4). destruct IH as (I1 & I2 & I3 & I4).
  cbn [map]. repeat split; congruence.
Qed.

(** X14.  The pass rolls tasks in place: the registry after
    [processAllToToday] holds the same tasks in the same order, each with
    the [id], [name], [thumbnailUrl] and [createdAt] it had, and the
    registry's own [version], [createdAt] and [backgroundUrl] are as
    before. *)
Theorem pass_keeps_tasks h s :
  let s' := fst (processAllToToday h s) in
  map id (tasks s') = map id (tasks s)
  /\ map name (tasks s') = map name (tasks s)
  /\ map thumbnailUrl (tasks s') = map thumbnailUrl (tasks s)
  /\ map createdAt (tasks s') = map createdAt (tasks s)
  /\ List.length (tasks s') = List.length (tasks s)
  /\ version s' = version s
  /\ st_createdAt s' = st_createdAt s
  /\ backgroundUrl s' = backgroundUrl s.
Proof.
  unfold processAllToToday.
  pose proof (processEach_frame h (localDateKey h) (tasks s)) as F. cbv zeta in F.
  destruct (processEach h (localDateKey h) (tasks s)) as [ts c]. simpl fst in F.
  destruct F as (F1 & F2 & F3 & F4).
  assert (L : List.length ts = List.length (tasks s))
    by (rewrite <- (List.length_map id ts), F1; apply List.length_map).
  destruct c; cbv zeta; cbn [fst tasks version st_createdAt backgroundUrl
                               set_tasks set_st_updatedAt]; auto 10.
Qed.

(** X15.  [processAllToToday] reports a change, and stamps the registry
    with the time of the pass, exactly when some task is not settled (not
    caught up, or with a hopper that fails the guard); when it reports no
    change the registry is the one it was given, so skipping the save
    loses nothing. *)
Theorem pass_reports_change h s :
  processAllToToday h s
  = (if forallb (settled h (localDateKey h)) (tasks s) then (s, false)
     else (fst (processAllToToday h s), true))
  /\ (snd (processAllToToday h s) = true ->
      st_updatedAt (fst (processAllToToday h s)) = Date_now h).
Proof.
  split.
  - destruct (forallb (settled h (localDateKey h)) (tasks s)) eqn:A.
    + apply processAllToToday_settled, A.
    + unfold processAllToToday.
      pose proof (processEach_snd h (localDateKey h) (tasks s)) as S.
      rewrite A in S.
      destruct (processEach h (localDateKey h) (tasks s)) as [ts c].
      simpl in S. subst c. reflexivity.
  - unfold processAllToToday.
    destruct (processEach h (localDateKey h) (tasks s)) as [ts c].
    destruct c; simpl; [reflexivity|discriminate].
Qed.

Lemma processOne_dayKey h today t :
  dayKey (fst (processOne h today t)) = dayKey (fst (processTaskToToday h t today)).
Proof.
  unfold processOne. destruct (processTaskToToday h t today) as [t' c].
  destruct c; cbn [hopper set_updatedAt];
    destruct (negb (JS.Number_isFinite (hopper t')) || (hopper t' <? 0)%float);
    reflexivity.
Qed.

Lemma processOne_settles h today n t :
  today = key_of_day n -> four_digit_year n ->
  (test_dateKey (dayKey t) = true ->
   Day.DayFromYear 1000 <= dayNumberUTC h (dayKey t) + 1) ->
  settled h today (fst (processOne h today t)) = true.
Proof.
  intros T R L.
  pose proof (processTaskToToday_then_caught_up h t today n T R L) as C.
  destruct (processOne_hopper_valid h today t) as [F N].
  unfold settled, caught_up in *. rewrite processOne_dayKey, C, F.
  rewrite (nonneg_not_negative _ N). reflexivity.
Qed.

Lemma processEach_settles h today n ts :
  today = key_of_day n -> four_digit_year n ->
  forallb (fun t => negb (test_dateKey (dayKey t))
                    || (Day.DayFromYear 1000 <=? dayNumberUTC h (dayKey t) + 1)) ts
  = true ->
  forallb (settled h today) (fst (processEach h today ts)) = true.
Proof.
  intros T R. induction ts as [|a r IH]; [reflexivity|].
  cbn [forallb processEach]. intros H. apply andb_prop in H. destruct H as [A B].
  specialize (IH B).
  assert (L : test_dateKey (dayKey a) = true ->
              Day.DayFromYear 1000 <= dayNumberUTC h (dayKey a) + 1).
  { intros W. rewrite W in A. simpl in A. apply Z.leb_le in A. exact A. }
  pose proof (processOne_settles h today n a T R L) as S.
  destruct (processOne h today a) as [a' c].
  destruct (processEach h today r) as [r' c']. simpl in *.
  rewrite S, IH. reflexivity.
Qed.

(** X16.  The pass is idempotent.  When the local day of the host is the
    key of a real day in a year of four digits, and no stored day lies
    before the last day of the year 999, a second [processAllToToday] at
    the same instant changes nothing and reports no change. *)
Theorem pass_twice h s n :
  localDateKey h = key_of_day n ->
  four_digit_year n ->
  forallb (fun t => negb (test_dateKey (dayKey t))
                    || (Day.DayFromYear 1000 <=? dayNumberUTC h (dayKey t) + 1))
          (tasks s) = true ->
  processAllToToday h (fst (processAllToToday h s))
  = (fst (processAllToToday h s), false).
Proof.
  intros T R A. apply processAllToToday_settled.
  pose proof (processEach_settles h (localDateKey h) n (tasks s) T R A) as S.
  unfold processAllToToday.
  destruct (processEach h (localDateKey h) (tasks s)) as [ts c]. simpl in S.
  destruct c; exact S.
Qed.

Lemma pass_twice_witness :
  processAllToToday host_nov3
    (fst (processAllToToday host_nov3 (state_ex [task_behind14; task_ahead; task_other])))
  = (fst (processAllToToday host_nov3 (state_ex [task_behind14; task_ahead; task_other])),
     false).
Proof.
  apply (pass_twice host_nov3 (state_ex [task_behind14; task_ahead; task_other]) 20760).
  - reflexivity.
  - apply four_digit_year_check. reflexivity.
  - vm_compute. reflexivity.
Defined.
(** ** The add route *)

Lemma find_task_split ts i t :
  find_task ts i = Some t ->
  exists before after,
    ts = before ++ t :: after
    /\ forallb (fun x => negb (id x =? i)%string) before = true
    /\ id t = i
    /\ forall t', replace_task ts i t' = before ++ t' :: after.
Proof.
  induction ts as [|a r IH]; simpl; [discriminate|].
  destruct (id a =? i)%string eqn:E.
  - intros F. inversion F; subst a. exists [], r.
    apply String.eqb_eq in E. repeat split; assumption.
  - intros F. destruct (IH F) as (before & after & -> & B & I & R).
    exists (a :: before), after. simpl. rewrite E, B.
    repeat split; try assumption. intros t'. rewrite R. reflexivity.
Qed.

(** The route on a request it accepts. *)
Lemma addRoute_accepts h s i body amount old :
  amount_of h body = Ok amount ->
  (1000000 <? amount)%float = false ->
  find_task (tasks s) i = Some old ->
  let hop := roundTo (hopper old + amount) in
  let secured := negb (securedToday old) && (DAILY_THRESHOLD - EPS <=? hop)%float in
  let task :=
    if secured
    then set_updatedAt (Date_now h)
           (set_lastSecured (Date_now h) "add"
              (set_streak ((if JS.Number_isInteger (streak old) then streak old else 0) + 1)
                 (set_securedToday true (set_updatedAt (Date_now h) (set_hopper hop old)))))
    else set_updatedAt (Date_now h) (set_hopper hop old) in
  addRoute h s i body
  = (set_st_updatedAt (Date_now h) (set_tasks (replace_task (tasks s) i task) s),
     ReplyAdded task secured).
Proof.
  intros A L F. unfold addRoute. rewrite A, L, F. unfold trySecureToday.
  cbn [securedToday hopper streak set_updatedAt set_hopper].
  destruct (securedToday old); [reflexivity|].
  destruct (_ <=? _)%float; reflexivity.
Qed.

Lemma addRoute_added h s i body task secured :
  snd (addRoute h s i body) = ReplyAdded task secured ->
  exists amount old,
    amount_of h body = Ok amount
    /\ (1000000 <? amount)%float = false
    /\ find_task (tasks s) i = Some old.
Proof.
  unfold addRoute. destruct (amount_of h body) as [amount|e]; [|discriminate].
  destruct (1000000 <? amount)%float eqn:L; [discriminate|].
  destruct (find_task (tasks s) i) as [old|]; [|discriminate].
  intros _. eauto.
Qed.

(** X17.  A successful add changes one task and no other.  When the route
    replies with a task, the registry before and after differ only at the
    first task with the requested [id]: the tasks before it (none of which
    has that id) and after it are the same, in the same order; the task
    replied stands in its place with the same [id], [name], [thumbnailUrl],
    [dayKey] and [createdAt]; and the registry's [version], [createdAt] and
    [backgroundUrl] are as before. *)
Theorem add_changes_one_task h s i body task secured :
  snd (addRoute h s i body) = ReplyAdded task secured ->
  exists before old after,
    tasks s = before ++ old :: after
    /\ tasks (fst (addRoute h s i body)) = before ++ task :: after
    /\ forallb (fun t => negb (id t =? i)%string) before = true
    /\ id old = i /\ id task = i /\ name task = name old
    /\ thumbnailUrl task = thumbnailUrl old /\ dayKey task = dayKey old
    /\ createdAt task = createdAt old
    /\ version (fst (addRoute h s i body)) = version s
    /\ st_createdAt (fst (addRoute h s i body)) = st_createdAt s
    /\ backgroundUrl (fst (addRoute h s i body)) = backgroundUrl s.
Proof.
  intros E. destruct (addRoute_added h s i body task secured E)
    as (amount & old & A & L & F).
  pose proof (addRoute_accepts h s i body amount old A L F) as R. cbv zeta in R.
  rewrite R in E |- *. cbn [snd fst] in E |- *. inversion E as [[E1 E2]]. clear E.
  destruct (find_task_split _ _ _ F) as (before & after & T & B & I & P).
  exists before, old, after. rewrite E1.
  cbn [tasks version st_createdAt backgroundUrl set_st_updatedAt set_tasks].
  rewrite P. rewrite <- E1.
  destruct (negb (securedToday old) && _); repeat split; assumption.
Qed.

Lemma add_changes_one_task_witness :
  exists before old after,
    tasks (state_ex [task_other; task_today; task_behind14])
    = before ++ old :: after
    /\ tasks (fst (addRoute host_nov3 (state_ex [task_other; task_today; task_behind14])
                     "t1" (VObj [("amount"%string, VNum 0.5)])))
       = before ++ set_updatedAt (Date_now host_nov3) (set_hopper 1.75 task_today) :: after
    /\ forallb (fun t => negb (id t =? "t1")%string) before = true
    /\ id old = "t1"%string
    /\ id (set_updatedAt (Date_now host_nov3) (set_hopper 1.75 task_today)) = "t1"%string
    /\ name (set_updatedAt (Date_now host_nov3) (set_hopper 1.75 task_today)) = name old
    /\ thumbnailUrl (set_updatedAt (Date_now host_nov3) (set_hopper 1.75 task_today))
       = thumbnailUrl old
    /\ dayKey (set_updatedAt (Date_now host_nov3) (set_hopper 1.75 task_today)) = dayKey old
    /\ createdAt (set_updatedAt (Date_now host_nov3) (set_hopper 1.75 task_today))
       = createdAt old
    /\ version (fst (addRoute host_nov3 (state_ex [task_other; task_today; task_behind14])
                       "t1" (VObj [("amount"%string, VNum 0.5)])))
       = version (state_ex [task_other; task_today; task_behind14])
    /\ st_createdAt (fst (addRoute host_nov3 (state_ex [task_other; task_today; task_behind14])
                            "t1" (VObj [("amount"%string, VNum 0.5)])))
       = st_createdAt (state_ex [task_other; task_today; task_behind14])
    /\ backgroundUrl (fst (addRoute host_nov3 (state_ex [task_other; task_today; task_behind14])
                             "t1" (VObj [("amount"%string, VNum 0.5)])))
       = backgroundUrl (state_ex [task_other; task_today; task_behind14]).
Proof.
  apply (add_changes_one_task host_nov3 (state_ex [task_other; task_today; task_behind14])
           "t1" (VObj [("amount"%string, VNum 0.5)])
           (set_updatedAt (Date_now host_nov3) (set_hopper 1.75 task_today)) false).
  reflexivity.
Defined.

(** X18.  What a successful add does to its task.  For an amount the route
    accepts and a task it finds, the reply carries the task with the hopper
    [roundTo(hopper + amount)], which is never NaN, and the time of the
    call as [updatedAt]; the call secures the task exactly when it was not
    secured and the new hopper reaches [1.0 - 1e-9], and then the streak is
    the old one plus 1 (from 0 when the old one was no integer); otherwise
    the streak and the secured mark are as before. *)
Theorem add_effect_on_task h s i body amount old :
  amount_of h body = Ok amount ->
  (1000000 <? amount)%float = false ->
  find_task (tasks s) i = Some old ->
  let hop := roundTo (hopper old + amount) in
  let secured := negb (securedToday old) && (DAILY_THRESHOLD - EPS <=? hop)%float in
  exists task,
    snd (addRoute h s i body) = ReplyAdded task secured
    /\ tasks (fst (addRoute h s i body)) = replace_task (tasks s) i task
    /\ st_updatedAt (fst (addRoute h s i body)) = Date_now h
    /\ hopper task = hop
    /\ is_nan (hopper task) = false
    /\ updatedAt task = Date_now h
    /\ securedToday task = securedToday old || secured
    /\ streak task
       = (if secured
          then (if JS.Number_isInteger (streak old) then streak old else 0) + 1
          else streak old)%float
    /\ (secured = true ->
        lastSecuredAt task = Some (Date_now h)
        /\ lastSecuredReason task = Some "add"%string)
    /\ (secured = false ->
        lastSecuredAt task = lastSecuredAt old
        /\ lastSecuredReason task = lastSecuredReason old).
Proof.
  intros A L F hop secured.
  pose proof (addRoute_accepts h s i body amount old A L F) as R. cbv zeta in R.
  fold hop in R. fold secured in R. rewrite R. cbn [fst snd].
  eexists. split; [reflexivity|]. split; [reflexivity|]. split; [reflexivity|].
  assert (N : is_nan hop = false) by apply RoundFacts.roundTo_not_nan.
  destruct secured eqn:S;
    cbn [hopper updatedAt securedToday streak lastSecuredAt lastSecuredReason
         set_updatedAt set_lastSecured set_streak set_securedToday set_hopper].
  - rewrite orb_true_r. repeat split; try assumption; discriminate.
  - rewrite orb_false_r. repeat split; try assumption; discriminate.
Qed.

Lemma add_effect_on_task_witness :
  exists task,
    snd (addRoute host_nov3 (state_ex [task_behind1 0.7]) "t1"
           (VObj [("amount"%string, VNum 0.5)]))
    = ReplyAdded task
        (negb (securedToday (task_behind1 0.7))
         && (DAILY_THRESHOLD - EPS <=? roundTo (hopper (task_behind1 0.7) + 0.5))%float)
    /\ tasks (fst (addRoute host_nov3 (state_ex [task_behind1 0.7]) "t1"
                     (VObj [("amount"%string, VNum 0.5)])))
       = replace_task (tasks (state_ex [task_behind1 0.7])) "t1" task
    /\ st_updatedAt (fst (addRoute host_nov3 (state_ex [task_behind1 0.7]) "t1"
                            (VObj [("amount"%string, VNum 0.5)])))
       = Date_now host_nov3
    /\ hopper task = roundTo (hopper (task_behind1 0.7) + 0.5)
    /\ is_nan (hopper task) = false
    /\ updatedAt task = Date_now host_nov3
    /\ securedToday task
       = securedToday (task_behind1 0.7)
         || negb (securedToday (task_behind1 0.7))
            && (DAILY_THRESHOLD - EPS <=? roundTo (hopper (task_behind1 0.7) + 0.5))%float
    /\ streak task
       = (if negb (securedToday (task_behind1 0.7))
             && (DAILY_THRESHOLD - EPS <=? roundTo (hopper (task_behind1 0.7) + 0.5))
          then (if JS.Number_isInteger (streak (task_behind1 0.7))
                then streak (task_behind1 0.7) else 0) + 1
          else streak (task_behind1 0.7))%float
    /\ (negb (securedToday (task_behind1 0.7))
        && (DAILY_THRESHOLD - EPS <=? roundTo (hopper (task_behind1 0.7) + 0.5))%float
        = true ->
        lastSecuredAt task = Some (Date_now host_nov3)
        /\ lastSecuredReason task = Some "add"%string)
    /\ (negb (securedToday (task_behind1 0.7))
        && (DAILY_THRESHOLD - EPS <=? roundTo (hopper (task_behind1 0.7) + 0.5))%float
        = false ->
        lastSecuredAt task = lastSecuredAt (task_behind1 0.7)
        /\ lastSecuredReason task = lastSecuredReason (task_behind1 0.7)).
Proof.
  apply (add_effect_on_task host_nov3 (state_ex [task_behind1 0.7]) "t1"
           (VObj [("amount"%string, VNum 0.5)]) 0.5 (task_behind1 0.7));
    reflexivity.
Defined.




(** ** Loading and saving the registry *)

Lemma map_normalizeTask_ok hs items : forall k ts,
  map_normalizeTask hs k items = Ok ts ->
  List.length ts = List.length items
  /\ forall j x, nth_error items j = Some x ->
       exists t, nth_error ts j = Some t /\ normalizeTask (hs (k + j)%nat) x = Ok t.
Proof.
  induction items as [|a r IH]; intros k ts; cbn [map_normalizeTask].
  - intros E. inversion E. split; [reflexivity|]. intros [|j] x; discriminate.
  - destruct (normalizeTask (hs k) a) as [t|e] eqn:N; [|discriminate].
    cbn [bind]. destruct (map_normalizeTask hs (S k) r) as [ts'|e] eqn:M; [|discriminate].
    cbn [bind]. intros E. inversion E; subst ts. clear E.
    destruct (IH _ _ M) as [L P]. split; [simpl; rewrite L; reflexivity|].
    intros [|j] x; cbn [nth_error].
    + intros E. inversion E; subst x. exists t. rewrite Nat.add_0_r. auto.
    + intros E. destruct (P j x E) as (t' & A & B). exists t'.
      rewrite Nat.add_succ_r. auto.
Qed.

Lemma map_normalizeTask_throws hs items : forall k j x e,
  nth_error items j = Some x ->
  normalizeTask (hs (k + j)%nat) x = Throw e ->
  exists e', map_normalizeTask hs k items = Throw e'.
Proof.
  induction items as [|a r IH]; intros k [|j] x e; cbn [nth_error map_normalizeTask];
    try discriminate.
  - intros E N. inversion E; subst x. rewrite Nat.add_0_r in N. rewrite N. simpl. eauto.
  - intros E N. rewrite Nat.add_succ_r in N.
    destruct (normalizeTask (hs k) a) as [t|e0]; [|simpl; eauto].
    cbn [bind]. destruct (IH (S k) j x e E N) as (e' & ->). simpl. eauto.
Qed.

Lemma normalizeState_primitive h hs v :
  primitive v = true -> normalizeState h hs v = Ok (empty_state h).
Proof. destruct v; simpl; try discriminate; reflexivity. Qed.

(** X20.  What [normalizeState] returns.  The registry it builds has
    version 1 and a background under /uploads/ or none; its two timestamps
    are finite when the clock is; and its tasks are the [normalizeTask] of
    the items of the [tasks] array, one for one and in order, or none at all
    when [tasks] is missing or is no array. *)
Theorem normalizeState_shape h hs raw st :
  normalizeState h hs raw = Ok st ->
  let s := match raw with VObj _ | VArr _ => raw | _ => VObj [] end in
  version st = 1
  /\ under_uploads (backgroundUrl st) = true
  /\ (JS.Number_isFinite (Date_now h) = true ->
      JS.Number_isFinite (st_createdAt st) = true
      /\ JS.Number_isFinite (st_updatedAt st) = true)
  /\ match get s "tasks" with
     | VArr items =>
         List.length (tasks st) = List.length items
         /\ forall j x, nth_error items j = Some x ->
              exists t, nth_error (tasks st) j = Some t
                        /\ normalizeTask (hs j) x = Ok t
     | _ => tasks st = []
     end.
Proof.
  intros E. cbv zeta. unfold normalizeState in E. cbv zeta in E.
  set (s := match raw with VObj _ | VArr _ => raw | _ => VObj [] end) in *.
  destruct (match get s "tasks" with
            | VArr items => map_normalizeTask hs 0 items
            | _ => Ok []
            end) as [ts|e] eqn:M; [|discriminate].
  cbn [bind] in E. inversion E; subst st. clear E.
  cbn [version backgroundUrl st_createdAt st_updatedAt tasks].
  split; [reflexivity|]. split; [|split].
  - destruct (get s "backgroundUrl") as [| | | |u| |]; try reflexivity.
    destruct (Str.startsWith u "/uploads/") eqn:U; [exact U|reflexivity].
  - intros F. split.
    + destruct (get s "createdAt") as [| | |n| | |]; try exact F.
      destruct (JS.Number_isFinite n) eqn:N; assumption.
    + destruct (get s "updatedAt") as [| | |n| | |]; try exact F.
      destruct (JS.Number_isFinite n) eqn:N; assumption.
  - destruct (get s "tasks") as [| | | | | |items];
      try (inversion M; reflexivity).
    apply map_normalizeTask_ok in M. exact M.
Qed.

Lemma normalizeState_shape_witness :
  version (state_ex [default_task host_nov3]) = 1
  /\ under_uploads (backgroundUrl (state_ex [default_task host_nov3])) = true
  /\ (JS.Number_isFinite (Date_now host_nov3) = true ->
      JS.Number_isFinite (st_createdAt (state_ex [default_task host_nov3])) = true
      /\ JS.Number_isFinite (st_updatedAt (state_ex [default_task host_nov3])) = true)
  /\ (List.length (tasks (state_ex [default_task host_nov3])) = List.length [VNull]
      /\ forall j x, nth_error [VNull] j = Some x ->
           exists t, nth_error (tasks (state_ex [default_task host_nov3])) j = Some t
                     /\ normalizeTask host_nov3 x = Ok t).
Proof.
  apply (normalizeState_shape host_nov3 (fun _ => host_nov3)
           (VObj [("createdAt"%string, VNum 1793000000000);
                  ("updatedAt"%string, VNum 1793000000000);
                  ("backgroundUrl"%string, VStr "/etc/passwd");
                  ("tasks"%string, VArr [VNull])])
           (state_ex [default_task host_nov3])).
  reflexivity.
Defined.

(** X21.  [loadStateFromDisk] never throws.  It returns what
    [normalizeState] makes of the parsed file, and the empty registry of
    [normalizeState(null)] (no task, no background, both timestamps now)
    whenever the read or the parse throws, the normalizer throws, or the
    file holds a value that is no object. *)
Theorem loadStateFromDisk_never_throws h hs parsed :
  (exists st, loadStateFromDisk h hs parsed = Ok st)
  /\ (forall e, parsed = Throw e ->
        loadStateFromDisk h hs parsed = Ok (empty_state h))
  /\ (forall v e, parsed = Ok v -> normalizeState h hs v = Throw e ->
        loadStateFromDisk h hs parsed = Ok (empty_state h))
  /\ (forall v st, parsed = Ok v -> normalizeState h hs v = Ok st ->
        loadStateFromDisk h hs parsed = Ok st)
  /\ (forall v, parsed = Ok v -> primitive v = true ->
        loadStateFromDisk h hs parsed = Ok (empty_state h)).
Proof.
  unfold loadStateFromDisk. repeat split.
  - destruct parsed as [v|e]; cbn [bind]; [|eexists; reflexivity].
    destruct (normalizeState h hs v) as [st|e]; eexists; reflexivity.
  - intros e ->. reflexivity.
  - intros v e -> N. cbn [bind]. rewrite N. reflexivity.
  - intros v st -> N. cbn [bind]. rewrite N. reflexivity.
  - intros v -> P. cbn [bind]. rewrite (normalizeState_primitive h hs v P). reflexivity.
Qed.

(** X22.  One task that cannot be normalized empties the registry.  When
    the file holds an object whose [tasks] array has an item on which
    [normalizeTask] throws, [loadStateFromDisk] catches the exception and
    returns the empty registry: every other task of the file is dropped, and
    so is the background. *)
Theorem one_bad_task_empties_registry h hs members items j x e :
  own members "tasks" = Some (VArr items) ->
  nth_error items j = Some x ->
  normalizeTask (hs j) x = Throw e ->
  loadStateFromDisk h hs (Ok (VObj members)) = Ok (empty_state h).
Proof.
  intros T I N. unfold loadStateFromDisk, normalizeState. cbn [bind get]. rewrite T.
  destruct (map_normalizeTask_throws hs items 0 j x e I N) as (e' & ->).
  reflexivity.
Qed.

Lemma one_bad_task_empties_registry_witness :
  loadStateFromDisk host_nov3 (fun _ => host_nov3)
    (Ok (VObj [("backgroundUrl"%string, VStr "/uploads/background-1.png");
               ("tasks"%string,
                VArr [stored_task task_today;
                      VObj [("hopper"%string, VObj [("toString"%string, VNull)])]])]))
  = Ok (empty_state host_nov3).
Proof.
  apply (one_bad_task_empties_registry host_nov3 (fun _ => host_nov3) _
           [stored_task task_today;
            VObj [("hopper"%string, VObj [("toString"%string, VNull)])]]
           1 (VObj [("hopper"%string, VObj [("toString"%string, VNull)])])
           "TypeError");
    reflexivity.
Defined.

Lemma kept_number_spec n :
  kept_number n = true ->
  JS.Number_isFinite n = true /\ stored_number n = VNum n.
Proof.
  unfold kept_number, stored_number. intros H. apply andb_prop in H.
  destruct H as [F Z]. rewrite F. split; [reflexivity|].
  destruct (n =? 0)%float eqn:E; [|reflexivity].
  destruct (NumFacts.eqb_zero_inv n E) as [-> | ->]; [reflexivity|].
  discriminate Z.
Qed.

Lemma leibniz_eq a b : PrimFloat.Leibniz.eqb a b = true -> a = b.
Proof. apply FloatAxioms.Leibniz.eqb_spec. Qed.

(** A task that passes every check comes back as it was. *)
Lemma normalizeTask_reads_back_aux h t :
  accepted_task t = true ->
  normalizeTask h (stored_task t) = Ok t.
Proof.
  unfold accepted_task. intros H.
  repeat match type of H with
         | _ && _ = true => let H' := fresh "A" in
                            apply andb_prop in H; destruct H as [H H']
         end.
  destruct t as [i n th hop str key sec cr up la lr].
  cbn [id name thumbnailUrl hopper streak dayKey securedToday createdAt updatedAt
       lastSecuredAt lastSecuredReason] in *.
  destruct (kept_number_spec _ A6) as [F6 S6].
  destruct (kept_number_spec _ A4) as [F4 S4].
  destruct (kept_number_spec _ A1) as [F1 S1].
  destruct (kept_number_spec _ A0) as [F0 S0].
  apply leibniz_eq in A5. apply String.eqb_eq in A9.
  unfold normalizeTask, stored_task, asSafeNumber.
  cbn [id name thumbnailUrl hopper streak dayKey securedToday createdAt updatedAt
       lastSecuredAt lastSecuredReason].
  rewrite S6, S4, S1, S0.
  change (get (VObj ?ms) ?k) with (match own ms k with Some v => v | None => VUndefined end).
  cbn [own String.eqb Ascii.eqb Bool.eqb andb].
  cbn [Number bind]. rewrite F6, F1, F0, A3, A2, H, A9, A8, A5. cbn [bind].
  f_equal. f_equal.
  - destruct th as [u|]; cbn [stored_option under_uploads] in *; [rewrite A7|]; reflexivity.
  - destruct la as [a|]; cbn [stored_option]; [|reflexivity].
    destruct (kept_number_spec _ A) as [Fa Sa]. rewrite Sa, Fa. reflexivity.
  - destruct lr; reflexivity.
Qed.

(** X23.  What was saved is read back.  A task that passes every check of
    [normalizeTask] (a non-empty id, a trimmed non-empty name, a thumbnail
    under /uploads/ or none, a finite hopper that [roundTo] leaves alone, an
    integer streak, a well-formed day, finite timestamps, and no -0 among
    the Numbers) comes back from [normalizeTask] as it was, once written by
    [JSON.stringify] and read by [JSON.parse], at any later time. *)
Theorem normalizeTask_reads_back h t :
  accepted_task t = true ->
  normalizeTask h (stored_task t) = Ok t.
Proof. apply normalizeTask_reads_back_aux. Qed.

Lemma normalizeTask_reads_back_witness :
  normalizeTask host_nov3 (stored_task task_other) = Ok task_other.
Proof.
  apply (normalizeTask_reads_back host_nov3 task_other). reflexivity.
Defined.

Lemma map_normalizeTask_reads_back hs ts : forall k,
  forallb accepted_task ts = true ->
  map_normalizeTask hs k (map stored_task ts) = Ok ts.
Proof.
  induction ts as [|a r IH]; intros k; [reflexivity|].
  cbn [forallb map map_normalizeTask]. intros H. apply andb_prop in H.
  destruct H as [A R].
  rewrite (normalizeTask_reads_back_aux (hs k) a A). cbn [bind].
  rewrite (IH (S k) R). reflexivity.
Qed.

(** X24.  A registry that was saved is loaded as it was.  When every task
    of the registry passes the checks of [normalizeTask], its version is 1,
    its background is under /uploads/ or none and its timestamps are finite,
    [loadStateFromDisk] on the file [saveStateToDisk] wrote returns that
    registry, task for task. *)
Theorem load_reads_back h hs s :
  accepted_state s = true ->
  loadStateFromDisk h hs (Ok (stored_state s)) = Ok s.
Proof.
  unfold accepted_state. intros H.
  repeat match type of H with
         | _ && _ = true => let H' := fresh "A" in
                            apply andb_prop in H; destruct H as [H H']
         end.
  destruct s as [v cr up bg ts].
  cbn [version st_createdAt st_updatedAt backgroundUrl tasks] in *.
  apply Z.eqb_eq in H. subst v.
  destruct (kept_number_spec _ A2) as [F2 S2].
  destruct (kept_number_spec _ A1) as [F1 S1].
  unfold loadStateFromDisk, normalizeState, stored_state.
  cbn [version st_createdAt st_updatedAt backgroundUrl tasks bind].
  rewrite S2, S1.
  change (get (VObj ?ms) ?k) with (match own ms k with Some v => v | None => VUndefined end).
  cbn [own String.eqb Ascii.eqb Bool.eqb andb].
  rewrite (map_normalizeTask_reads_back hs ts 0 A). cbn [bind]. rewrite F2, F1.
  f_equal. f_equal.
  destruct bg as [u|]; cbn [stored_option under_uploads] in *; [rewrite A0|]; reflexivity.
Qed.

Lemma load_reads_back_witness :
  loadStateFromDisk host_nov3 (fun _ => host_nov3)
    (Ok (stored_state (state_ex [task_today; task_other])))
  = Ok (state_ex [task_today; task_other]).
Proof.
  apply (load_reads_back host_nov3 (fun _ => host_nov3) (state_ex [task_today; task_other])).
  reflexivity.
Defined.
(** ** Uploads, and the routes that create and delete tasks *)

Lemma existsb_app_l {A} (f : A -> bool) l1 l2 :
  existsb f l1 = true -> existsb f (l1 ++ l2) = true.
Proof. intros H. rewrite existsb_app, H. reflexivity. Qed.

(** X25.  [safeExt] never lets an extension of the client through: the
    extension it returns is one of the six of its list, or ".bin", whatever
    the file name, the declared type and the platform's [path.extname]. *)
Theorem safeExt_allowed p originalName mime :
  Text.has (allowed ++ [".bin"%string]) (safeExt p originalName mime) = true.
Proof.
  unfold safeExt.
  destruct (Text.has allowed (Text.toLowerCase (path_extname p originalName))) eqn:A.
  - apply existsb_app_l, A.
  - destruct (Text.has allowed (guessExtFromMime mime)) eqn:B.
    + apply existsb_app_l, B.
    + reflexivity.
Qed.

Lemma append_nil_r s : (s ++ "")%string = s.
Proof. induction s; simpl; congruence. Qed.

Lemma append_assoc a b c : ((a ++ b) ++ c)%string = (a ++ b ++ c)%string.
Proof. induction a; simpl; congruence. Qed.

Lemma rev_string_acc s : forall acc,
  Str.rev_string s acc = (Str.rev_string s "" ++ acc)%string.
Proof.
  induction s as [|c r IH]; intros acc; [reflexivity|].
  cbn [Str.rev_string]. rewrite (IH (String c acc)), (IH (String c "")), append_assoc.
  reflexivity.
Qed.

Lemma rev_string_app a b :
  Str.rev_string (a ++ b) "" = (Str.rev_string b "" ++ Str.rev_string a "")%string.
Proof.
  induction a as [|c r IH]; cbn [append Str.rev_string]; [rewrite append_nil_r; reflexivity|].
  rewrite (rev_string_acc (r ++ b)), IH, (rev_string_acc r (String c "")), append_assoc.
  reflexivity.
Qed.

Lemma rev_string_involutive s : Str.rev_string (Str.rev_string s "") "" = s.
Proof.
  induction s as [|c r IH]; [reflexivity|].
  cbn [Str.rev_string]. rewrite (rev_string_acc r), rev_string_app, IH. reflexivity.
Qed.

Lemma trimStart_clean s : clean_start (Str.trimStart s) = true.
Proof.
  induction s as [|c r IH]; [reflexivity|]. cbn [Str.trimStart].
  destruct (Str.is_space c) eqn:E; [exact IH|]. cbn [clean_start]. rewrite E. reflexivity.
Qed.

Lemma clean_trimStart s : clean_start s = true -> Str.trimStart s = s.
Proof.
  destruct s as [|c r]; [reflexivity|]. cbn [clean_start Str.trimStart].
  intros H. apply negb_true_iff in H. rewrite H. reflexivity.
Qed.

Lemma trimStart_split s : exists w, s = (w ++ Str.trimStart s)%string.
Proof.
  induction s as [|c r [w IH]]; [exists ""%string; reflexivity|].
  cbn [Str.trimStart]. destruct (Str.is_space c).
  - exists (String c w). cbn [append]. rewrite <- IH. reflexivity.
  - exists ""%string. reflexivity.
Qed.

(** [trim] leaves a trimmed string as it is. *)
Lemma trim_trim s : Str.trim (Str.trim s) = Str.trim s.
Proof.
  unfold Str.trim at 2 3.
  set (a := Str.trimStart s). set (b := Str.trimStart (Str.rev_string a "")).
  set (u := Str.rev_string b "").
  assert (Cb : clean_start b = true) by apply trimStart_clean.
  assert (Cu : clean_start u = true).
  { destruct (trimStart_split (Str.rev_string a "")) as [w W]. fold b in W.
    pose proof (rev_string_involutive a) as I. rewrite W, rev_string_app in I.
    fold u in I. pose proof (trimStart_clean s) as Ca. fold a in Ca.
    rewrite <- I in Ca. destruct u; [reflexivity|exact Ca]. }
  unfold Str.trim. rewrite (clean_trimStart u Cu). unfold u at 1.
  rewrite rev_string_involutive, (clean_trimStart b Cb). reflexivity.
Qed.

(** The view of a task copies every member. *)
Lemma jsonTaskView_same t : jsonTaskView t = t.
Proof. destruct t. reflexivity. Qed.

(** The route on a request it accepts: a name that is not blank, and no
    thumbnail or one declared as an image and written. *)
Lemma createRoute_accepts h h' p s n ft :
  Str.truthy (Str.trim n) = true ->
  match ft with Some f => isLikelyImageMime (mime f) | None => true end = true ->
  let h2 := match ft with Some _ => h' | None => h end in
  let filename f :=
    ("thumb-" ++ randomUUID h ++ "-" ++ Str.of_int (now_ms h)
     ++ safeExt p (originalName f) (mime f))%string in
  let task :=
    {| id := randomUUID h; name := Str.trim n;
       thumbnailUrl := option_map (fun f => "/uploads/" ++ filename f)%string ft;
       hopper := 0; streak := 0; dayKey := localDateKey h; securedToday := false;
       createdAt := Date_now h2; updatedAt := Date_now h2;
       lastSecuredAt := None; lastSecuredReason := None |} in
  createRoute h h' p s (Some n) ft (Ok tt)
  = (set_st_updatedAt (Date_now h2) (set_tasks (tasks s ++ [task]) s),
     {| written := option_map (fun f => (path_join p (UPLOAD_DIR p) (filename f), data f)) ft;
        unlinked := None |},
     RespCreated task).
Proof.
  intros N M. unfold createRoute. rewrite N. cbn [negb].
  destruct ft as [f|]; cbn [option_map]; [rewrite M|]; reflexivity.
Qed.

(** X26.  What creating a task does.  For a name that is not blank, with no
    thumbnail or with one declared as an image and written to the uploads,
    the route appends one task to the registry and leaves every task that
    was there in place; the new task has the id drawn from the random
    source, the trimmed name, hopper 0, streak 0, today as its day, and is
    not secured; its thumbnail is under /uploads/, named after the id, the
    time and the safe extension, or null when none was sent. *)
Theorem create_adds_one_task h h' p s n ft :
  Str.truthy (Str.trim n) = true ->
  match ft with Some f => isLikelyImageMime (mime f) | None => true end = true ->
  exists task fs s',
    createRoute h h' p s (Some n) ft (Ok tt) = (s', fs, RespCreated task)
    /\ tasks s' = tasks s ++ [task]
    /\ version s' = version s /\ st_createdAt s' = st_createdAt s
    /\ backgroundUrl s' = backgroundUrl s
    /\ id task = randomUUID h /\ name task = Str.trim n
    /\ hopper task = 0%float /\ streak task = 0%float
    /\ dayKey task = localDateKey h /\ securedToday task = false
    /\ lastSecuredAt task = None /\ lastSecuredReason task = None
    /\ createdAt task = updatedAt task
    /\ under_uploads (thumbnailUrl task) = true
    /\ match ft with
       | None => thumbnailUrl task = None /\ fs = no_files
       | Some f =>
           let filename :=
             ("thumb-" ++ randomUUID h ++ "-" ++ Str.of_int (now_ms h)
              ++ safeExt p (originalName f) (mime f))%string in
           thumbnailUrl task = Some ("/uploads/" ++ filename)%string
           /\ written fs = Some (path_join p (UPLOAD_DIR p) filename, data f)
           /\ unlinked fs = None
       end.
Proof.
  intros N M. pose proof (createRoute_accepts h h' p s n ft N M) as R. cbv zeta in R.
  rewrite R. do 3 eexists. split; [reflexivity|].
  cbn [tasks version st_createdAt backgroundUrl set_st_updatedAt set_tasks
       id name hopper streak dayKey securedToday lastSecuredAt lastSecuredReason
       createdAt updatedAt thumbnailUrl].
  repeat (split; [reflexivity|]).
  destruct ft as [f|]; cbn [option_map under_uploads]; repeat split.
Qed.

Lemma create_adds_one_task_witness :
  exists task fs s',
    createRoute host_nov3 host_nov3 paths_ex (state_ex [task_today])
      (Some "  Swim "%string) (Some upload_ex) (Ok tt)
    = (s', fs, RespCreated task)
    /\ tasks s' = tasks (state_ex [task_today]) ++ [task]
    /\ version s' = version (state_ex [task_today])
    /\ st_createdAt s' = st_createdAt (state_ex [task_today])
    /\ backgroundUrl s' = backgroundUrl (state_ex [task_today])
    /\ id task = randomUUID host_nov3 /\ name task = Str.trim "  Swim "
    /\ hopper task = 0%float /\ streak task = 0%float
    /\ dayKey task = localDateKey host_nov3 /\ securedToday task = false
    /\ lastSecuredAt task = None /\ lastSecuredReason task = None
    /\ createdAt task = updatedAt task
    /\ under_uploads (thumbnailUrl task) = true
    /\ (thumbnailUrl task
        = Some ("/uploads/"
                ++ ("thumb-" ++ randomUUID host_nov3 ++ "-" ++ Str.of_int (now_ms host_nov3)
                    ++ safeExt paths_ex (originalName upload_ex) (mime upload_ex)))%string
        /\ written fs
           = Some (path_join paths_ex (UPLOAD_DIR paths_ex)
                     ("thumb-" ++ randomUUID host_nov3 ++ "-"
                      ++ Str.of_int (now_ms host_nov3)
                      ++ safeExt paths_ex (originalName upload_ex) (mime upload_ex))%string,
                   data upload_ex)
        /\ unlinked fs = None).
Proof.
  apply (create_adds_one_task host_nov3 host_nov3 paths_ex (state_ex [task_today])
           "  Swim " (Some upload_ex)); reflexivity.
Defined.

(** X27.  The create route refuses before it changes anything.  A missing
    or blank name is answered 400, and so is a thumbnail that is not
    declared as an image; when the write of the thumbnail fails the
    exception escapes; and whenever the reply is not the created task the
    registry is the one the route was given and no file was written. *)
Theorem create_refusals_leave_registry h h' p s fields_name ft wrote :
  let name := Str.trim (match fields_name with Some n => n | None => ""%string end) in
  (Str.truthy name = false ->
   createRoute h h' p s fields_name ft wrote
   = (s, no_files, RespError 400 "Missing field: name"))
  /\ (forall f, Str.truthy name = true -> ft = Some f ->
        isLikelyImageMime (mime f) = false ->
        createRoute h h' p s fields_name ft wrote
        = (s, no_files, RespError 400 "Thumbnail must be an image"))
  /\ (forall f e, Str.truthy name = true -> ft = Some f ->
        isLikelyImageMime (mime f) = true -> wrote = Throw e ->
        createRoute h h' p s fields_name ft wrote = (s, no_files, RespThrown e))
  /\ ((forall task, snd (createRoute h h' p s fields_name ft wrote) <> RespCreated task) ->
      fst (createRoute h h' p s fields_name ft wrote) = (s, no_files)).
Proof.
  cbv zeta. unfold createRoute.
  destruct (Str.truthy (Str.trim match fields_name with Some n => n | None => ""%string end));
    cbn [negb]; repeat split; try discriminate.
  - intros f _ -> M. rewrite M. reflexivity.
  - intros f e _ -> M ->. rewrite M. reflexivity.
  - intros H. destruct ft as [f|].
    + destruct (isLikelyImageMime (mime f)); cbn [negb]; [|reflexivity].
      destruct wrote as [[]|e]; [|reflexivity].
      exfalso. eapply H. reflexivity.
    + exfalso. eapply H. reflexivity.
Qed.

Lemma is_finite_of_SF x s m e : Prim2SF x = S754_finite s m e -> is_finite x = true.
Proof.
  intros E. unfold is_finite, is_infinity.
  rewrite NumFacts.is_nan_spec, eqb_spec, abs_spec, E. reflexivity.
Qed.

(** The Number of a time in milliseconds is finite and is not -0. *)
Lemma kept_number_of_Z z : 0 <= z < 2 ^ 53 -> kept_number (JS.of_Z z false) = true.
Proof.
  intros R. destruct z as [|q|q]; [reflexivity| |lia].
  pose proof (ExactFacts.Prim2SF_of_Z q ltac:(lia)) as E. unfold canon in E.
  cbv zeta in E. unfold kept_number, JS.Number_isFinite.
  rewrite (is_finite_of_SF _ _ _ _ E). cbn [andb].
  destruct (PrimFloat.Leibniz.eqb (JS.of_Z (Z.pos q) false) (-0)) eqn:L; [|reflexivity].
  apply FloatAxioms.Leibniz.eqb_spec in L. rewrite L in E. discriminate E.
Qed.

Lemma createRoute_created h h' p s fn ft wrote task :
  snd (createRoute h h' p s fn ft wrote) = RespCreated task ->
  exists n, fn = Some n /\ Str.truthy (Str.trim n) = true
            /\ match ft with Some f => isLikelyImageMime (mime f) | None => true end = true
            /\ (ft = None \/ wrote = Ok tt).
Proof.
  unfold createRoute. destruct fn as [n|]; [|discriminate].
  destruct (Str.truthy (Str.trim n)) eqn:N; [|discriminate]. cbn [negb].
  destruct ft as [f|]; [|intros _; exists n; repeat split; auto].
  destruct (isLikelyImageMime (mime f)); [|discriminate]. cbn [negb].
  destruct wrote as [[]|e]; [|discriminate]. intros _. exists n. repeat split; auto.
Qed.

Lemma createRoute_reply h h' p s fn ft wrote task :
  snd (createRoute h h' p s fn ft wrote) = RespCreated task ->
  exists h2 th,
    (h2 = h \/ h2 = h')
    /\ under_uploads th = true
    /\ task = {| id := randomUUID h;
                 name := Str.trim (match fn with Some n => n | None => ""%string end);
                 thumbnailUrl := th;
                 hopper := 0; streak := 0; dayKey := localDateKey h;
                 securedToday := false;
                 createdAt := Date_now h2; updatedAt := Date_now h2;
                 lastSecuredAt := None; lastSecuredReason := None |}
    /\ tasks (fst (fst (createRoute h h' p s fn ft wrote))) = tasks s ++ [task].
Proof.
  intros E. destruct (createRoute_created _ _ _ _ _ _ _ _ E) as (n & -> & N & M & W).
  assert (R : createRoute h h' p s (Some n) ft wrote
              = createRoute h h' p s (Some n) ft (Ok tt)).
  { destruct W as [-> | ->]; [|reflexivity]. unfold createRoute.
    destruct (negb (Str.truthy (Str.trim n))); reflexivity. }
  rewrite R in E |- *.
  pose proof (createRoute_accepts h h' p s n ft N M) as A. cbv zeta in A.
  rewrite A in E |- *. cbn [snd fst tasks set_st_updatedAt set_tasks] in E |- *.
  injection E as E. rewrite <- E.
  exists (match ft with Some _ => h' | None => h end). eexists.
  split; [destruct ft; auto|]. split; [|split; reflexivity].
  destruct ft; reflexivity.
Qed.

(** X28.  A task the route created is a task the rest of the program
    accepts.  When the random source gives a non-empty id, the local day of
    the host prints as a well-formed key and its clock is a time from 0 to
    2^53 - 1 ms, the created task passes every check of [normalizeTask]; so
    it is read back as it is after a save, and a rollover to the day of its
    creation changes nothing. *)
Theorem created_task_is_accepted h h' p s fields_name ft wrote task :
  snd (createRoute h h' p s fields_name ft wrote) = RespCreated task ->
  Str.truthy (randomUUID h) = true ->
  test_dateKey (localDateKey h) = true ->
  0 <= now_ms h < 2 ^ 53 ->
  0 <= now_ms h' < 2 ^ 53 ->
  accepted_task task = true
  /\ (forall h2, normalizeTask h2 (stored_task task) = Ok task)
  /\ (forall h2, processTaskToToday h2 task (localDateKey h) = (task, false)).
Proof.
  intros E U W T T'.
  destruct (createRoute_reply _ _ _ _ _ _ _ _ E) as (h2 & th & H2 & Th & -> & _).
  destruct (createRoute_created _ _ _ _ _ _ _ _ E) as (n & -> & N & _).
  assert (K : kept_number (Date_now h2) = true)
    by (destruct H2 as [-> | ->]; apply kept_number_of_Z; assumption).
  assert (A : accepted_task
                {| id := randomUUID h; name := Str.trim n; thumbnailUrl := th;
                   hopper := 0; streak := 0; dayKey := localDateKey h;
                   securedToday := false;
                   createdAt := Date_now h2; updatedAt := Date_now h2;
                   lastSecuredAt := None; lastSecuredReason := None |} = true).
  { unfold accepted_task.
    cbn [id name thumbnailUrl hopper streak dayKey securedToday createdAt updatedAt
         lastSecuredAt].
    rewrite U, trim_trim, String.eqb_refl, N, Th, W, K. reflexivity. }
  split; [exact A|]. split.
  - intros h3. apply normalizeTask_reads_back_aux, A.
  - intros h3. apply processTaskToToday_caught_up; cbn [dayKey];
      [exact W|apply gt_irrefl|rewrite dayDiff_same; lia].
Qed.

Lemma created_task_is_accepted_witness :
  accepted_task
    {| id := randomUUID host_nov3; name := "Swim"; thumbnailUrl := None;
       hopper := 0; streak := 0; dayKey := "2026-11-03"; securedToday := false;
       createdAt := Date_now host_nov3; updatedAt := Date_now host_nov3;
       lastSecuredAt := None; lastSecuredReason := None |} = true
  /\ (forall h2,
        normalizeTask h2
          (stored_task
             {| id := randomUUID host_nov3; name := "Swim"; thumbnailUrl := None;
                hopper := 0; streak := 0; dayKey := "2026-11-03"; securedToday := false;
                createdAt := Date_now host_nov3; updatedAt := Date_now host_nov3;
                lastSecuredAt := None; lastSecuredReason := None |})
        = Ok {| id := randomUUID host_nov3; name := "Swim"; thumbnailUrl := None;
                hopper := 0; streak := 0; dayKey := "2026-11-03"; securedToday := false;
                createdAt := Date_now host_nov3; updatedAt := Date_now host_nov3;
                lastSecuredAt := None; lastSecuredReason := None |})
  /\ (forall h2,
        processTaskToToday h2
          {| id := randomUUID host_nov3; name := "Swim"; thumbnailUrl := None;
             hopper := 0; streak := 0; dayKey := "2026-11-03"; securedToday := false;
             createdAt := Date_now host_nov3; updatedAt := Date_now host_nov3;
             lastSecuredAt := None; lastSecuredReason := None |}
          (localDateKey host_nov3)
        = ({| id := randomUUID host_nov3; name := "Swim"; thumbnailUrl := None;
              hopper := 0; streak := 0; dayKey := "2026-11-03"; securedToday := false;
              createdAt := Date_now host_nov3; updatedAt := Date_now host_nov3;
              lastSecuredAt := None; lastSecuredReason := None |}, false)).
Proof.
  apply (created_task_is_accepted host_nov3 host_nov3 paths_ex (state_ex [task_today])
           (Some "  Swim "%string) None (Ok tt)).
  - reflexivity.
  - reflexivity.
  - reflexivity.
  - vm_compute. split; [discriminate|reflexivity].
  - vm_compute. split; [discriminate|reflexivity].
Defined.

Lemma findIndex_split ts i :
  match findIndex ts i with
  | None => find_task ts i = None
  | Some idx =>
      exists before task after,
        ts = before ++ task :: after /\ List.length before = idx
        /\ forallb (fun t => negb (id t =? i)%string) before = true
        /\ id task = i /\ find_task ts i = Some task
        /\ splice1 ts idx = (before ++ after, [task])
  end.
Proof.
  induction ts as [|a r IH]; [reflexivity|]. cbn [findIndex find_task].
  destruct (id a =? i)%string eqn:E.
  - exists [], a, r. apply String.eqb_eq in E. repeat split; assumption.
  - destruct (findIndex r i) as [idx|]; cbn [option_map]; [|exact IH].
    destruct IH as (before & task & after & -> & L & B & I & F & S).
    exists (a :: before), task, after. cbn [List.length forallb app]. rewrite E, B, L.
    repeat split; try assumption.
    unfold splice1 in S |- *. cbn [firstn skipn app].
    injection S as S1 S2. rewrite S1, S2. reflexivity.
Qed.

(** X29.  DELETE removes the first task with the requested id, and only
    that one.  When no task has the id the reply is 404 and the registry is
    as it was, with nothing unlinked; otherwise the tasks before the first
    match (none of which has the id) and the tasks after it stay, in order,
    the registry is stamped with the time, and the file the route tries to
    unlink is the one [uploadsFilePathFromUrl] gives for the thumbnail of
    the removed task. *)
Theorem delete_removes_first_match h p s i :
  match findIndex (tasks s) i with
  | None =>
      find_task (tasks s) i = None
      /\ deleteRoute h p s i = (s, no_files, RespError 404 "Task not found")
  | Some idx =>
      exists before task after,
        tasks s = before ++ task :: after
        /\ List.length before = idx
        /\ forallb (fun t => negb (id t =? i)%string) before = true
        /\ id task = i
        /\ deleteRoute h p s i
           = (set_st_updatedAt (Date_now h) (set_tasks (before ++ after) s),
              {| written := None;
                 unlinked := uploadsFilePathFromUrl p (thumbnailUrl task) |},
              RespDeleted)
  end.
Proof.
  unfold deleteRoute. pose proof (findIndex_split (tasks s) i) as F.
  destruct (findIndex (tasks s) i) as [idx|]; [|split; [exact F|reflexivity]].
  destruct F as (before & task & after & T & L & B & I & _ & S).
  exists before, task, after. rewrite S. repeat split; assumption.
Qed.

Lemma find_task_app_fresh ts t i :
  find_task ts i = None -> id t = i ->
  findIndex (ts ++ [t]) i = Some (List.length ts)
  /\ splice1 (ts ++ [t]) (List.length ts) = (ts, [t]).
Proof.
  intros F I. induction ts as [|a r IH]; cbn [app findIndex List.length].
  - rewrite I, String.eqb_refl. split; reflexivity.
  - cbn [find_task] in F. destruct (id a =? i)%string; [discriminate|].
    destruct (IH F) as [X Y]. rewrite X. split; [reflexivity|].
    unfold splice1 in Y |- *. cbn [firstn skipn app].
    injection Y as Y1 Y2. rewrite Y1, Y2. reflexivity.
Qed.

(** X30.  Creating a task and deleting it again restores the tasks.  When
    the id drawn for the new task is not the id of a task of the registry,
    DELETE with that id on the registry the create route left removes the
    new task and nothing else: the tasks are those from before the
    creation, and the file it tries to unlink is the one of the new
    thumbnail. *)
Theorem create_then_delete h h' h3 p s fields_name ft wrote task :
  snd (createRoute h h' p s fields_name ft wrote) = RespCreated task ->
  find_task (tasks s) (randomUUID h) = None ->
  let s1 := fst (fst (createRoute h h' p s fields_name ft wrote)) in
  deleteRoute h3 p s1 (randomUUID h)
  = (set_st_updatedAt (Date_now h3) (set_tasks (tasks s) s1),
     {| written := None; unlinked := uploadsFilePathFromUrl p (thumbnailUrl task) |},
     RespDeleted).
Proof.
  intros E F s1.
  destruct (createRoute_reply _ _ _ _ _ _ _ _ E) as (h2 & th & _ & _ & Et & T).
  fold s1 in T. assert (I : id task = randomUUID h) by (rewrite Et; reflexivity).
  destruct (find_task_app_fresh (tasks s) task (randomUUID h) F I) as [X Y].
  unfold deleteRoute. rewrite T, X, Y. reflexivity.
Qed.

Lemma create_then_delete_witness :
  deleteRoute host_nov3 paths_ex
    (fst (fst (createRoute host_nov3 host_nov3 paths_ex (state_ex [task_today; task_other])
                 (Some "Swim"%string) None (Ok tt))))
    (randomUUID host_nov3)
  = (set_st_updatedAt (Date_now host_nov3)
       (set_tasks (tasks (state_ex [task_today; task_other]))
          (fst (fst (createRoute host_nov3 host_nov3 paths_ex
                       (state_ex [task_today; task_other])
                       (Some "Swim"%string) None (Ok tt))))),
     {| written := None;
        unlinked :=
          uploadsFilePathFromUrl paths_ex
            (thumbnailUrl
               {| id := randomUUID host_nov3; name := "Swim"; thumbnailUrl := None;
                  hopper := 0; streak := 0; dayKey := "2026-11-03"; securedToday := false;
                  createdAt := Date_now host_nov3; updatedAt := Date_now host_nov3;
                  lastSecuredAt := None; lastSecuredReason := None |}) |},
     RespDeleted).
Proof.
  apply (create_then_delete host_nov3 host_nov3 host_nov3 paths_ex
           (state_ex [task_today; task_other]) (Some "Swim"%string) None (Ok tt));
    reflexivity.
Defined.
